(** * Translator & Rephraser Pro: the orchestration core of deep_translator.py

    A shallow embedding of the translation / rephrase engine of
    [src/deep_translator.py] and the properties its specification states.

    Conventions of the embedding.
    - A Python [str] is a [string]; each character stands for one code point
      below 256.  Whitespace is what [str.strip()] and [str.isspace()] accept
      in that range.
    - Module globals ([last_selected_text], [history_data], ...) are the fields
      of one [world] record that every action threads through a state monad.
    - The network, the clock, the thread scheduler and the two library
      functions [datetime.strptime] and [re.sub] are parameters.
    - Message boxes and text-box updates are recorded as events. *)

From Stdlib Require Import String Ascii List Bool Arith Lia Permutation Sorted ZArith.
From Stdlib Require Import DecimalString.
From stdpp Require Import base gmap strings list.

(* ===================================================================== *)
(** * Python string primitives *)
(* ===================================================================== *)

Module PyStr.

Definition nl_char : ascii := "010"%char.
Definition quote_char : ascii := "034"%char.
Definition nl : string := String nl_char "".
Definition quote : string := String quote_char "".

(** [str.isspace] on one code point below 256: TAB..CR, FS..US, SPACE,
    NEL (0x85) and NBSP (0xA0). *)
Definition is_space (c : ascii) : bool :=
  let n := nat_of_ascii c in
  (((9 <=? n) && (n <=? 13)) || ((28 <=? n) && (n <=? 32))
   || (n =? 133) || (n =? 160))%nat.

Fixpoint lstrip (s : string) : string :=
  match s with
  | "" => ""
  | String c s' => if is_space c then lstrip s' else s
  end.

Fixpoint rstrip (s : string) : string :=
  match s with
  | "" => ""
  | String c s' =>
      match rstrip s' with
      | "" => if is_space c then "" else String c ""
      | r => String c r
      end
  end.

(** [s.strip()] *)
Definition strip (s : string) : string := rstrip (lstrip s).

(** [s.startswith(p)] *)
Fixpoint startswith (s p : string) : bool :=
  match p, s with
  | "", _ => true
  | String _ _, "" => false
  | String a p', String b s' => if Ascii.eqb a b then startswith s' p' else false
  end.

(** [s[n:]] *)
Fixpoint drop (n : nat) (s : string) : string :=
  match n, s with
  | O, _ => s
  | S _, "" => ""
  | S n', String _ s' => drop n' s'
  end.

(** [bool(s)]: a string is truthy when it is not empty. *)
Definition truthy (s : string) : bool :=
  match s with "" => false | _ => true end.

(** [s.split("\n")] *)
Fixpoint split_nl (s : string) : list string :=
  match s with
  | "" => [""]
  | String c s' =>
      if Ascii.eqb c nl_char then "" :: split_nl s'
      else match split_nl s' with
           | h :: t => String c h :: t
           | [] => [String c ""]
           end
  end.

(** ["\n".join(parts)] *)
Definition join_nl (parts : list string) : string := String.concat nl parts.

(** [s.replace(old, new)] for a non-empty [old]: leftmost, non-overlapping
    occurrences.  [skip] counts the characters of a match still to be
    passed over. *)
Fixpoint replace_go (old new : string) (skip : nat) (s : string) : string :=
  match s with
  | "" => ""
  | String c s' =>
      match skip with
      | S k => replace_go old new k s'
      | O =>
          if startswith s old
          then new +:+ replace_go old new (String.length old - 1) s'
          else String c (replace_go old new 0 s')
      end
  end.

Definition replace (s old new : string) : string := replace_go old new 0 s.

(** [c.lower()] on one code point below 256: A..Z and the Latin-1 capitals
    0xC0..0xDE (but not the multiplication sign 0xD7) move up by 32. *)
Definition lower_char (c : ascii) : ascii :=
  let n := nat_of_ascii c in
  if (((65 <=? n) && (n <=? 90))
      || ((192 <=? n) && (n <=? 222) && negb (n =? 215)))%nat
  then ascii_of_nat (n + 32) else c.

Fixpoint lower (s : string) : string :=
  match s with
  | "" => ""
  | String c s' => String (lower_char c) (lower s')
  end.

(** [str(n)] for a non-negative integer. *)
Definition str_of_nat (n : nat) : string :=
  NilZero.string_of_uint (Nat.to_uint n).

(** [needle in s] *)
Fixpoint contains (s needle : string) : bool :=
  startswith s needle ||
  match s with
  | "" => false
  | String _ s' => contains s' needle
  end.

(** The character [c] occurs in [s]. *)
Fixpoint has_char (c : ascii) (s : string) : bool :=
  match s with
  | "" => false
  | String a s' => Ascii.eqb a c || has_char c s'
  end.

End PyStr.

(* ===================================================================== *)
(** * Language tables and the DeepL code helpers *)
(* ===================================================================== *)

(** [supported_languages["DeepL"]]: display name to DeepL code. *)
Definition supported_languages_DeepL : gmap string string :=
  list_to_map
    [ ("Turkish", "TR"); ("German", "DE"); ("French", "FR"); ("Spanish", "ES");
      ("Italian", "IT"); ("Portuguese", "PT-PT"); ("Dutch", "NL");
      ("Polish", "PL"); ("Russian", "RU"); ("Japanese", "JA");
      ("Chinese (simplified)", "ZH");
      ("English", "EN-GB"); ("English-GB", "EN-GB"); ("English-US", "EN-US") ].

(** [supported_languages["OpenAI"]] and [supported_languages["DeepSeek"]]
    hold the same pairs. *)
Definition supported_languages_LLM : gmap string string :=
  list_to_map
    [ ("Turkish", "Turkish"); ("German", "German"); ("French", "French");
      ("Spanish", "Spanish"); ("Italian", "Italian");
      ("Portuguese", "Portuguese"); ("Dutch", "Dutch"); ("Polish", "Polish");
      ("Russian", "Russian"); ("Japanese", "Japanese"); ("Chinese", "Chinese");
      ("English", "English") ].

Definition supported_languages : gmap string (gmap string string) :=
  list_to_map
    [ ("DeepL", supported_languages_DeepL);
      ("OpenAI", supported_languages_LLM);
      ("DeepSeek", supported_languages_LLM) ].

(** [d.get(k, dflt)] *)
Definition dict_get (d : gmap string string) (k dflt : string) : string :=
  default dflt (d !! k).

Definition get_deepl_source_code (lang : string) : string :=
  let code := dict_get supported_languages_DeepL lang lang in
  if bool_decide (code = "EN-GB") || bool_decide (code = "EN-US") then "EN"
  else if bool_decide (code = "PT-PT") then "PT"
  else code.

Definition get_deepl_target_code (lang : string) : string :=
  dict_get supported_languages_DeepL lang lang.

(** [style_options] *)
Definition style_options : gmap string string :=
  list_to_map
    [ ("Simple English", "in simple and clear English");
      ("Business English", "in professional business English");
      ("Casual English", "in casual conversational English") ].

(* ===================================================================== *)
(** * History entries and the sort by timestamp *)
(* ===================================================================== *)

(** One history item: the dictionary with the six keys the program writes. *)
Record history_entry := mk_entry {
  e_time : string;
  e_original : string;
  e_translated : string;
  e_rephrased : string;
  e_provider : string;
  e_target_language : string
}.

Global Instance history_entry_eq_dec : EqDecision history_entry.
Proof. solve_decision. Defined.

(** [list.sort(key=..., reverse=True)] is a stable sort: entries with equal
    keys keep their order.  The keys are computed once, before any move
    (decorate, sort, undecorate). *)
Section StableSort.
Context {A : Type}.

Fixpoint insert_desc (x : Z * A) (l : list (Z * A)) : list (Z * A) :=
  match l with
  | [] => [x]
  | y :: l' =>
      if (x.1 <? y.1)%Z then y :: insert_desc x l' else x :: y :: l'
  end.

Fixpoint sort_desc (l : list (Z * A)) : list (Z * A) :=
  match l with
  | [] => []
  | x :: l' => insert_desc x (sort_desc l')
  end.

(** The keys of all elements, or [None] when one key function call raises. *)
Fixpoint decorate (key : A -> option Z) (l : list A) : option (list (Z * A)) :=
  match l with
  | [] => Some []
  | x :: l' =>
      match key x, decorate key l' with
      | Some k, Some r => Some ((k, x) :: r)
      | _, _ => None
      end
  end.
End StableSort.

(* ===================================================================== *)
(** * Values, exceptions and events *)
(* ===================================================================== *)

(** What [ask_ai] and the action threads hand to [update_result]: a [str], a
    [dict] from keys to text, or [None]. *)
Inductive pyval :=
| PStr (s : string)
| PDict (d : gmap string string)
| PNone.

(** Exception classes the handlers of the program tell apart.
    [AuthorizationException] is a [DeepLException]; [RequestsTimeout] is a
    [RequestException]; [ConnectionError] is the built-in one. *)
Inductive exn_class :=
| AuthorizationException
| DeepLException
| RequestsTimeout
| RequestException
| ConnectionError
| ValueError
| OtherException.

Record exn := mk_exn {
  exn_cls : exn_class;
  exn_name : string;    (* type(e).__name__ *)
  exn_str : string      (* str(e) *)
}.

Definition is_DeepLException (e : exn) : bool :=
  match exn_cls e with
  | AuthorizationException | DeepLException => true
  | _ => false
  end.

Definition is_RequestException (e : exn) : bool :=
  match exn_cls e with
  | RequestsTimeout | RequestException => true
  | _ => false
  end.

(** The result of a call that may raise. *)
Inductive reply (A : Type) :=
| Returned (a : A)
| Raised (e : exn).
Arguments Returned {A} a.
Arguments Raised {A} e.

(** The JSON body of a DeepSeek answer, as far as [ask_ai] looks at it: a
    non-empty ["choices"] whose first message has the given content, or
    anything else, of which only the printed form is used. *)
Inductive deepseek_json :=
| ds_choices (content : option string)
| ds_other (printed : string).

(** Requests that leave the machine. *)
Inductive net_call :=
| DeepL_translate_text (text source_lang target_lang : string)
| OpenAI_chat_create (prompt : string)
| DeepSeek_post (prompt : string).

(** What the user sees. *)
Inductive ui_event :=
| showwarning (title message : string)
| showerror (title message : string)
| showinfo (title message : string)
| set_textboxes (gui_original gui_translated gui_rephrased : string)
| set_rephrased_textbox (text : string)
| update_button_states (action_was_tr_to_en : bool)
| update_history_window_content.

(** An XML document on disk: absent, not well-formed, or a root element with
    its children, each child with its own children as (tag, text) pairs. *)
Inductive xml_file :=
| xml_missing
| xml_parse_error (msg : string)
| xml_root (tag : string) (children : list (string * list (string * option string))).

(* ===================================================================== *)
(** * The world the actions run in *)
(* ===================================================================== *)

(** Settings that no action of the engine writes. *)
Record environment := mk_env {
  api_provider_var : option string;
  source_language_var : option string;
  target_language_var : option string;
  style_var : option string;
  openai_client : bool;                 (* the client object exists *)
  DEEPSEEK_API_KEY : option string;
  deepl_translator : bool;              (* the translator object exists *)
  clock : string     (* datetime.now().strftime("%Y-%m-%d %H:%M:%S") *)
}.

Record world := mk_world {
  env : environment;
  last_selected_text : string;
  last_translation : string;
  last_history_source_language : string;
  last_history_target_language : string;
  history_data : list history_entry;
  HISTORY_FILE : option (list history_entry);   (* the items last written *)
  net_log : list net_call;
  ui_log : list ui_event
}.

Definition M (A : Type) : Type := world -> A * world.

Global Instance M_ret : MRet M := fun A x w => (x, w).
Global Instance M_bind : MBind M :=
  fun A B f m w => let '(x, w') := m w in f x w'.

Definition get_world : M world := fun w => (w, w).

Definition set_last_selected_text (v : string) : M unit := fun w =>
  (tt, mk_world (env w) v (last_translation w)
         (last_history_source_language w) (last_history_target_language w)
         (history_data w) (HISTORY_FILE w) (net_log w) (ui_log w)).

Definition set_last_translation (v : string) : M unit := fun w =>
  (tt, mk_world (env w) (last_selected_text w) v
         (last_history_source_language w) (last_history_target_language w)
         (history_data w) (HISTORY_FILE w) (net_log w) (ui_log w)).

Definition set_last_history_source_language (v : string) : M unit := fun w =>
  (tt, mk_world (env w) (last_selected_text w) (last_translation w)
         v (last_history_target_language w)
         (history_data w) (HISTORY_FILE w) (net_log w) (ui_log w)).

Definition set_last_history_target_language (v : string) : M unit := fun w =>
  (tt, mk_world (env w) (last_selected_text w) (last_translation w)
         (last_history_source_language w) v
         (history_data w) (HISTORY_FILE w) (net_log w) (ui_log w)).

Definition set_history_data (v : list history_entry) : M unit := fun w =>
  (tt, mk_world (env w) (last_selected_text w) (last_translation w)
         (last_history_source_language w) (last_history_target_language w)
         v (HISTORY_FILE w) (net_log w) (ui_log w)).

Definition write_HISTORY_FILE (v : list history_entry) : M unit := fun w =>
  (tt, mk_world (env w) (last_selected_text w) (last_translation w)
         (last_history_source_language w) (last_history_target_language w)
         (history_data w) (Some v) (net_log w) (ui_log w)).

Definition send (c : net_call) : M unit := fun w =>
  (tt, mk_world (env w) (last_selected_text w) (last_translation w)
         (last_history_source_language w) (last_history_target_language w)
         (history_data w) (HISTORY_FILE w) (net_log w ++ [c]) (ui_log w)).

Definition ui (e : ui_event) : M unit := fun w =>
  (tt, mk_world (env w) (last_selected_text w) (last_translation w)
         (last_history_source_language w) (last_history_target_language w)
         (history_data w) (HISTORY_FILE w) (net_log w) (ui_log w ++ [e])).

(** [if c: body] *)
Definition when (c : bool) (body : M unit) : M unit :=
  if c then body else mret tt.

(** [for x in xs: results.append(f(x))] *)
Fixpoint for_each {A B : Type} (f : A -> M B) (xs : list A) : M (list B) :=
  match xs with
  | [] => mret []
  | x :: xs' => y ← f x; ys ← for_each f xs'; mret (y :: ys)
  end.

(** [full_result.startswith("__ERROR__::")] for a [str], [False] otherwise. *)
Definition ERROR_PREFIX : string := "__ERROR__::".

Definition is_error (v : pyval) : bool :=
  match v with
  | PStr s => PyStr.startswith s ERROR_PREFIX
  | _ => false
  end.

(* ===================================================================== *)
(** * Prompts *)
(* ===================================================================== *)

Definition get_selected_style (e : environment) : string :=
  let simple := dict_get style_options "Simple English" "" in
  match style_var e with
  | Some v => dict_get style_options v simple
  | None => simple
  end.

Definition full_prompt (e : environment) (text source_language target_language : string)
  : string :=
  let style := get_selected_style e in
  let provider := default "DeepSeek" (api_provider_var e) in
  if bool_decide (provider = "OpenAI") || bool_decide (provider = "DeepSeek") then
    PyStr.nl +:+ "Given the following text in " +:+ source_language +:+ ":"
    +:+ PyStr.nl +:+ PyStr.nl
    +:+ PyStr.quote +:+ text +:+ PyStr.quote +:+ PyStr.nl +:+ PyStr.nl
    +:+ "1. Translate it into " +:+ target_language +:+ "." +:+ PyStr.nl
    +:+ "2. Rephrase the ORIGINAL " +:+ source_language +:+ " text " +:+ style
    +:+ "." +:+ PyStr.nl +:+ PyStr.nl
    +:+ "Respond ONLY in this format:" +:+ PyStr.nl
    +:+ target_language +:+ " Translation: ..." +:+ PyStr.nl
    +:+ source_language +:+ " Rephrased: ..." +:+ PyStr.nl
  else "".

Definition rephrase_prompt (e : environment) (text source_language : string) : string :=
  let style := get_selected_style e in
  "Rephrase the following text in " +:+ source_language +:+ " " +:+ style
  +:+ " in 5 different ways. Provide the results in a numbered list (1. ..., 2. ..., etc.) without extra comments:"
  +:+ PyStr.nl +:+ PyStr.nl +:+ text.

Definition translate_to_source_prompt (text source_language : string) : string :=
  "Translate the following text into " +:+ source_language +:+ ":"
  +:+ PyStr.nl +:+ PyStr.nl +:+ text.

(* ===================================================================== *)
(** * Parsing the two labelled sections of an LLM answer
      ([update_result], branch C2) *)
(* ===================================================================== *)

Inductive section_name := sec_trans | sec_rep.

(** The local variables of the loop over the lines. *)
Record parse_state := mk_parse_state {
  found_tr : bool;
  found_rep : bool;
  cur_section : option section_name;
  trans_parts : list string;
  rep_parts : list string
}.

Definition parse_init : parse_state := mk_parse_state false false None [] [].

(** One turn of [for line in lines]. *)
Definition parse_line (tr_keyword rep_keyword : string)
    (st : parse_state) (line : string) : parse_state :=
  let l := PyStr.strip line in
  if negb (PyStr.truthy l) then st
  else if PyStr.startswith l tr_keyword && negb (found_tr st) then
    mk_parse_state true (found_rep st) (Some sec_trans)
      (trans_parts st ++ [PyStr.strip (PyStr.drop (String.length tr_keyword) l)])
      (rep_parts st)
  else if PyStr.startswith l rep_keyword && found_tr st && negb (found_rep st) then
    mk_parse_state (found_tr st) true (Some sec_rep)
      (trans_parts st)
      (rep_parts st ++ [PyStr.strip (PyStr.drop (String.length rep_keyword) l)])
  else
    match cur_section st with
    | Some sec_trans =>
        mk_parse_state (found_tr st) (found_rep st) (cur_section st)
          (trans_parts st ++ [l]) (rep_parts st)
    | Some sec_rep =>
        mk_parse_state (found_tr st) (found_rep st) (cur_section st)
          (trans_parts st) (rep_parts st ++ [l])
    | None => st
    end.

Definition TRANSLATION_NOT_FOUND : string := "[Translation not found in LLM response]".
Definition REPHRASING_NOT_FOUND : string := "[Rephrasing not found in LLM response]".

(** The pair [(history_translated, history_rephrased)] computed from the raw
    answer; [source_language] and [target_language] are
    [last_history_source_language] and [last_history_target_language]. *)
Definition parse_llm_response (full_result source_language target_language : string)
  : string * string :=
  let lines := PyStr.split_nl (PyStr.strip full_result) in
  let tr_keyword := target_language +:+ " Translation:" in
  let rep_keyword := source_language +:+ " Rephrased:" in
  let st := fold_left (parse_line tr_keyword rep_keyword) lines parse_init in
  (if found_tr st then PyStr.strip (PyStr.join_nl (trans_parts st))
   else TRANSLATION_NOT_FOUND,
   if found_rep st then PyStr.strip (PyStr.join_nl (rep_parts st))
   else REPHRASING_NOT_FOUND).

(** ** The parser as the specification describes it *)

(** Split a list at the first element that satisfies [p]. *)
Fixpoint break_at {A : Type} (p : A -> bool) (l : list A)
  : option (list A * A * list A) :=
  match l with
  | [] => None
  | x :: l' =>
      if p x then Some ([], x, l')
      else match break_at p l' with
           | Some (pre, y, post) => Some (x :: pre, y, post)
           | None => None
           end
  end.

(** The two sections of a list of lines: the first line with the translation
    label opens the translation section; the first later line with the
    rephrase label opens the rephrase section; every other line goes to the
    open section as it is; lines before the first label are dropped.
    [capture] is applied to what follows a label on its line. *)
Definition sections (capture : string -> string) (lines : list string)
    (tr_keyword rep_keyword : string) : string * string :=
  match break_at (fun l => PyStr.startswith l tr_keyword) lines with
  | None => (TRANSLATION_NOT_FOUND, REPHRASING_NOT_FOUND)
  | Some (_, l0, rest) =>
      let first := capture (PyStr.drop (String.length tr_keyword) l0) in
      match break_at (fun l => PyStr.startswith l rep_keyword) rest with
      | None => (PyStr.strip (PyStr.join_nl (first :: rest)), REPHRASING_NOT_FOUND)
      | Some (mid, l1, post) =>
          (PyStr.strip (PyStr.join_nl (first :: mid)),
           PyStr.strip (PyStr.join_nl
             (capture (PyStr.drop (String.length rep_keyword) l1) :: post)))
      end
  end.

(** The lines the code works on: each line stripped, blank lines dropped. *)
Definition stripped_lines (text : string) : list string :=
  List.filter PyStr.truthy (map PyStr.strip (PyStr.split_nl (PyStr.strip text))).

(** The lines as the specification has them: blank lines dropped, the others
    verbatim. *)
Definition verbatim_lines (text : string) : list string :=
  List.filter (fun l => PyStr.truthy (PyStr.strip l))
    (PyStr.split_nl (PyStr.strip text)).

(** The parser in the words of the specification: lines are matched and
    appended verbatim, and each section's concatenation is trimmed. *)
Definition parse_verbatim (full_result source_language target_language : string)
  : string * string :=
  sections (fun s => s) (verbatim_lines full_result)
    (target_language +:+ " Translation:") (source_language +:+ " Rephrased:").

(** The parser as the code runs it, stated section by section: the same
    scan over the stripped lines. *)
Definition parse_stripped (full_result source_language target_language : string)
  : string * string :=
  sections PyStr.strip (stripped_lines full_result)
    (target_language +:+ " Translation:") (source_language +:+ " Rephrased:").

(* ===================================================================== *)
(** * Fan-out rephrase: collecting and formatting the candidates
      ([process_deepl_results]) *)
(* ===================================================================== *)

(** One turn of [for res in results]. *)
Definition collect_valid (valid_rephrases : list string) (res : pyval) : list string :=
  match res with
  | PStr s =>
      if negb (PyStr.startswith s ERROR_PREFIX) then
        let res_strip := PyStr.strip s in
        if PyStr.truthy res_strip then valid_rephrases ++ [res_strip]
        else valid_rephrases
      else valid_rephrases
  | _ => valid_rephrases
  end.

Definition valid_rephrases (results : list pyval) : list string :=
  fold_left collect_valid results [].

Definition display_limit : nat := 5.

Definition NO_VALID_REPHRASES : string :=
  "[No valid rephrased alternatives found using multi-language translation.]".

(** [f"{i+1}. {phrase}"] *)
Definition numbered (i : nat) (phrase : string) : string :=
  PyStr.str_of_nat (i + 1) +:+ ". " +:+ phrase.

Definition overflow_note (n : nat) : string :=
  PyStr.nl +:+ "... (" +:+ PyStr.str_of_nat n +:+ " results found)".

Definition format_rephrases (valid : list string) : string :=
  match valid with
  | [] => NO_VALID_REPHRASES
  | _ =>
      let formatted_output :=
        PyStr.join_nl (imap numbered (take display_limit valid)) in
      if (display_limit <? length valid)%nat
      then formatted_output +:+ overflow_note (length valid)
      else formatted_output
  end.

(** A result is a candidate when it is a string, is not an error and is not
    blank. *)
Definition is_candidate (res : pyval) : bool :=
  match res with
  | PStr s => negb (PyStr.startswith s ERROR_PREFIX) && PyStr.truthy (PyStr.strip s)
  | _ => false
  end.

Definition candidate_text (res : pyval) : string :=
  match res with
  | PStr s => PyStr.strip s
  | _ => ""
  end.

(* ===================================================================== *)
(** * Back-translation: cleaning the LLM answer ([translate_to_source]) *)
(* ===================================================================== *)

Definition clean_back_translation (raw_llm_result final_target_lang_display : string)
  : string :=
  let cleaned_res := PyStr.replace (PyStr.strip raw_llm_result) PyStr.quote "" in
  let kw := final_target_lang_display +:+ " Translation:" in
  if PyStr.startswith (PyStr.lower cleaned_res) (PyStr.lower kw)
  then PyStr.strip (PyStr.drop (String.length kw) cleaned_res)
  else cleaned_res.

(* ===================================================================== *)
(** * Reading and merging history files *)
(* ===================================================================== *)

(** [child = item.find(field)] then [child.text], with [""] for a missing
    child or an empty element. *)
Definition field_text (children : list (string * option string)) (field : string)
  : string :=
  match List.find (fun c => bool_decide (c.1 = field)) children with
  | Some (_, Some t) => t
  | _ => ""
  end.

(** The loop over [required_fields]; ['time'] comes first, and an item
    without a time is skipped. *)
Definition read_item (children : list (string * option string)) : option history_entry :=
  let t := field_text children "time" in
  if negb (PyStr.truthy t) then None
  else Some (mk_entry t
               (field_text children "original")
               (field_text children "translated")
               (field_text children "rephrased")
               (field_text children "provider")
               (field_text children "target_language")).

(** [for entry_elem in root.findall('item')] *)
Definition read_items (children : list (string * list (string * option string)))
  : list history_entry :=
  omap (fun c => if bool_decide (c.1 = "item") then read_item c.2 else None) children.

(** [{entry.get('time') for entry in history_data if entry.get('time')}] *)
Definition existing_times (history : list history_entry) : gset string :=
  list_to_set (List.filter PyStr.truthy (map e_time history)).

(** [[entry for entry in loaded_entries if entry.get('time') not in existing_times]] *)
Definition unique_new_entries (history loaded_entries : list history_entry)
  : list history_entry :=
  List.filter (fun entry => bool_decide (e_time entry ∉ existing_times history))
    loaded_entries.

(** [save_history_to_xml(l)]: the file holds one item per entry of [l].
    Faults of the file system, which the function reports in a message box,
    are outside this model. *)
Definition save_history_to_xml (history_data_to_save : list history_entry) : M unit :=
  write_HISTORY_FILE history_data_to_save.

(* ===================================================================== *)
(** * A timestamp reader to run examples with *)
(* ===================================================================== *)

Module Timestamp.

Definition digit (c : ascii) : option Z :=
  let n := nat_of_ascii c in
  if ((48 <=? n) && (n <=? 57))%nat then Some (Z.of_nat (n - 48)) else None.

Definition two (a b : ascii) : option Z :=
  match digit a, digit b with
  | Some x, Some y => Some (10 * x + y)%Z
  | _, _ => None
  end.

Definition four (a b c d : ascii) : option Z :=
  match two a b, two c d with
  | Some x, Some y => Some (100 * x + y)%Z
  | _, _ => None
  end.

Definition leap (y : Z) : bool :=
  ((y mod 4 =? 0) && negb (y mod 100 =? 0) || (y mod 400 =? 0))%Z.

Definition days_in_month (y m : Z) : Z :=
  if (m =? 2)%Z then (if leap y then 29 else 28)
  else if ((m =? 4) || (m =? 6) || (m =? 9) || (m =? 11))%Z then 30
  else 31.

Definition in_range (lo x hi : Z) : bool := ((lo <=? x) && (x <=? hi))%Z.

(** The zero-padded form ["YYYY-MM-DD HH:MM:SS"] that [strftime] writes,
    read as a position on the time line; any other string is refused.
    The library parser accepts this form with the same order of results. *)
Definition strptime_padded (s : string) : option Z :=
  match s with
  | String y1 (String y2 (String y3 (String y4 (String "-"
     (String m1 (String m2 (String "-" (String d1 (String d2 (String " "
      (String h1 (String h2 (String ":" (String n1 (String n2 (String ":"
       (String s1 (String s2 "")))))))))))))))))) =>
      match four y1 y2 y3 y4, two m1 m2, two d1 d2,
            two h1 h2, two n1 n2, two s1 s2 with
      | Some y, Some m, Some d, Some h, Some n, Some sec =>
          if in_range 1 y 9999 && in_range 1 m 12
             && in_range 1 d (days_in_month y m)
             && in_range 0 h 23 && in_range 0 n 59 && in_range 0 sec 59
          then Some (((((y * 13 + m) * 32 + d) * 24 + h) * 60 + n) * 60 + sec)%Z
          else None
      | _, _, _, _, _, _ => None
      end
  | _ => None
  end.

End Timestamp.

(* ===================================================================== *)
(** * Notions of the specification *)
(* ===================================================================== *)

(** The base code a regional DeepL code collapses to when it names the
    language of the text to translate. *)
Definition base_code (code : string) : string :=
  if bool_decide (code = "EN-GB") || bool_decide (code = "EN-US") then "EN"
  else if bool_decide (code = "PT-PT") then "PT"
  else code.

(** The display names of the DeepL table. *)
Definition display_languages : list string :=
  [ "Turkish"; "German"; "French"; "Spanish"; "Italian"; "Portuguese"; "Dutch";
    "Polish"; "Russian"; "Japanese"; "Chinese (simplified)";
    "English"; "English-GB"; "English-US" ].

(** The placeholders the rephrased field degrades to when the second hop of
    Translate fails. *)
Definition rephrase_placeholder (r : reply string) : option string :=
  match r with
  | Returned "" => Some "[Rephrasing resulted in empty text]"
  | Returned _ => None
  | Raised e =>
      Some (if is_DeepLException e
            then "[Rephrasing Error: " +:+ exn_name e +:+ "]"
            else "[Unexpected Rephrasing Error]")
  end.

(* ===================================================================== *)
(** * Sample data for the examples *)
(* ===================================================================== *)

Module Sample.

Definition environment_of (provider : string) : environment :=
  mk_env (Some provider) (Some "English") (Some "Turkish")
    (Some "Simple English") true (Some "sk-0123456789") true
    "2025-03-01 10:00:00".

Definition entry_at (t original : string) : history_entry :=
  mk_entry t original "Merhaba" "Hi there" "DeepL" "English -> Turkish".

(** A session after one successful translation. *)
Definition after_translate (provider : string) : world :=
  mk_world (environment_of provider) "Good morning" "Gunaydin"
    "English" "Turkish"
    [entry_at "2025-02-01 09:00:00" "Good morning"]
    (Some [entry_at "2025-02-01 09:00:00" "Good morning"]) [] [].

(** The same session with German as the target language. *)
Definition to_german : world :=
  mk_world
    (mk_env (Some "DeepL") (Some "English") (Some "German")
       (Some "Simple English") true (Some "sk-0123456789") true
       "2025-03-01 10:00:00")
    "Good morning" "Gunaydin" "English" "Turkish"
    [entry_at "2025-02-01 09:00:00" "Good morning"]
    (Some [entry_at "2025-02-01 09:00:00" "Good morning"]) [] [].

(** A store with two entries, newest first. *)
Definition two_entries : world :=
  mk_world (environment_of "DeepL") "Good morning" "Gunaydin"
    "English" "Turkish"
    [entry_at "2025-02-01 09:00:00" "Good morning";
     entry_at "2025-01-15 08:00:00" "Good night"]
    (Some [entry_at "2025-02-01 09:00:00" "Good morning";
           entry_at "2025-01-15 08:00:00" "Good night"]) [] [].

(** A fresh session: nothing translated yet. *)
Definition fresh (provider : string) : world :=
  mk_world (environment_of provider) "" "" "" "" [] None [] [].

(** A translator that answers every request with a fixed text per target
    language and fails for Russian. *)
Definition translator (text : string) (source_lang : option string)
    (target_lang : string) : reply string :=
  if bool_decide (target_lang = "TR") then Returned "Gunaydin"
  else if bool_decide (target_lang = "RU")
  then Raised (mk_exn DeepLException "QuotaExceededException" "Quota exceeded")
  else if bool_decide (target_lang = "EN-GB") then Returned "Good day"
  else Returned "".

(** A translator whose second hop fails. *)
Definition one_way_translator (text : string) (source_lang : option string)
    (target_lang : string) : reply string :=
  if bool_decide (target_lang = "TR") then Returned "Gunaydin"
  else Raised (mk_exn DeepLException "DeepLException" "Bad request").

(** A chat model that echoes a label in lower case and quotes its answer. *)
Definition chat (prompt : option string) : reply (option string) :=
  Returned (Some ("english translation: " +:+ PyStr.quote +:+ "He said "
                  +:+ PyStr.quote +:+ "hi" +:+ PyStr.quote +:+ PyStr.quote)).

Definition post (prompt : option string) : reply deepseek_json :=
  Returned (ds_choices (Some "1. Good morning to you")).

Definition re_sub (s : string) : string := s.
Definition dict_str (d : gmap string string) : string := "{...}".
Definition basename (path : string) : string := path.

Definition item (t original : string) : string * list (string * option string) :=
  ("item", [ ("time", Some t); ("provider", Some "OpenAI");
             ("original", Some original); ("translated", Some "Hallo");
             ("rephrased", Some "Hi"); ("target_language", Some "English -> German") ]).

Definition imported (t original : string) : history_entry :=
  mk_entry t original "Hallo" "Hi" "OpenAI" "English -> German".

(** A file with the time of the newest entry of [two_entries], under
    other fields, and with a new time. *)
Definition merge_example_file : xml_file :=
  xml_root "history"
    [ item "2025-02-01 09:00:00" "Another morning";
      item "2025-02-10 12:00:00" "Good afternoon" ].

(** A file whose last item carries a time that is no timestamp. *)
Definition malformed_file : xml_file :=
  xml_root "history"
    [ item "2024-01-01 00:00:00" "First";
      item "2025-01-01 00:00:00" "Second";
      item "yesterday" "Third" ].

(** A session whose DeepL translator object was never created. *)
Definition no_translator : world :=
  mk_world
    (mk_env (Some "DeepL") (Some "English") (Some "Turkish")
       (Some "Simple English") true (Some "sk-0123456789") false
       "2025-03-01 10:00:00")
    "Good morning" "Gunaydin" "English" "Turkish"
    [entry_at "2025-02-01 09:00:00" "Good morning"]
    (Some [entry_at "2025-02-01 09:00:00" "Good morning"]) [] [].

(** The session of [after_translate] with Russian as the target language. *)
Definition to_russian : world :=
  mk_world
    (mk_env (Some "DeepL") (Some "English") (Some "Russian")
       (Some "Simple English") true (Some "sk-0123456789") true
       "2025-03-01 10:00:00")
    "Good morning" "Gunaydin" "English" "Turkish"
    [entry_at "2025-02-01 09:00:00" "Good morning"]
    (Some [entry_at "2025-02-01 09:00:00" "Good morning"]) [] [].

(** A chat model that answers in the format the prompt asks for. *)
Definition formatted_chat (prompt : option string) : reply (option string) :=
  Returned (Some ("Turkish Translation: Gunaydin" +:+ PyStr.nl
                  +:+ "English Rephrased: Good morning to you")).

(** An environment after a reload that left only the OpenAI client, with a
    provider and a source language selected that are no longer on offer. *)
Definition only_openai : environment :=
  mk_env (Some "DeepSeek") (Some "Chinese (simplified)") (Some "Turkish")
    (Some "Simple English") true None false "2025-03-01 10:00:00".

End Sample.

(* ===================================================================== *)
(** * The engine *)
(* ===================================================================== *)

Section Engine.

Set Default Proof Using "Type".

(** [datetime.strptime(s, "%Y-%m-%d %H:%M:%S")]: the moment read from [s],
    as a position on the time line, or [None] when it raises
    [ValueError]. *)
Variable strptime : string -> option Z.
(** [re.sub(r'\n\s*\n', '\n', s)] *)
Variable re_sub_blank_lines : string -> string.
(** [str(d)] for a dictionary [d]. *)
Variable dict_str : gmap string string -> string.
(** [os.path.basename] *)
Variable basename : string -> string.
(** [deepl_translator.translate_text(text, source_lang=, target_lang=)]
    and then [.text]. *)
Variable translate_text : string -> option string -> string -> reply string.
(** [openai_client.chat.completions.create(...)] and then
    [.choices[0].message.content]. *)
Variable chat_completions_create : option string -> reply (option string).
(** [requests.post(...)], [raise_for_status()] and [r.json()]. *)
Variable requests_post : option string -> reply deepseek_json.

(** ** History: sort, merge *)

Definition sort_key (x : history_entry) : option Z := strptime (e_time x).

(** A [ValueError] of a key is caught and the list stays as it was. *)
Definition sort_history_data : M unit :=
  w ← get_world;
  match decorate sort_key (history_data w) with
  | Some keyed => set_history_data (map snd (sort_desc keyed))
  | None => mret tt
  end.

Definition load_history_from_path (filepath : string) (file : xml_file)
  : bool * string * list history_entry :=
  if negb (PyStr.truthy filepath) then (false, "No file path provided.", [])
  else
    match file with
    | xml_missing =>
        (false, "File not found:" +:+ PyStr.nl +:+ basename filepath, [])
    | xml_parse_error msg =>
        (false, "Error parsing XML file '" +:+ basename filepath +:+ "': " +:+ msg, [])
    | xml_root tag children =>
        if negb (bool_decide (tag = "history")) then
          (false, "Invalid root tag '" +:+ tag +:+ "' in file '"
                  +:+ basename filepath +:+ "'. Expected 'history'.", [])
        else
          let loaded_entries := read_items children in
          (true, "Read " +:+ PyStr.str_of_nat (length loaded_entries)
                 +:+ " valid entries from" +:+ PyStr.nl +:+ basename filepath,
           loaded_entries)
    end.

(** [filepath] is what the file dialog returns ([""] when cancelled) and
    [file] what is on disk there. *)
Definition prompt_and_load_history (filepath : string) (file : xml_file) : M unit :=
  if negb (PyStr.truthy filepath) then mret tt
  else
    let '(success, message, loaded_entries) := load_history_from_path filepath file in
    if success then
      match loaded_entries with
      | [] =>
          ui (showinfo "Load History"
                ("No valid history entries found in" +:+ PyStr.nl +:+ basename filepath))
      | _ =>
          w ← get_world;
          let unique_new := unique_new_entries (history_data w) loaded_entries in
          match unique_new with
          | [] =>
              ui (showinfo "History Merge"
                    ("All " +:+ PyStr.str_of_nat (length loaded_entries)
                     +:+ " entries from" +:+ PyStr.nl +:+ basename filepath
                     +:+ PyStr.nl +:+ "already exist in the current history."))
          | _ =>
              set_history_data (history_data w ++ unique_new);;
              sort_history_data;;
              w' ← get_world;
              save_history_to_xml (history_data w');;
              ui update_history_window_content;;
              ui (showinfo "History Merged"
                    (PyStr.str_of_nat (length unique_new)
                     +:+ " unique entries loaded and merged from" +:+ PyStr.nl
                     +:+ basename filepath +:+ PyStr.nl +:+ PyStr.nl
                     +:+ "Total entries now: "
                     +:+ PyStr.str_of_nat (length (history_data w'))))
          end
      end
    else
      ui (showerror "Load History Error"
            ("Could not load history:" +:+ PyStr.nl +:+ PyStr.nl +:+ message)).

(** ** [ask_ai] *)

(** The [except] clauses of [ask_ai], in their order. *)
Definition ask_ai_except (provider : string) (e : exn) : string :=
  match exn_cls e with
  | AuthorizationException =>
      "__ERROR__::DeepL Authentication Failed. Please check your API key."
  | DeepLException => "__ERROR__::DeepL API Error: " +:+ exn_str e
  | RequestsTimeout =>
      "__ERROR__::Network timeout connecting to " +:+ provider +:+ " API."
  | RequestException =>
      "__ERROR__::Network error connecting to " +:+ provider +:+ ": " +:+ exn_str e
  | _ =>
      "__ERROR__::An unexpected error occurred (" +:+ exn_name e +:+ "): " +:+ exn_str e
  end.

Definition option_truthy (o : option string) : bool :=
  match o with Some s => PyStr.truthy s | None => false end.

(** A successful DeepL call returns [{"translated": text, "rephrased": None}];
    the only reader of that dictionary takes ["translated"], and the item
    with the [None] value is left out here. *)
Definition ask_ai (prompt original_text_for_deepl target_lang_for_deepl
                   source_lang_for_deepl : option string) : M pyval :=
  w ← get_world;
  let provider := default "DeepSeek" (api_provider_var (env w)) in
  if bool_decide (provider = "OpenAI") then
    if negb (openai_client (env w)) then
      mret (PStr "__ERROR__::OpenAI API Key not configured.")
    else
      send (OpenAI_chat_create (default "" prompt));;
      match chat_completions_create prompt with
      | Returned (Some content) => mret (PStr (PyStr.strip content))
      | Returned None =>
          mret (PStr (ask_ai_except provider
                        (mk_exn OtherException "AttributeError"
                           "'NoneType' object has no attribute 'strip'")))
      | Raised e => mret (PStr (ask_ai_except provider e))
      end
  else if bool_decide (provider = "DeepSeek") then
    if negb (option_truthy (DEEPSEEK_API_KEY (env w)))
       || PyStr.contains (default "" (DEEPSEEK_API_KEY (env w))) "YOUR_DEEPSEEK_API_KEY"
    then mret (PStr "__ERROR__::DeepSeek API Key not configured.")
    else
      send (DeepSeek_post (default "" prompt));;
      match requests_post prompt with
      | Returned (ds_choices (Some content)) => mret (PStr content)
      | Returned (ds_choices None) => mret PNone
      | Returned (ds_other printed) =>
          mret (PStr ("__ERROR__::DeepSeek returned unexpected response: " +:+ printed))
      | Raised e => mret (PStr (ask_ai_except provider e))
      end
  else if bool_decide (provider = "DeepL") then
    if negb (deepl_translator (env w)) then
      mret (PStr "__ERROR__::DeepL API Key not configured.")
    else if option_truthy target_lang_for_deepl && option_truthy original_text_for_deepl
    then
      let text := default "" original_text_for_deepl in
      let target := default "" target_lang_for_deepl in
      send (DeepL_translate_text text (default "" source_lang_for_deepl) target);;
      match translate_text text source_lang_for_deepl target with
      | Returned t => mret (PDict {[ "translated" := t ]})
      | Raised e => mret (PStr (ask_ai_except provider e))
      end
    else mret (PStr "__ERROR__::DeepL requires text and target language for translation.")
  else mret (PStr "__ERROR__::Invalid API Provider selected.").

(** ** [update_result] *)

(** [str(full_result)] *)
Definition py_str (v : pyval) : string :=
  match v with
  | PStr s => s
  | PDict d => dict_str d
  | PNone => "None"
  end.

(** Branch C of [update_result]: the forward translation.  Returns
    [(history_translated, history_rephrased)]. *)
Definition forward_fields (provider : string) (full_result : pyval)
  : M (string * string) :=
  w ← get_world;
  match full_result with
  | PDict d =>
      if bool_decide (provider = "DeepL") then
        let history_translated := dict_get d "translated" "[Translation Error]" in
        let history_rephrased := dict_get d "rephrased" "[Rephrasing Error]" in
        set_last_translation history_translated;;
        mret (history_translated, history_rephrased)
      else
        mret ("[Error: Unexpected API result format]",
              "[Error: Unexpected API result format]")
  | PStr s =>
      if negb (bool_decide (provider = "DeepL")) then
        let '(history_translated, history_rephrased) :=
          parse_llm_response s (last_history_source_language w)
            (last_history_target_language w) in
        set_last_translation history_translated;;
        mret (history_translated, history_rephrased)
      else
        mret ("[Error: Unexpected API result format]",
              "[Error: Unexpected API result format]")
  | PNone =>
      mret ("[Error: Unexpected API result format]",
            "[Error: Unexpected API result format]")
  end.

Definition update_result (text_passed : string) (full_result : pyval)
    (is_rephrase is_reverse : bool) : M unit :=
  w ← get_world;
  let provider := default "N/A" (api_provider_var (env w)) in
  if is_error full_result then
    ui (showerror "API Error" (PyStr.replace (py_str full_result) ERROR_PREFIX ""));;
    ui (update_button_states is_reverse)
  else
    '(history_original, history_translated, history_rephrased,
      gui_original, gui_translated, gui_rephrased) ←
      (if is_reverse then
         let history_original := text_passed in
         let history_translated := py_str full_result in
         let history_rephrased := "[N/A for reverse translation]" in
         mret (history_original, history_translated, history_rephrased,
               history_translated, history_original, "")
       else if is_rephrase then
         let processed_rephrase_result :=
           if bool_decide (provider = "DeepSeek")
           then re_sub_blank_lines (PyStr.strip (py_str full_result))
           else py_str full_result in
         let history_original := text_passed in
         let history_translated := last_translation w in
         let history_rephrased := processed_rephrase_result in
         mret (history_original, history_translated, history_rephrased,
               history_original, history_translated, history_rephrased)
       else
         let history_original := text_passed in
         '(history_translated, history_rephrased) ←
           forward_fields provider full_result;
         when (PyStr.truthy history_translated
               && negb (PyStr.startswith history_translated "["))
           (set_last_selected_text history_original);;
         mret (history_original, history_translated, history_rephrased,
               history_original, history_translated, history_rephrased));
    w1 ← get_world;
    let new_history_entry :=
      {| e_time := clock (env w1);
         e_original := history_original;
         e_translated := history_translated;
         e_rephrased := history_rephrased;
         e_provider := provider;
         e_target_language :=
           last_history_source_language w1 +:+ " -> "
           +:+ last_history_target_language w1 |} in
    set_history_data (history_data w1 ++ [new_history_entry]);;
    sort_history_data;;
    w2 ← get_world;
    save_history_to_xml (history_data w2);;
    ui (set_textboxes gui_original gui_translated gui_rephrased);;
    ui (update_button_states is_reverse).

(** ** Translate: [run_translate_rephrase] *)

(** The three [except] clauses around the body of [api_call]. *)
Definition translate_except (e : exn) : string :=
  if is_DeepLException e then "__ERROR__::DeepL API Error: " +:+ exn_str e
  else match exn_cls e with
       | ConnectionError => "__ERROR__::" +:+ exn_str e
       | _ => "__ERROR__::Error during Translate & Rephrase API call: "
              +:+ exn_name e +:+ ": " +:+ exn_str e
       end.

(** The inner [try] around step 2. *)
Definition step2_text (r : reply string) : string :=
  match r with
  | Returned t => if PyStr.truthy t then t else "[Rephrasing resulted in empty text]"
  | Raised e =>
      if is_DeepLException e then "[Rephrasing Error: " +:+ exn_name e +:+ "]"
      else "[Unexpected Rephrasing Error]"
  end.

Definition result_dict (translated rephrased : string) : pyval :=
  PDict (<[ "translated" := translated ]> {[ "rephrased" := rephrased ]}).

(** The DeepL branch of [api_call]: two hops. *)
Definition two_hop (text_to_process src_lang_display tgt_lang_display : string)
  : M pyval :=
  w ← get_world;
  if negb (deepl_translator (env w)) then
    mret (PStr (translate_except
                  (mk_exn ConnectionError "ConnectionError"
                     "DeepL translator not initialised.")))
  else
    let step1_source_lang_code := get_deepl_source_code src_lang_display in
    let step1_target_lang_code := get_deepl_target_code tgt_lang_display in
    send (DeepL_translate_text text_to_process
            step1_source_lang_code step1_target_lang_code);;
    match translate_text text_to_process (Some step1_source_lang_code)
            step1_target_lang_code with
    | Raised e => mret (PStr (translate_except e))
    | Returned translated_text =>
        if negb (PyStr.truthy translated_text) then
          mret (result_dict "[Translation Failed or Empty]" "[Rephrasing skipped]")
        else
          let step2_source_lang_code := get_deepl_source_code tgt_lang_display in
          let step2_target_lang_code := get_deepl_target_code src_lang_display in
          send (DeepL_translate_text translated_text
                  step2_source_lang_code step2_target_lang_code);;
          let rephrased_text :=
            step2_text (translate_text translated_text
                          (Some step2_source_lang_code) step2_target_lang_code) in
          mret (result_dict translated_text rephrased_text)
    end.

(** [box_text] is the content of the source text box. *)
Definition run_translate_rephrase (box_text : string) : M unit :=
  let text_to_process := PyStr.strip box_text in
  if negb (PyStr.truthy text_to_process) then
    ui (showwarning "Input Missing" "Please enter text in the Source Text area.")
  else
    w ← get_world;
    let provider := default "DeepL" (api_provider_var (env w)) in
    let src_lang_display := default "English" (source_language_var (env w)) in
    let tgt_lang_display := default "Turkish" (target_language_var (env w)) in
    set_last_history_source_language src_lang_display;;
    set_last_history_target_language tgt_lang_display;;
    final_result_for_update ←
      (if bool_decide (provider = "DeepL")
       then two_hop text_to_process src_lang_display tgt_lang_display
       else ask_ai (Some (full_prompt (env w) text_to_process
                            src_lang_display tgt_lang_display))
              None None None);
    update_result text_to_process final_result_for_update false false.

(** ** Rephrase again: [rephrase_again] *)

Definition intermediate_codes : list string := ["TR"; "FR"; "RU"; "IT"; "ES"].

(** One worker thread; the value is what it appends to [results]. *)
Definition perform_double_translation
    (intermediate_code src_code tgt_code text : string) : M pyval :=
  send (DeepL_translate_text text src_code intermediate_code);;
  match translate_text text (Some src_code) intermediate_code with
  | Raised e =>
      mret (PStr (ERROR_PREFIX +:+
        (if is_DeepLException e
         then "DeepL API Error via " +:+ intermediate_code +:+ ": " +:+ exn_str e
         else match exn_cls e with
              | ValueError =>
                  "ValueError via " +:+ intermediate_code +:+ ": " +:+ exn_str e
              | _ => "Unexpected error via " +:+ intermediate_code +:+ ": "
                     +:+ exn_name e +:+ ": " +:+ exn_str e
              end)))
  | Returned intermediate_text =>
      if negb (PyStr.truthy intermediate_text) then
        mret (PStr (ERROR_PREFIX +:+ "ValueError via " +:+ intermediate_code
                    +:+ ": Intermediate (" +:+ intermediate_code +:+ ") empty"))
      else
        send (DeepL_translate_text intermediate_text intermediate_code tgt_code);;
        match translate_text intermediate_text (Some intermediate_code) tgt_code with
        | Raised e =>
            mret (PStr (ERROR_PREFIX +:+
              (if is_DeepLException e
               then "DeepL API Error via " +:+ intermediate_code +:+ ": " +:+ exn_str e
               else match exn_cls e with
                    | ValueError =>
                        "ValueError via " +:+ intermediate_code +:+ ": " +:+ exn_str e
                    | _ => "Unexpected error via " +:+ intermediate_code +:+ ": "
                           +:+ exn_name e +:+ ": " +:+ exn_str e
                    end)))
        | Returned rephrased_output =>
            if negb (PyStr.truthy rephrased_output) then
              mret (PStr (ERROR_PREFIX +:+ "ValueError via " +:+ intermediate_code
                          +:+ ": Final (" +:+ tgt_code +:+ ") empty via "
                          +:+ intermediate_code))
            else mret (PStr rephrased_output)
        end
  end.

(** [update_rephrase_box] *)
Definition update_rephrase_box (text_to_display : string) : M unit :=
  (if PyStr.startswith text_to_display ERROR_PREFIX then
     ui (showerror "Rephrase Error"
           ("Could not rephrase:" +:+ PyStr.nl +:+ PyStr.nl
            +:+ PyStr.replace text_to_display ERROR_PREFIX ""));;
     ui (set_rephrased_textbox "[Rephrasing failed, see error message]")
   else ui (set_rephrased_textbox text_to_display));;
  ui (update_button_states false).

(** What runs once the workers are joined; [results] is the shared list as
    the joining thread finds it. *)
Definition process_deepl_results (current_provider : string) (results : list pyval)
  : M unit :=
  let valid := valid_rephrases results in
  let formatted_output := format_rephrases valid in
  w ← get_world;
  let history_original_text := last_selected_text w in
  let history_translated_text :=
    if PyStr.truthy (last_translation w) then last_translation w
    else "[Previous translation missing]" in
  let history_rephrased_text := formatted_output in
  let translation_direction :=
    last_history_source_language w +:+ " -> " +:+ last_history_target_language w in
  let new_history_entry :=
    {| e_time := clock (env w);
       e_original := history_original_text;
       e_translated := history_translated_text;
       e_rephrased := history_rephrased_text;
       e_provider := current_provider +:+ " (Rephrase)";
       e_target_language := translation_direction |} in
  set_history_data (history_data w ++ [new_history_entry]);;
  sort_history_data;;
  w' ← get_world;
  save_history_to_xml (history_data w');;
  update_rephrase_box formatted_output.

(** [finished] is the schedule of the fan-out: the intermediate codes of
    the workers whose result reached [results] before the joining thread
    read it, in the order their results arrived.  A worker that timed out
    is not in it. *)
Definition rephrase_again (finished : list string) : M unit :=
  w ← get_world;
  let current_provider := default "N/A" (api_provider_var (env w)) in
  if negb (PyStr.truthy (last_selected_text w)) then
    ui (showwarning "No Text Found"
          ("Cannot rephrase because the source text is missing." +:+ PyStr.nl
           +:+ "Please perform a translation first."))
  else
    let source_language_display_name :=
      default "English" (source_language_var (env w)) in
    if bool_decide (current_provider = "DeepL") then
      if negb (deepl_translator (env w)) then
        ui (showerror "API Error"
              "DeepL API Key not configured or translator not initialised.")
      else
        let source_lang_code := get_deepl_source_code source_language_display_name in
        let target_lang_code := get_deepl_target_code source_language_display_name in
        results ←
          for_each (fun code =>
                      perform_double_translation code source_lang_code
                        target_lang_code (last_selected_text w))
                   finished;
        process_deepl_results current_provider results
    else
      let src_lang_for_llm :=
        dict_get (default ∅ (supported_languages !! current_provider))
          source_language_display_name source_language_display_name in
      let prompt_ := rephrase_prompt (env w) (last_selected_text w) src_lang_for_llm in
      raw_llm_result ← ask_ai (Some prompt_) None None None;
      let raw_llm_result :=
        match raw_llm_result with
        | PNone => PStr "__ERROR__::LLM API call returned None."
        | v => v
        end in
      w' ← get_world;
      update_result (last_selected_text w') raw_llm_result true false.

(** ** Translate back: [translate_to_source] *)

(** The result the back-translation thread hands to [update_result]. *)
Definition back_translation (provider text_to_translate_back
    final_target_lang_display current_text_lang_display : string) : M pyval :=
  if bool_decide (provider = "DeepL") then
    let source_lang_code := get_deepl_source_code current_text_lang_display in
    let target_lang_code := get_deepl_target_code final_target_lang_display in
    deepl_dict_result ←
      ask_ai None (Some text_to_translate_back) (Some target_lang_code)
        (Some source_lang_code);
    match deepl_dict_result with
    | PDict d =>
        match d !! "translated" with
        | Some t => mret (PStr t)
        | None => mret (PStr "__ERROR__::DeepL Error: Unexpected back-translation format.")
        end
    | PStr s =>
        if PyStr.startswith s ERROR_PREFIX then mret (PStr s)
        else mret (PStr "__ERROR__::DeepL Error: Unexpected back-translation format.")
    | PNone => mret (PStr "__ERROR__::DeepL Error: Unexpected back-translation format.")
    end
  else
    let prompt_ :=
      translate_to_source_prompt text_to_translate_back final_target_lang_display in
    raw_llm_result ← ask_ai (Some prompt_) None None None;
    match raw_llm_result with
    | PStr s =>
        if PyStr.startswith s ERROR_PREFIX then mret (PStr s)
        else mret (PStr (clean_back_translation s final_target_lang_display))
    | PDict _ =>
        mret (PStr "__ERROR__::LLM Error: Unexpected back-translation type (<class 'dict'>).")
    | PNone =>
        mret (PStr "__ERROR__::LLM Error: Unexpected back-translation type (<class 'NoneType'>).")
    end.

(** [box_text] is the content of the translated text box. *)
Definition translate_to_source (box_text : string) : M unit :=
  let text_to_translate_back := PyStr.strip box_text in
  if negb (PyStr.truthy text_to_translate_back) then
    ui (showwarning "Input Missing"
          "Please enter text in the 'Translated Text (Target)' area to translate back.")
  else
    w ← get_world;
    let provider := default "DeepL" (api_provider_var (env w)) in
    let final_target_lang_display :=
      default "English" (source_language_var (env w)) in
    let current_text_lang_display :=
      default "Turkish" (target_language_var (env w)) in
    set_last_history_source_language current_text_lang_display;;
    set_last_history_target_language final_target_lang_display;;
    final_result_for_update ←
      back_translation provider text_to_translate_back
        final_target_lang_display current_text_lang_display;
    update_result text_to_translate_back final_result_for_update false true.

(** One turn of the loop on a line that is already stripped and not blank. *)
Definition parse_step (tr_keyword rep_keyword : string)
    (st : parse_state) (l : string) : parse_state :=
  if PyStr.startswith l tr_keyword && negb (found_tr st) then
    mk_parse_state true (found_rep st) (Some sec_trans)
      (trans_parts st ++ [PyStr.strip (PyStr.drop (String.length tr_keyword) l)])
      (rep_parts st)
  else if PyStr.startswith l rep_keyword && found_tr st && negb (found_rep st) then
    mk_parse_state (found_tr st) true (Some sec_rep)
      (trans_parts st)
      (rep_parts st ++ [PyStr.strip (PyStr.drop (String.length rep_keyword) l)])
  else
    match cur_section st with
    | Some sec_trans =>
        mk_parse_state (found_tr st) (found_rep st) (cur_section st)
          (trans_parts st ++ [l]) (rep_parts st)
    | Some sec_rep =>
        mk_parse_state (found_tr st) (found_rep st) (cur_section st)
          (trans_parts st) (rep_parts st ++ [l])
    | None => st
    end.

(** ** Notions used in the statements *)

(** The world with another [history_data]. *)
Definition with_history (h : list history_entry) (w : world) : world :=
  mk_world (env w) (last_selected_text w) (last_translation w)
    (last_history_source_language w) (last_history_target_language w)
    h (HISTORY_FILE w) (net_log w) (ui_log w).

(** What [sort_history_data] leaves in [history_data]. *)
Definition sorted_history (h : list history_entry) : list history_entry :=
  match decorate sort_key h with
  | Some keyed => map snd (sort_desc keyed)
  | None => h
  end.

(** The time of an entry is a timestamp of the expected format. *)
Definition well_timed (x : history_entry) : Prop := is_Some (sort_key x).

(** [a] is not older than [b]. *)
Definition not_older (a b : history_entry) : Prop :=
  exists ka kb, sort_key a = Some ka /\ sort_key b = Some kb /\ (kb <= ka)%Z.

(** Sorted by time, newest first. *)
Definition newest_first (h : list history_entry) : Prop :=
  StronglySorted not_older h.

(** The world with another [net_log]. *)
Definition with_net_log (l : list net_call) (w : world) : world :=
  mk_world (env w) (last_selected_text w) (last_translation w)
    (last_history_source_language w) (last_history_target_language w)
    (history_data w) (HISTORY_FILE w) l (ui_log w).

(** A computation whose only effect is to send requests. *)
Definition only_sends {A} (m : M A) : Prop :=
  forall w, exists calls, (m w).2 = with_net_log (net_log w ++ calls) w.

(** The requests one worker of the fan-out sends: the second hop only after
    a first hop that returned a text. *)
Definition worker_calls (intermediate_code src_code tgt_code text : string)
  : list net_call :=
  DeepL_translate_text text src_code intermediate_code ::
  match translate_text text (Some src_code) intermediate_code with
  | Returned intermediate_text =>
      if PyStr.truthy intermediate_text
      then [DeepL_translate_text intermediate_text intermediate_code tgt_code]
      else []
  | Raised _ => []
  end.

(** Every character of [s] is whitespace. *)
Fixpoint all_space (s : string) : bool :=
  match s with
  | "" => true
  | String c s' => PyStr.is_space c && all_space s'
  end.

(** ** More of the history store *)

(** [load_history_from_xml]: the load at start-up.  [file] is what the parser
    finds at [HISTORY_FILE]. *)
Definition load_history_from_xml (file : xml_file) : M unit :=
  set_history_data [];;
  match file with
  | xml_missing => mret tt
  | xml_parse_error msg =>
      ui (showerror "History Load Error"
            ("Failed to parse history file:" +:+ PyStr.nl +:+ msg +:+ PyStr.nl
             +:+ "History might be corrupted."))
  | xml_root tag children =>
      if negb (bool_decide (tag = "history")) then mret tt
      else
        set_history_data (read_items children);;
        sort_history_data
  end.

(** [backup_and_clear_history].  [timestamp] is
    [datetime.now().strftime("%Y%m%d_%H%M%S")] and [move] says whether
    [shutil.move] of the history file succeeds.  The value is the backup
    made, if any: its file name and the items moved into it. *)
Definition backup_and_clear_history (timestamp : string) (move : reply unit)
  : M (option (string * list history_entry)) :=
  w ← get_world;
  let backup_filename := "translation_history_" +:+ timestamp +:+ ".xml" in
  match HISTORY_FILE w, move with
  | Some items, Raised e =>
      ui (showerror "History Backup Error"
            ("Could not backup 'translation_history.xml' to '" +:+ backup_filename
             +:+ "':" +:+ PyStr.nl +:+ exn_str e));;
      mret None
  | Some items, Returned _ =>
      set_history_data [];;
      save_history_to_xml [];;
      ui update_history_window_content;;
      ui (showinfo "History Backup & Clear"
            ("History backed up to:" +:+ PyStr.nl +:+ backup_filename
             +:+ PyStr.nl +:+ PyStr.nl +:+ "History cleared."));;
      mret (Some (backup_filename, items))
  | None, _ =>
      set_history_data [];;
      save_history_to_xml [];;
      ui update_history_window_content;;
      ui (showinfo "History Cleared"
            ("No existing history file found to back up." +:+ PyStr.nl
             +:+ "In-memory history cleared."));;
      mret None
  end.


(** ** Answers in the requested format *)

(** The first character of [s] exists and is not whitespace. *)
Definition head_black (s : string) : bool :=
  match s with
  | "" => false
  | String a _ => negb (PyStr.is_space a)
  end.

(** A text on one line that neither starts nor ends with whitespace. *)
Definition one_line (s : string) : Prop :=
  head_black s = true /\ PyStr.rstrip s = s
  /\ PyStr.has_char PyStr.nl_char s = false.

(** The answer [full_prompt] asks for: the two labelled lines. *)
Definition formatted_answer (source_language target_language translation rephrasing
                             : string) : string :=
  target_language +:+ " Translation: " +:+ translation +:+ PyStr.nl
  +:+ source_language +:+ " Rephrased: " +:+ rephrasing.

(** ** Configuration: the API keys *)

(** The config file: absent, not well-formed, or a root element with or
    without an [api_keys] child; the children of [api_keys] are (tag, text)
    pairs. *)
Inductive config_file :=
| config_missing
| config_parse_error (msg : string)
| config_root (api_keys : option (list (string * option string))).

Record loaded_keys := mk_keys {
  key_openai : option string;      (* OPENAI_API_KEY *)
  key_deepseek : option string;    (* DEEPSEEK_API_KEY *)
  key_deepl : option string        (* DEEPL_API_KEY *)
}.

(** What [create_default_config] writes. *)
Definition default_config : config_file :=
  config_root (Some [ ("openai", Some "YOUR_OPENAI_KEY_HERE");
                      ("deepseek", Some "YOUR_DEEPSEEK_KEY_HERE");
                      ("deepl", Some "YOUR_DEEPL_KEY_HERE") ]).

(** [key = findtext(tag, default="").strip()]; the key counts when it is
    not empty and does not contain the placeholder. *)
Definition accept_key (text placeholder : string) : option string :=
  let key := PyStr.strip text in
  if PyStr.truthy key && negb (PyStr.contains key placeholder) then Some key
  else None.

Definition count_key (k : option string) : nat :=
  match k with Some _ => 1 | None => 0 end.

(** The end of a call: it returns, or it waits for ever for [config_lock],
    a [threading.Lock], which the calling thread already holds. *)
Inductive call_end (A : Type) :=
| returns (a : A)
| blocks.
#[global] Arguments returns {A} a.
#[global] Arguments blocks {A}.

(** [load_api_keys]: the keys, the value [loaded_keys_count] and the config
    file as the call leaves it.  Without a file the default file is written
    before the lock is taken.  With a file that does not parse, or without an
    [api_keys] element, [create_default_config] is called while [config_lock]
    is held and asks for the same lock. *)
Definition load_api_keys (file : config_file)
  : call_end (loaded_keys * nat * config_file) :=
  match file with
  | config_missing => returns (mk_keys None None None, 0, default_config)
  | config_parse_error _ => blocks
  | config_root None => blocks
  | config_root (Some children) =>
      let openai_key := accept_key (field_text children "openai") "YOUR_OPENAI_KEY_HERE" in
      let deepseek_key :=
        accept_key (field_text children "deepseek") "YOUR_DEEPSEEK_KEY_HERE" in
      let deepl_key := accept_key (field_text children "deepl") "YOUR_DEEPL_KEY_HERE" in
      returns (mk_keys openai_key deepseek_key deepl_key,
               count_key openai_key + count_key deepseek_key + count_key deepl_key,
               file)
  end.

(** [key if key and key.strip() else placeholder] *)
Definition key_or_placeholder (key placeholder : string) : string :=
  if PyStr.truthy key && PyStr.truthy (PyStr.strip key) then key else placeholder.

(** A text the XML writer and reader hand back unchanged: printable
    characters only, no control character and no line break. *)
Fixpoint xml_plain (s : string) : bool :=
  match s with
  | "" => true
  | String c rest =>
      let n := nat_of_ascii c in
      (((32 <=? n)%nat && (n <? 127)%nat) || (160 <=? n)%nat) && xml_plain rest
  end.

(** The file [save_api_keys_to_xml] writes, as the XML reader parses it
    again when the three texts written are [xml_plain]. *)
Definition save_api_keys_to_xml (openai_key deepseek_key deepl_key : string)
  : config_file :=
  config_root
    (Some [ ("openai", Some (key_or_placeholder openai_key "YOUR_OPENAI_KEY_HERE"));
            ("deepseek", Some (key_or_placeholder deepseek_key "YOUR_DEEPSEEK_KEY_HERE"));
            ("deepl", Some (key_or_placeholder deepl_key
                              "YOUR_DEEPL_KEY_HERE_OR_FREE_KEY:fx")) ]).

(** ** The provider and language selection after a reload *)

Definition NO_APIS : string := "No APIs Configured".

Definition available_providers (e : environment) : list string :=
  (if deepl_translator e then ["DeepL"] else [])
  ++ (if option_truthy (DEEPSEEK_API_KEY e) then ["DeepSeek"] else [])
  ++ (if openai_client e then ["OpenAI"] else []).

Definition default_provider (e : environment) : string :=
  if deepl_translator e then "DeepL"
  else
    match available_providers e with
    | [] => NO_APIS
    | first :: _ =>
        if bool_decide ("DeepSeek" ∈ available_providers e) then "DeepSeek"
        else if bool_decide ("OpenAI" ∈ available_providers e) then "OpenAI"
        else first
    end.

(** [supported_languages.get(provider, {})] *)
Definition languages_of (provider : string) : gmap string string :=
  default ∅ (supported_languages !! provider).

(** [update_gui_after_reload], as far as it writes the three Tk variables;
    it does nothing while one of them does not exist yet. *)
Definition update_gui_after_reload (e : environment) : environment :=
  match api_provider_var e, source_language_var e, target_language_var e with
  | Some current_selection, Some source, Some target =>
      let provider :=
        if bool_decide (default_provider e = NO_APIS) then NO_APIS
        else if bool_decide (current_selection ∈ available_providers e)
             then current_selection
             else default_provider e in
      let lang_keys := languages_of provider in
      let '(source', target') :=
        if bool_decide (lang_keys = ∅) then ("", "")
        else (if bool_decide (is_Some (lang_keys !! source)) then source else "English",
              if bool_decide (is_Some (lang_keys !! target)) then target else "Turkish") in
      mk_env (Some provider) (Some source') (Some target') (style_var e)
        (openai_client e) (DEEPSEEK_API_KEY e) (deepl_translator e) (clock e)
  | _, _, _ => e
  end.
(* =================================================================== *)
(** * Properties *)
(* =================================================================== *)

(** ** Strings *)

Lemma has_char_lstrip c s :
  PyStr.has_char c (PyStr.lstrip s) = true -> PyStr.has_char c s = true.
Proof.
  induction s as [|a s IH]; simpl; [done|].
  destruct (PyStr.is_space a); [|done].
  intros H. rewrite (IH H). apply orb_true_r.
Qed.

Lemma has_char_rstrip c s :
  PyStr.has_char c (PyStr.rstrip s) = true -> PyStr.has_char c s = true.
Proof.
  induction s as [|a s IH]; simpl; [done|].
  destruct (PyStr.rstrip s) as [|b r] eqn:E.
  - destruct (PyStr.is_space a); simpl; [done|].
    rewrite orb_false_r. intros ->. done.
  - simpl in *. destruct (Ascii.eqb a c); [done|]. simpl. exact IH.
Qed.

Lemma has_char_strip c s :
  PyStr.has_char c (PyStr.strip s) = true -> PyStr.has_char c s = true.
Proof. intros H. by apply has_char_lstrip, has_char_rstrip. Qed.

Lemma has_char_drop c n s :
  PyStr.has_char c (PyStr.drop n s) = true -> PyStr.has_char c s = true.
Proof.
  revert s. induction n as [|n IH]; intros [|a s]; simpl; try done.
  intros H. rewrite (IH _ H). apply orb_true_r.
Qed.

(** Removing a one-character string leaves no occurrence of that character. *)
Lemma replace_char_gone c s :
  PyStr.has_char c (PyStr.replace s (String c "") "") = false.
Proof.
  unfold PyStr.replace. induction s as [|a s IH]; simpl; [done|].
  destruct (Ascii.eqb c a) eqn:E; simpl.
  - assert (PyStr.startswith s "" = true) as -> by (by destruct s).
    exact IH.
  - rewrite IH, orb_false_r. rewrite Ascii.eqb_sym. exact E.
Qed.

(** ** The parser of LLM answers *)

Lemma parse_line_step tr rep st line :
  parse_line tr rep st line =
  if PyStr.truthy (PyStr.strip line) then parse_step tr rep st (PyStr.strip line)
  else st.
Proof. unfold parse_line, parse_step. by destruct (PyStr.truthy _). Qed.

Lemma fold_parse_line tr rep lines st :
  fold_left (parse_line tr rep) lines st =
  fold_left (parse_step tr rep)
    (List.filter PyStr.truthy (map PyStr.strip lines)) st.
Proof.
  revert st. induction lines as [|line lines IH]; intros st; simpl; [done|].
  rewrite parse_line_step.
  destruct (PyStr.truthy (PyStr.strip line)); simpl; apply IH.
Qed.

Lemma break_at_Some {A} (p : A -> bool) l pre x post :
  break_at p l = Some (pre, x, post) <->
  l = pre ++ x :: post /\ p x = true /\ Forall (fun y => p y = false) pre.
Proof.
  revert pre x post. induction l as [|a l IH]; intros pre x post; simpl.
  - split; [done|]. intros (H & _). by destruct pre.
  - destruct (p a) eqn:Ea.
    + split.
      * intros [= <- <- <-]. done.
      * intros (H & Hx & Hpre). destruct pre as [|b pre]; simplify_eq/=; [done|].
        apply Forall_cons_1 in Hpre as [Hb _]. congruence.
    + destruct (break_at p l) as [[[pre' y] post']|].
      * split.
        -- intros [= <- <- <-].
           destruct (proj1 (IH pre' y post') eq_refl) as (-> & Hy & Hpre).
           repeat split; auto.
        -- intros (H & Hx & Hpre).
           destruct pre as [|b pre]; simplify_eq/=; [congruence|].
           apply Forall_cons_1 in Hpre as [_ Hpre].
           assert (Some (pre', y, post') = Some (pre, x, post)) as [= -> -> ->]
             by (by apply IH).
           done.
      * split; [done|]. intros (H & Hx & Hpre).
        destruct pre as [|b pre]; simplify_eq/=; [congruence|].
        apply Forall_cons_1 in Hpre as [_ Hpre].
        assert (None = Some (pre, x, post)) as E' by (by apply IH).
        done.
Qed.

Lemma break_at_None {A} (p : A -> bool) l :
  break_at p l = None <-> Forall (fun y => p y = false) l.
Proof.
  induction l as [|a l IH]; simpl.
  - split; auto.
  - destruct (p a) eqn:Ea.
    + split; [done|]. intros H. apply Forall_cons_1 in H as [H _]. congruence.
    + destruct (break_at p l) as [[[pre y] post]|].
      * split; [done|]. intros H. apply Forall_cons_1 in H as [_ H].
        by apply IH in H.
      * split; [|done]. intros _. constructor; [done|]. by apply IH.
Qed.

(** After the rephrase section opened, every line goes to it. *)
Lemma parse_phase_rep tr rep L T R :
  fold_left (parse_step tr rep) L (mk_parse_state true true (Some sec_rep) T R)
  = mk_parse_state true true (Some sec_rep) T (R ++ L).
Proof.
  revert R. induction L as [|l L IH]; intros R; simpl.
  - by rewrite app_nil_r.
  - unfold parse_step at 2. simpl.
    rewrite !andb_false_r. rewrite IH. by rewrite <- app_assoc.
Qed.

(** While the translation section is open, lines go to it up to the first
    line with the rephrase label. *)
Lemma parse_phase_trans tr rep L T :
  fold_left (parse_step tr rep) L (mk_parse_state true false (Some sec_trans) T [])
  = match break_at (fun l => PyStr.startswith l rep) L with
    | None => mk_parse_state true false (Some sec_trans) (T ++ L) []
    | Some (mid, l1, post) =>
        mk_parse_state true true (Some sec_rep) (T ++ mid)
          (PyStr.strip (PyStr.drop (String.length rep) l1) :: post)
    end.
Proof.
  revert T. induction L as [|l L IH]; intros T; simpl.
  - by rewrite app_nil_r.
  - unfold parse_step at 2. simpl. rewrite andb_false_r. simpl.
    destruct (PyStr.startswith l rep) eqn:E; simpl.
    + by rewrite parse_phase_rep, app_nil_r.
    + rewrite IH.
      destruct (break_at _ L) as [[[mid l1] post]|];
        by rewrite <- app_assoc.
Qed.

(** Before the translation label, lines are dropped. *)
Lemma parse_phase_none tr rep L :
  fold_left (parse_step tr rep) L parse_init
  = match break_at (fun l => PyStr.startswith l tr) L with
    | None => parse_init
    | Some (_, l0, rest) =>
        fold_left (parse_step tr rep) rest
          (mk_parse_state true false (Some sec_trans)
             [PyStr.strip (PyStr.drop (String.length tr) l0)] [])
    end.
Proof.
  induction L as [|l L IH]; simpl; [done|].
  destruct (PyStr.startswith l tr) eqn:E.
  - unfold parse_step at 2. by rewrite E.
  - assert (parse_step tr rep parse_init l = parse_init) as ->.
    { unfold parse_step. rewrite E. simpl. by rewrite andb_false_r. }
    rewrite IH. by destruct (break_at _ L) as [[[pre l0] rest]|].
Qed.

(** The loop of [update_result] computes the two sections of the stripped,
    non-blank lines. *)
Lemma parse_llm_response_eq full_result source_language target_language :
  parse_llm_response full_result source_language target_language
  = parse_stripped full_result source_language target_language.
Proof.
  unfold parse_llm_response, parse_stripped, stripped_lines, sections.
  rewrite fold_parse_line, parse_phase_none.
  destruct (break_at _ _) as [[[pre l0] rest]|]; [|done].
  rewrite parse_phase_trans.
  by destruct (break_at _ rest) as [[[mid l1] post]|].
Qed.

(** ** The stable sort *)

Lemma insert_desc_perm {A} (x : Z * A) l : Permutation (insert_desc x l) (x :: l).
Proof.
  induction l as [|y l IH]; simpl; [done|].
  destruct (x.1 <? y.1)%Z; [|done].
  rewrite IH. apply perm_swap.
Qed.

Lemma sort_desc_perm {A} (l : list (Z * A)) : Permutation (sort_desc l) l.
Proof.
  induction l as [|x l IH]; simpl; [done|].
  rewrite insert_desc_perm. by constructor.
Qed.

Lemma insert_desc_sorted {A} (x : Z * A) l :
  StronglySorted (fun a b => (b.1 <= a.1)%Z) l ->
  StronglySorted (fun a b => (b.1 <= a.1)%Z) (insert_desc x l).
Proof.
  induction 1 as [|y l Hs IH Hall]; simpl.
  - repeat constructor.
  - destruct (x.1 <? y.1)%Z eqn:E.
    + constructor; [done|].
      rewrite insert_desc_perm. constructor; [lia|done].
    + constructor; [by constructor|].
      constructor; [lia|].
      eapply Forall_impl; [exact Hall|]. simpl. intros z Hz. lia.
Qed.

Lemma sort_desc_sorted {A} (l : list (Z * A)) :
  StronglySorted (fun a b => (b.1 <= a.1)%Z) (sort_desc l).
Proof.
  induction l as [|x l IH]; simpl; [constructor|].
  by apply insert_desc_sorted.
Qed.

(** Stability: among the elements of one key, the order is kept. *)
Lemma insert_desc_stable {A} (k : Z) (x : Z * A) l :
  List.filter (fun p => (p.1 =? k)%Z) (insert_desc x l)
  = List.filter (fun p => (p.1 =? k)%Z) (x :: l).
Proof.
  induction l as [|y l IH]; [done|].
  cbn [insert_desc]. destruct (x.1 <? y.1)%Z eqn:E; [|done].
  cbn [List.filter] in *. rewrite IH.
  destruct (x.1 =? k)%Z eqn:Ex, (y.1 =? k)%Z eqn:Ey; try done. lia.
Qed.

Lemma sort_desc_stable {A} (k : Z) (l : list (Z * A)) :
  List.filter (fun p => (p.1 =? k)%Z) (sort_desc l)
  = List.filter (fun p => (p.1 =? k)%Z) l.
Proof.
  induction l as [|x l IH]; [done|].
  cbn [sort_desc]. rewrite insert_desc_stable. cbn [List.filter].
  by rewrite IH.
Qed.

Lemma decorate_snd {A} (key : A -> option Z) l d :
  decorate key l = Some d -> map snd d = l.
Proof.
  revert d. induction l as [|x l IH]; intros d; simpl.
  - by intros [= <-].
  - destruct (key x); [|done]. destruct (decorate key l); [|done].
    intros [= <-]. simpl. f_equal. by apply IH.
Qed.

Lemma decorate_keys {A} (key : A -> option Z) l d :
  decorate key l = Some d -> Forall (fun p => key p.2 = Some p.1) d.
Proof.
  revert d. induction l as [|x l IH]; intros d; simpl.
  - intros [= <-]. constructor.
  - destruct (key x) eqn:E; [|done]. destruct (decorate key l); [|done].
    intros [= <-]. constructor; [done|]. by apply IH.
Qed.

Lemma decorate_is_Some {A} (key : A -> option Z) l :
  is_Some (decorate key l) <-> Forall (fun x => is_Some (key x)) l.
Proof.
  induction l as [|x l IH]; simpl.
  - split; [constructor|by eexists].
  - destruct (key x) eqn:E.
    + destruct (decorate key l).
      * split; [|by eexists]. intros _. constructor; [by eexists|].
        apply IH. by eexists.
      * split; [by intros [? ?]|]. intros H. apply Forall_cons_1 in H as [_ H].
        apply IH in H. by destruct H.
    + split; [by intros [? ?]|]. intros H. apply Forall_cons_1 in H as [[? H] _].
      congruence.
Qed.

Lemma sorted_history_perm h : Permutation (sorted_history h) h.
Proof.
  unfold sorted_history. destruct (decorate sort_key h) as [d|] eqn:E; [|done].
  rewrite sort_desc_perm. by rewrite (decorate_snd _ _ _ E).
Qed.

Lemma sorted_history_malformed h :
  ~ Forall well_timed h -> sorted_history h = h.
Proof.
  intros H. unfold sorted_history.
  destruct (decorate sort_key h) as [d|] eqn:E; [|done].
  destruct H. apply decorate_is_Some. by eexists.
Qed.

Lemma keyed_sorted_newest_first (d : list (Z * history_entry)) :
  Forall (fun p => sort_key p.2 = Some p.1) d ->
  StronglySorted (fun a b => (b.1 <= a.1)%Z) d ->
  newest_first (map snd d).
Proof.
  intros Hk Hs. induction Hs as [|p d Hs IH Hall]; simpl; [constructor|].
  apply Forall_cons_1 in Hk as [Hp Hk].
  constructor; [by apply IH|].
  rewrite Forall_map. rewrite Forall_forall in Hall, Hk |- *.
  intros q Hq. exists p.1, q.1. repeat split; auto.
Qed.

Lemma sorted_history_sorted h :
  Forall well_timed h -> newest_first (sorted_history h).
Proof.
  intros H. apply decorate_is_Some in H as [d E].
  unfold sorted_history. rewrite E.
  apply keyed_sorted_newest_first; [|apply sort_desc_sorted].
  rewrite sort_desc_perm. by eapply decorate_keys.
Qed.

Lemma sort_history_data_eq w :
  sort_history_data w = (tt, with_history (sorted_history (history_data w)) w).
Proof.
  unfold sort_history_data, sorted_history, mbind, M_bind, get_world.
  destruct (decorate sort_key (history_data w)); [done|].
  by destruct w.
Qed.

Lemma update_result_effect text_passed full_result is_rephrase is_reverse w :
  let w' := (update_result text_passed full_result is_rephrase is_reverse w).2 in
  env w' = env w /\ net_log w' = net_log w
  /\ last_history_source_language w' = last_history_source_language w
  /\ last_history_target_language w' = last_history_target_language w
  /\ (is_error full_result = true ->
      history_data w' = history_data w /\ HISTORY_FILE w' = HISTORY_FILE w
      /\ last_selected_text w' = last_selected_text w
      /\ last_translation w' = last_translation w)
  /\ (is_error full_result = false ->
      exists entry,
        history_data w' = sorted_history (history_data w ++ [entry])
        /\ HISTORY_FILE w' = Some (history_data w')
        /\ e_time entry = clock (env w) /\ e_original entry = text_passed)
  /\ (is_reverse = true \/ is_rephrase = true ->
      last_selected_text w' = last_selected_text w
      /\ last_translation w' = last_translation w).
Proof.
  unfold update_result, mbind, M_bind, get_world.
  destruct (is_error full_result) eqn:He.
  { simpl. split_and!; try done. }
  destruct is_reverse.
  { simpl. rewrite sort_history_data_eq. simpl.
    split_and!; try done. intros _. eexists. split_and!; done. }
  destruct is_rephrase.
  { simpl. rewrite sort_history_data_eq. simpl.
    split_and!; try done. intros _. eexists. split_and!; done. }
  unfold forward_fields, mbind, M_bind, get_world.
  destruct full_result as [s|d|];
    repeat (first [ destruct (bool_decide _) | destruct (parse_llm_response _ _ _) ]; simpl);
    unfold when;
    repeat match goal with |- context [if ?b then _ else _] => destruct b end;
    simpl; rewrite sort_history_data_eq; simpl;
    (split_and!; try done; try (intros [?|?]; done);
     intros _; eexists; split_and!; done).
Qed.

(** ** Computations that only talk to the network *)

Lemma with_net_log_nil w : with_net_log (net_log w ++ []) w = w.
Proof. destruct w. unfold with_net_log. simpl. by rewrite app_nil_r. Qed.

Lemma only_sends_ret {A} (x : A) : only_sends (mret x).
Proof. intros w. exists []. simpl. by rewrite with_net_log_nil. Qed.

Lemma only_sends_send c : only_sends (send c).
Proof. intros w. by exists [c]. Qed.

Lemma only_sends_bind {A B} (m : M A) (k : A -> M B) :
  only_sends m -> (forall x, only_sends (k x)) -> only_sends (m ≫= k).
Proof.
  intros Hm Hk w. unfold mbind, M_bind.
  destruct (Hm w) as [c1 H1]. destruct (m w) as [x w1]. simpl in H1. subst w1.
  destruct (Hk x (with_net_log (net_log w ++ c1) w)) as [c2 H2].
  exists (c1 ++ c2). rewrite H2. unfold with_net_log. simpl.
  by rewrite app_assoc.
Qed.

Lemma only_sends_get : only_sends get_world.
Proof. intros w. exists []. simpl. by rewrite with_net_log_nil. Qed.

Ltac only_sends :=
  repeat first
    [ apply only_sends_ret
    | apply only_sends_send
    | apply only_sends_get
    | apply only_sends_bind; [|intros ?]
    | match goal with
      | |- only_sends (if ?b then _ else _) => destruct b
      | |- only_sends (match ?x with _ => _ end) => destruct x
      end ].

Lemma ask_ai_only_sends prompt text target source :
  only_sends (ask_ai prompt text target source).
Proof. unfold ask_ai. only_sends. Qed.

Lemma perform_double_translation_only_sends code src tgt text :
  only_sends (perform_double_translation code src tgt text).
Proof. unfold perform_double_translation. only_sends. Qed.

Lemma for_each_only_sends {A B} (f : A -> M B) xs :
  (forall x, only_sends (f x)) -> only_sends (for_each f xs).
Proof.
  intros Hf. induction xs as [|x xs IH]; simpl.
  - apply only_sends_ret.
  - apply only_sends_bind; [apply Hf|]. intros y.
    apply only_sends_bind; [apply IH|]. intros ys. apply only_sends_ret.
Qed.



(** ** Translate with DeepL: the two hops *)

Lemma truthy_ne s : s <> "" -> PyStr.truthy s = true.
Proof. by destruct s. Qed.

Lemma truthy_false s : PyStr.truthy s = false <-> s = "".
Proof. by destruct s. Qed.

Lemma two_hop_run text src tgt w :
  deepl_translator (env w) = true ->
  let call1 := DeepL_translate_text text
                 (get_deepl_source_code src) (get_deepl_target_code tgt) in
  two_hop text src tgt w =
  match translate_text text (Some (get_deepl_source_code src))
          (get_deepl_target_code tgt) with
  | Raised e =>
      (PStr (translate_except e), with_net_log (net_log w ++ [call1]) w)
  | Returned t =>
      if PyStr.truthy t then
        (result_dict t
           (step2_text (translate_text t (Some (get_deepl_source_code tgt))
                          (get_deepl_target_code src))),
         with_net_log
           (net_log w ++
            [call1; DeepL_translate_text t (get_deepl_source_code tgt)
                      (get_deepl_target_code src)]) w)
      else
        (result_dict "[Translation Failed or Empty]" "[Rephrasing skipped]",
         with_net_log (net_log w ++ [call1]) w)
  end.
Proof.
  intros Hd. unfold two_hop, mbind, M_bind, get_world. rewrite Hd. simpl.
  destruct (translate_text text _ _) as [t|e]; [|done].
  destruct (PyStr.truthy t); simpl; [|done].
  unfold with_net_log. simpl. by rewrite <- app_assoc.
Qed.

(** With DeepL selected, Translate is: record the direction, run the two
    hops, hand the result to [update_result]. *)
Lemma run_translate_rephrase_DeepL box_text w :
  api_provider_var (env w) = Some "DeepL" ->
  PyStr.strip box_text <> "" ->
  let text := PyStr.strip box_text in
  let src := default "English" (source_language_var (env w)) in
  let tgt := default "Turkish" (target_language_var (env w)) in
  let w0 := (set_last_history_target_language tgt
               (set_last_history_source_language src w).2).2 in
  run_translate_rephrase box_text w =
  update_result text (two_hop text src tgt w0).1 false false
    (two_hop text src tgt w0).2.
Proof.
  intros Hp Hbox. unfold run_translate_rephrase.
  rewrite (truthy_ne _ Hbox). simpl.
  unfold mbind at 1, M_bind at 1, get_world at 1.
  rewrite Hp. simpl.
  unfold mbind, M_bind. simpl.
  by destruct (two_hop _ _ _ _).
Qed.


(** ** The fan-out rephrase *)

Lemma collect_valid_fold results acc :
  fold_left collect_valid results acc
  = acc ++ map candidate_text (List.filter is_candidate results).
Proof.
  revert acc. induction results as [|res results IH]; intros acc; simpl.
  - by rewrite app_nil_r.
  - rewrite IH. destruct res as [s| |]; simpl; try done.
    destruct (PyStr.startswith s ERROR_PREFIX); simpl; [done|].
    destruct (PyStr.truthy (PyStr.strip s)); simpl; [|done].
    by rewrite <- app_assoc.
Qed.

Lemma valid_rephrases_eq results :
  valid_rephrases results = map candidate_text (List.filter is_candidate results).
Proof. unfold valid_rephrases. by rewrite collect_valid_fold. Qed.

Lemma numbered_lookup (valid : list string) i c :
  valid !! i = Some c ->
  imap numbered valid !! i = Some (PyStr.str_of_nat (S i) +:+ ". " +:+ c).
Proof.
  intros H. rewrite list_lookup_imap, H. simpl. unfold numbered.
  by rewrite Nat.add_1_r.
Qed.

Lemma join_nl_cons_head a s l : exists s', PyStr.join_nl (String a s :: l) = String a s'.
Proof. destruct l; simpl; eauto. Qed.

(** The formatted list is never mistaken for an error. *)
Lemma format_rephrases_not_error valid :
  PyStr.startswith (format_rephrases valid) ERROR_PREFIX = false.
Proof.
  destruct valid as [|c valid]; [done|].
  unfold format_rephrases.
  assert (exists s', PyStr.join_nl (imap numbered (take display_limit (c :: valid)))
                     = String "1" s') as [s' ->].
  { simpl. apply join_nl_cons_head. }
  by destruct (display_limit <? _).
Qed.

Lemma process_deepl_results_run current_provider results w :
  let out := format_rephrases (valid_rephrases results) in
  let entry :=
    {| e_time := clock (env w);
       e_original := last_selected_text w;
       e_translated :=
         if PyStr.truthy (last_translation w) then last_translation w
         else "[Previous translation missing]";
       e_rephrased := out;
       e_provider := current_provider +:+ " (Rephrase)";
       e_target_language :=
         last_history_source_language w +:+ " -> "
         +:+ last_history_target_language w |} in
  let h := sorted_history (history_data w ++ [entry]) in
  process_deepl_results current_provider results w =
  (tt, mk_world (env w) (last_selected_text w) (last_translation w)
         (last_history_source_language w) (last_history_target_language w)
         h (Some h) (net_log w)
         (ui_log w ++ [set_rephrased_textbox out; update_button_states false])).
Proof.
  unfold process_deepl_results, mbind, M_bind, get_world. simpl.
  rewrite sort_history_data_eq. simpl.
  unfold update_rephrase_box, mbind, M_bind.
  rewrite format_rephrases_not_error. unfold ui. simpl.
  by rewrite <- app_assoc.
Qed.

(** C1.  In the DeepL fan-out rephrase, whatever list of results the
    workers leave, the retained candidates are exactly the results that are
    strings, are not errors and are not blank, each stripped, in the order
    of the list and with duplicates kept.  When there is a candidate, the
    text put in the rephrase box is the first five candidates as the lines
    "1. ..." to at most "5. ..."; when there are more than five, a note with
    the total count follows. *)
Theorem fanout_candidates_numbered current_provider (results : list pyval) w :
  let candidates := map candidate_text (List.filter is_candidate results) in
  let lines := imap numbered (take 5 candidates) in
  let out := format_rephrases (valid_rephrases results) in
  valid_rephrases results = candidates
  /\ ui_log (process_deepl_results current_provider results w).2
     = ui_log w ++ [set_rephrased_textbox out; update_button_states false]
  /\ (candidates <> [] ->
      out = (if (5 <? length candidates)%nat
             then PyStr.join_nl lines +:+ PyStr.nl +:+ "... ("
                  +:+ PyStr.str_of_nat (length candidates) +:+ " results found)"
             else PyStr.join_nl lines)
      /\ length lines = Nat.min 5 (length candidates)
      /\ forall i c, (i < 5)%nat -> candidates !! i = Some c ->
           lines !! i = Some (PyStr.str_of_nat (S i) +:+ ". " +:+ c)).
Proof.
  intros candidates lines out.
  assert (valid_rephrases results = candidates) as Hv by apply valid_rephrases_eq.
  split; [done|]. split.
  { by rewrite process_deepl_results_run. }
  intros Hne. subst out. rewrite Hv. split_and!.
  - unfold format_rephrases. destruct candidates as [|c cs] eqn:E; [done|].
    done.
  - subst lines. rewrite length_imap, length_take. lia.
  - intros i c Hi Hc. apply numbered_lookup.
    rewrite lookup_take_lt; done.
Qed.

(** C2.  When no result of the workers is a candidate, the fan-out
    rephrase still succeeds: the rephrase box shows the placeholder (no
    error box is raised), and one history entry whose rephrased field is
    the placeholder is appended to the store, which is then written to the
    history file. *)
Theorem fanout_no_candidate current_provider (results : list pyval) w :
  Forall (fun res => is_candidate res = false) results ->
  let w' := (process_deepl_results current_provider results w).2 in
  ui_log w' = ui_log w ++ [set_rephrased_textbox NO_VALID_REPHRASES;
                           update_button_states false]
  /\ is_error (PStr NO_VALID_REPHRASES) = false
  /\ (exists entry,
        e_rephrased entry = NO_VALID_REPHRASES
        /\ e_original entry = last_selected_text w
        /\ entry ∈ history_data w'
        /\ Permutation (history_data w') (history_data w ++ [entry]))
  /\ length (history_data w') = S (length (history_data w))
  /\ HISTORY_FILE w' = Some (history_data w').
Proof.
  intros Hnone w'.
  assert (valid_rephrases results = []) as Hv.
  { rewrite valid_rephrases_eq.
    replace (List.filter is_candidate results) with (@nil pyval); [done|].
    symmetry. induction Hnone as [|res l Hres _ IH]; simpl; [done|].
    by rewrite Hres. }
  subst w'. rewrite process_deepl_results_run. rewrite Hv. simpl.
  split_and!; try done.
  - eexists. split_and!; cycle 3.
    { apply sorted_history_perm. }
    + done.
    + done.
    + rewrite sorted_history_perm. apply elem_of_app. right. constructor.
  - rewrite sorted_history_perm, length_app. simpl. lia.
Qed.

(** ** Rephrase again *)

(** C8.  Rephrase Again with no active source text ([last_selected_text]
    empty) is rejected with a warning box; no request is sent and the
    session, the history and the history file stay as they were. *)
Theorem rephrase_again_needs_source_text (finished : list string) w :
  last_selected_text w = "" ->
  let w' := (rephrase_again finished w).2 in
  ui_log w' = ui_log w ++
    [showwarning "No Text Found"
       ("Cannot rephrase because the source text is missing." +:+ PyStr.nl
        +:+ "Please perform a translation first.")]
  /\ net_log w' = net_log w
  /\ history_data w' = history_data w
  /\ HISTORY_FILE w' = HISTORY_FILE w
  /\ last_selected_text w' = last_selected_text w
  /\ last_translation w' = last_translation w
  /\ last_history_source_language w' = last_history_source_language w
  /\ last_history_target_language w' = last_history_target_language w
  /\ env w' = env w.
Proof.
  intros H. unfold rephrase_again, mbind, M_bind, get_world. rewrite H.
  simpl. done.
Qed.


(** Rephrase Again never writes [last_selected_text]. *)
Lemma rephrase_again_keeps_source_text finished w :
  last_selected_text (rephrase_again finished w).2 = last_selected_text w.
Proof.
  unfold rephrase_again. unfold mbind at 1, M_bind at 1, get_world at 1.
  destruct (PyStr.truthy (last_selected_text w)); [|done]. cbn [negb].
  destruct (bool_decide _).
  - destruct (deepl_translator (env w)); [|done]. cbn [negb].
    unfold mbind at 1, M_bind at 1.
    match goal with |- context [for_each ?f ?l w] =>
      destruct (for_each_only_sends f l
                  (fun c => perform_double_translation_only_sends c _ _ _) w)
        as [calls Hw];
      destruct (for_each f l w) as [results w1] end.
    simpl in Hw. subst w1. by rewrite process_deepl_results_run.
  - unfold mbind at 1, M_bind at 1.
    match goal with |- context [ask_ai ?a ?b ?c ?d w] =>
      destruct (ask_ai_only_sends a b c d w) as [calls Hw];
      destruct (ask_ai a b c d w) as [raw w1] end.
    simpl in Hw. subst w1.
    unfold mbind, M_bind, get_world.
    match goal with |- context [update_result ?a ?b ?c ?d ?w] =>
      destruct (update_result_effect a b c d w) as (_ & _ & _ & _ & _ & _ & Hk) end.
    destruct Hk as [Hk _]; [by right|]. by rewrite Hk.
Qed.

(** ** Translate with DeepL: what reaches the store and the screen *)

Lemma update_result_two_hop text tr rp w :
  api_provider_var (env w) = Some "DeepL" ->
  let entry :=
    mk_entry (clock (env w)) text tr rp "DeepL"
      (last_history_source_language w +:+ " -> " +:+ last_history_target_language w) in
  let h := sorted_history (history_data w ++ [entry]) in
  update_result text (result_dict tr rp) false false w =
  (tt, mk_world (env w)
         (if PyStr.truthy tr && negb (PyStr.startswith tr "[")
          then text else last_selected_text w)
         tr (last_history_source_language w) (last_history_target_language w)
         h (Some h) (net_log w)
         (ui_log w ++ [set_textboxes text tr rp; update_button_states false])).
Proof.
  intros Hp. unfold update_result, mbind, M_bind, get_world. simpl.
  rewrite Hp. simpl.
  unfold forward_fields, mbind, M_bind, get_world. simpl.
  assert (dict_get (<["translated":=tr]> {["rephrased":=rp]}) "translated"
            "[Translation Error]" = tr) as ->.
  { unfold dict_get. by rewrite lookup_insert_eq. }
  assert (dict_get (<["translated":=tr]> {["rephrased":=rp]}) "rephrased"
            "[Rephrasing Error]" = rp) as ->.
  { unfold dict_get. rewrite lookup_insert_ne by done.
    by rewrite lookup_singleton_eq. }
  unfold when.
  destruct (PyStr.truthy tr && negb (PyStr.startswith tr "[")); simpl;
    rewrite sort_history_data_eq; simpl; unfold ui; simpl;
    by rewrite <- app_assoc.
Qed.

Lemma appended_in_sorted h x : x ∈ sorted_history (h ++ [x]).
Proof. rewrite sorted_history_perm. apply elem_of_app. right. constructor. Qed.

Lemma appended_length h x : length (sorted_history (h ++ [x])) = S (length h).
Proof. rewrite sorted_history_perm, length_app. simpl. lia. Qed.

Lemma rephrase_placeholder_step2 r p :
  rephrase_placeholder r = Some p -> step2_text r = p.
Proof. destruct r as [[|a t]|e]; simpl; congruence. Qed.

Lemma get_deepl_source_code_base lang :
  get_deepl_source_code lang = base_code (get_deepl_target_code lang).
Proof. done. Qed.

(** C3.  For every pair of display languages, the second hop of the DeepL
    Translate action asks for a translation of the first hop's text with
    [source_lang] the source code of the target display language (its table
    code with the regional English and Portuguese codes collapsed to "EN"
    and "PT") and [target_lang] the target code of the source display
    language (its table code, regional codes kept). *)
Theorem two_hop_step2_codes box_text src tgt t w :
  api_provider_var (env w) = Some "DeepL" ->
  deepl_translator (env w) = true ->
  source_language_var (env w) = Some src ->
  target_language_var (env w) = Some tgt ->
  PyStr.strip box_text <> "" ->
  translate_text (PyStr.strip box_text) (Some (get_deepl_source_code src))
    (get_deepl_target_code tgt) = Returned t ->
  t <> "" ->
  net_log (run_translate_rephrase box_text w).2
  = net_log w ++
    [ DeepL_translate_text (PyStr.strip box_text)
        (get_deepl_source_code src) (get_deepl_target_code tgt);
      DeepL_translate_text t
        (base_code (dict_get supported_languages_DeepL tgt tgt))
        (dict_get supported_languages_DeepL src src) ]
  /\ map get_deepl_source_code display_languages
     = ["TR"; "DE"; "FR"; "ES"; "IT"; "PT"; "NL"; "PL"; "RU"; "JA"; "ZH";
        "EN"; "EN"; "EN"]
  /\ map get_deepl_target_code display_languages
     = ["TR"; "DE"; "FR"; "ES"; "IT"; "PT-PT"; "NL"; "PL"; "RU"; "JA"; "ZH";
        "EN-GB"; "EN-GB"; "EN-US"].
Proof.
  intros Hp Hd Hs Ht Hbox H1 Hne. split; [|split; vm_compute; reflexivity].
  rewrite run_translate_rephrase_DeepL by done.
  rewrite Hs, Ht. simpl.
  rewrite two_hop_run by done. rewrite H1, (truthy_ne _ Hne). cbn [fst snd].
  rewrite update_result_two_hop by done. done.
Qed.

(** C6.  In the DeepL Translate action, an empty first hop is a degraded
    success: the placeholders "[Translation Failed or Empty]" and
    "[Rephrasing skipped]" are shown and stored, and no error is raised.
    When the first hop returns a text, a second hop that raises or returns
    nothing only turns the rephrased field into its placeholder; the
    translated field is the text of the first hop. *)
Theorem two_hop_degrades box_text w :
  api_provider_var (env w) = Some "DeepL" ->
  deepl_translator (env w) = true ->
  PyStr.strip box_text <> "" ->
  let text := PyStr.strip box_text in
  let src := default "English" (source_language_var (env w)) in
  let tgt := default "Turkish" (target_language_var (env w)) in
  let step1 := translate_text text (Some (get_deepl_source_code src))
                 (get_deepl_target_code tgt) in
  let w' := (run_translate_rephrase box_text w).2 in
  (step1 = Returned "" ->
     ui_log w' = ui_log w ++
       [set_textboxes text "[Translation Failed or Empty]" "[Rephrasing skipped]";
        update_button_states false]
     /\ length (history_data w') = S (length (history_data w))
     /\ exists entry,
          entry ∈ history_data w'
          /\ e_original entry = text
          /\ e_translated entry = "[Translation Failed or Empty]"
          /\ e_rephrased entry = "[Rephrasing skipped]")
  /\ (forall t placeholder,
        step1 = Returned t -> t <> "" ->
        rephrase_placeholder
          (translate_text t (Some (get_deepl_source_code tgt))
             (get_deepl_target_code src)) = Some placeholder ->
        ui_log w' = ui_log w ++
          [set_textboxes text t placeholder; update_button_states false]
        /\ last_translation w' = t
        /\ length (history_data w') = S (length (history_data w))
        /\ exists entry,
             entry ∈ history_data w'
             /\ e_original entry = text
             /\ e_translated entry = t
             /\ e_rephrased entry = placeholder).
Proof.
  intros Hp Hd Hbox text src tgt step1 w'. subst w'.
  rewrite run_translate_rephrase_DeepL by done.
  fold text src tgt. rewrite two_hop_run by done. fold step1.
  split.
  - intros ->. cbn [PyStr.truthy fst snd].
    rewrite update_result_two_hop by done. cbn [snd ui_log history_data].
    split_and!; [done| |].
    + apply appended_length.
    + eexists. split_and!; [apply appended_in_sorted|done..].
  - intros t placeholder -> Hne Hph. rewrite (truthy_ne _ Hne).
    cbn [fst snd]. rewrite (rephrase_placeholder_step2 _ _ Hph).
    rewrite update_result_two_hop by done.
    cbn [snd ui_log history_data last_translation].
    split_and!; [done|done| |].
    + apply appended_length.
    + eexists. split_and!; [apply appended_in_sorted|done..].
Qed.

(** ** Translate back *)

Lemma clean_back_translation_no_quote raw lang :
  PyStr.has_char PyStr.quote_char (clean_back_translation raw lang) = false.
Proof.
  unfold clean_back_translation.
  pose proof (replace_char_gone PyStr.quote_char (PyStr.strip raw)) as Hq.
  change (String PyStr.quote_char "") with PyStr.quote in Hq.
  destruct (PyStr.startswith _ _); [|done].
  destruct (PyStr.has_char _ (PyStr.strip (PyStr.drop _ _))) eqn:E; [|done].
  apply has_char_strip, has_char_drop in E. congruence.
Qed.

(** C10.  With a free-text provider, Translate Back strips the reply,
    removes every double-quote character of it (those inside the text as
    well as an enclosing pair) and only then drops a leading
    "<language> Translation:" label, compared without regard to case.  The
    back-translation handed on never holds a double-quote character. *)
Theorem back_translation_without_quotes
    provider text_to_translate_back final_target_lang_display
    current_text_lang_display w :
  provider <> "DeepL" ->
  let prompt_ :=
    translate_to_source_prompt text_to_translate_back final_target_lang_display in
  let raw_llm_result := (ask_ai (Some prompt_) None None None w).1 in
  let delivered :=
    (back_translation provider text_to_translate_back final_target_lang_display
       current_text_lang_display w).1 in
  (forall raw,
     raw_llm_result = PStr raw -> PyStr.startswith raw ERROR_PREFIX = false ->
     let cleaned_res := PyStr.replace (PyStr.strip raw) PyStr.quote "" in
     let kw := final_target_lang_display +:+ " Translation:" in
     PyStr.has_char PyStr.quote_char cleaned_res = false
     /\ delivered =
        PStr (if PyStr.startswith (PyStr.lower cleaned_res) (PyStr.lower kw)
              then PyStr.strip (PyStr.drop (String.length kw) cleaned_res)
              else cleaned_res))
  /\ (forall s,
        delivered = PStr s -> is_error delivered = false ->
        PyStr.has_char PyStr.quote_char s = false).
Proof.
  intros Hp prompt_ raw_llm_result delivered.
  subst delivered raw_llm_result. unfold back_translation.
  rewrite bool_decide_eq_false_2 by done. fold prompt_.
  unfold mbind, M_bind.
  destruct (ask_ai (Some prompt_) None None None w) as [r w1]. simpl.
  split.
  - intros raw -> Hraw. rewrite Hraw. simpl. split; [|done].
    apply (replace_char_gone PyStr.quote_char).
  - intros s. destruct r as [raw|d|]; simpl.
    + destruct (PyStr.startswith raw ERROR_PREFIX) eqn:E; simpl.
      * intros [= <-]. simpl. congruence.
      * intros [= <-] _. apply clean_back_translation_no_quote.
    + intros [= <-]. done.
    + intros [= <-]. done.
Qed.

(** ** [update_result]: history and session *)

(** C4.  [update_result] ends every action that reaches it: Translate
    passes [is_rephrase = False, is_reverse = False], Translate Back
    [is_reverse = True], Rephrase Again with a free-text provider
    [is_rephrase = True].  A result that starts with "__ERROR__::" writes
    no history entry and leaves [last_selected_text] as it was; any other
    result appends exactly one entry.  [last_selected_text] and
    [last_translation] change only in a Translate action or a successful
    Translate Back, and in fact in neither Translate Back nor Rephrase
    Again; Rephrase Again, with either kind of provider, never changes
    [last_selected_text]. *)
Theorem update_result_history_and_source_text
    text_passed full_result is_rephrase is_reverse w :
  let w' := (update_result text_passed full_result is_rephrase is_reverse w).2 in
  (is_error full_result = true ->
     history_data w' = history_data w
     /\ HISTORY_FILE w' = HISTORY_FILE w
     /\ last_selected_text w' = last_selected_text w)
  /\ (is_error full_result = false ->
      length (history_data w') = S (length (history_data w))
      /\ exists entry,
           e_original entry = text_passed
           /\ Permutation (history_data w') (history_data w ++ [entry]))
  /\ (last_selected_text w' <> last_selected_text w
      \/ last_translation w' <> last_translation w ->
      (is_reverse = false /\ is_rephrase = false)
      \/ (is_reverse = true /\ is_error full_result = false))
  /\ (is_reverse = true \/ is_rephrase = true ->
      last_selected_text w' = last_selected_text w
      /\ last_translation w' = last_translation w)
  /\ (forall finished w0,
        last_selected_text (rephrase_again finished w0).2 = last_selected_text w0).
Proof.
  intros w'.
  destruct (update_result_effect text_passed full_result is_rephrase is_reverse w)
    as (_ & _ & _ & _ & Herr & Hok & Hkeep).
  fold w' in Herr, Hok, Hkeep. split_and!.
  - intros H. destruct (Herr H) as (? & ? & ? & ?). done.
  - intros H. destruct (Hok H) as (entry & Hh & _ & _ & Ho).
    rewrite Hh. split; [apply appended_length|].
    exists entry. split; [done|apply sorted_history_perm].
  - intros Hch. destruct is_reverse, is_rephrase; auto;
      destruct Hkeep as [? ?]; auto; destruct Hch; congruence.
  - exact Hkeep.
  - apply rephrase_again_keeps_source_text.
Qed.

(** ** The parser, case by case *)

(** C5 (as the code has it).  The parser works on the lines of the answer,
    each stripped of leading and trailing whitespace, blank lines dropped.
    Without a line that starts with the translation label both fields are
    their "not found" texts.  Otherwise the first such line opens the
    translation section with what follows the label; the first later line
    that starts with the rephrase label opens the rephrase section in the
    same way; every other line is appended, stripped, to the open section;
    lines before the first label are dropped; a rephrase label that never
    comes leaves the rephrased field at its "not found" text. *)
Theorem parse_llm_response_cases full_result source_language target_language :
  let tr := target_language +:+ " Translation:" in
  let rep := source_language +:+ " Rephrased:" in
  let L := List.filter PyStr.truthy
             (map PyStr.strip (PyStr.split_nl (PyStr.strip full_result))) in
  let res := parse_llm_response full_result source_language target_language in
  (Forall (fun l => PyStr.startswith l tr = false) L ->
     res = (TRANSLATION_NOT_FOUND, REPHRASING_NOT_FOUND))
  /\ (forall pre l0 rest,
        L = pre ++ l0 :: rest ->
        Forall (fun l => PyStr.startswith l tr = false) pre ->
        PyStr.startswith l0 tr = true ->
        Forall (fun l => PyStr.startswith l rep = false) rest ->
        res = (PyStr.strip (PyStr.join_nl
                 (PyStr.strip (PyStr.drop (String.length tr) l0) :: rest)),
               REPHRASING_NOT_FOUND))
  /\ (forall pre l0 mid l1 post,
        L = pre ++ l0 :: mid ++ l1 :: post ->
        Forall (fun l => PyStr.startswith l tr = false) pre ->
        PyStr.startswith l0 tr = true ->
        Forall (fun l => PyStr.startswith l rep = false) mid ->
        PyStr.startswith l1 rep = true ->
        res = (PyStr.strip (PyStr.join_nl
                 (PyStr.strip (PyStr.drop (String.length tr) l0) :: mid)),
               PyStr.strip (PyStr.join_nl
                 (PyStr.strip (PyStr.drop (String.length rep) l1) :: post)))).
Proof.
  intros tr rep L res. subst res. rewrite parse_llm_response_eq.
  unfold parse_stripped, sections, stripped_lines. fold L tr rep.
  split_and!.
  - intros H. apply (break_at_None (fun l => PyStr.startswith l tr)) in H.
    by rewrite H.
  - intros pre l0 rest HL Hpre H0 Hrest.
    assert (break_at (fun l => PyStr.startswith l tr) L = Some (pre, l0, rest)) as ->
      by (by apply break_at_Some).
    apply (break_at_None (fun l => PyStr.startswith l rep)) in Hrest.
    by rewrite Hrest.
  - intros pre l0 mid l1 post HL Hpre H0 Hmid H1.
    assert (break_at (fun l => PyStr.startswith l tr) L
            = Some (pre, l0, mid ++ l1 :: post)) as ->
      by (by apply break_at_Some).
    assert (break_at (fun l => PyStr.startswith l rep) (mid ++ l1 :: post)
            = Some (mid, l1, post)) as ->
      by (by apply break_at_Some).
    done.
Qed.

(** ** Merging an imported history file *)

Lemma elem_of_List_filter {A} (f : A -> bool) (l : list A) x :
  x ∈ List.filter f l <-> x ∈ l /\ f x = true.
Proof. rewrite !list_elem_of_In. apply filter_In. Qed.

Lemma read_items_time children x :
  x ∈ read_items children -> e_time x <> "".
Proof.
  unfold read_items. rewrite list_elem_of_omap. intros ([tag c] & _ & H).
  simpl in H. destruct (bool_decide _); [|done].
  unfold read_item in H.
  destruct (PyStr.truthy (field_text c "time")) eqn:E; simpl in H; [|done].
  injection H as <-. simpl. by destruct (field_text c "time").
Qed.

Lemma loaded_entries_time filepath file x :
  x ∈ (load_history_from_path filepath file).2 -> e_time x <> "".
Proof.
  unfold load_history_from_path.
  destruct (PyStr.truthy filepath); simpl; [|by intros ?%elem_of_nil].
  destruct file as [|msg|tag children]; simpl; try by intros ?%elem_of_nil.
  destruct (bool_decide _); simpl; [|by intros ?%elem_of_nil].
  apply read_items_time.
Qed.

Lemma existing_times_spec h t :
  t ∈ existing_times h <-> t <> "" /\ exists x, x ∈ h /\ e_time x = t.
Proof.
  unfold existing_times. rewrite elem_of_list_to_set, elem_of_List_filter.
  rewrite list_elem_of_fmap. split.
  - intros [(x & -> & Hx) Ht]. split; [by destruct (e_time x)|eauto].
  - intros [Ht (x & Hx & <-)]. split; [eauto|by apply truthy_ne].
Qed.

(** An imported entry with a time is added exactly when no entry of the
    store has that time. *)
Lemma unique_new_entries_spec h loaded x :
  e_time x <> "" ->
  x ∈ unique_new_entries h loaded <->
  x ∈ loaded /\ ~ exists y, y ∈ h /\ e_time y = e_time x.
Proof.
  intros Ht. unfold unique_new_entries. rewrite elem_of_List_filter.
  rewrite bool_decide_eq_true, existing_times_spec. split.
  - intros [Hl Hn]. split; [done|]. intros Hex. apply Hn. by split.
  - intros [Hl Hn]. split; [done|]. intros [_ Hex]. by apply Hn.
Qed.

(** The store after [prompt_and_load_history]. *)
Lemma prompt_and_load_history_store filepath file w :
  let loaded := (load_history_from_path filepath file).2 in
  let w' := (prompt_and_load_history filepath file w).2 in
  history_data w' =
    match unique_new_entries (history_data w) loaded with
    | [] => history_data w
    | new => sorted_history (history_data w ++ new)
    end
  /\ (unique_new_entries (history_data w) loaded <> [] ->
      HISTORY_FILE w' = Some (history_data w')).
Proof.
  unfold prompt_and_load_history, load_history_from_path.
  destruct (PyStr.truthy filepath); simpl; [|done].
  destruct file as [|msg|tag children]; simpl; try done.
  destruct (bool_decide _); simpl; [|done].
  destruct (read_items children) as [|x l] eqn:E; [done|].
  unfold mbind, M_bind, get_world.
  destruct (unique_new_entries (history_data w) (x :: l)) as [|y new]; [done|].
  simpl. rewrite sort_history_data_eq. simpl. done.
Qed.

Lemma prompt_and_load_history_perm filepath file w :
  Permutation
    (history_data (prompt_and_load_history filepath file w).2)
    (history_data w ++
     unique_new_entries (history_data w) (load_history_from_path filepath file).2).
Proof.
  destruct (prompt_and_load_history_store filepath file w) as [-> _].
  destruct (unique_new_entries _ _) as [|y new].
  - by rewrite app_nil_r.
  - apply sorted_history_perm.
Qed.

(** C7 (as the code has it).  After a merge the store holds its former
    entries and those imported entries whose time no entry of the store
    had.  It is sorted by time, newest first, provided every time in it is
    a timestamp of the expected format (and something was added or the
    store was sorted before); the same holds after the two other writes of
    the store, by [update_result] and by the fan-out rephrase. *)
Theorem merge_by_timestamp filepath file w :
  let loaded := (load_history_from_path filepath file).2 in
  let added := unique_new_entries (history_data w) loaded in
  let w' := (prompt_and_load_history filepath file w).2 in
  Permutation (history_data w') (history_data w ++ added)
  /\ (forall x, x ∈ loaded ->
        x ∈ added <-> ~ exists y, y ∈ history_data w /\ e_time y = e_time x)
  /\ (Forall well_timed (history_data w') ->
      added <> [] \/ newest_first (history_data w) ->
      newest_first (history_data w'))
  /\ (~ Forall well_timed (history_data w ++ added) ->
      history_data w' = history_data w ++ added)
  /\ (forall text_passed full_result is_rephrase is_reverse,
        let w1 := (update_result text_passed full_result is_rephrase is_reverse w).2 in
        is_error full_result = false ->
        Forall well_timed (history_data w1) -> newest_first (history_data w1))
  /\ (forall current_provider results,
        let w1 := (process_deepl_results current_provider results w).2 in
        Forall well_timed (history_data w1) -> newest_first (history_data w1)).
Proof.
  intros loaded added w'. split_and!.
  - apply prompt_and_load_history_perm.
  - intros x Hx. subst added.
    rewrite unique_new_entries_spec by (by eapply loaded_entries_time).
    split; [by intros [_ ?]|by intros ?].
  - intros Hwt Hor.
    destruct (prompt_and_load_history_store filepath file w) as [Hh _].
    fold loaded added w' in Hh. rewrite Hh in Hwt |- *.
    destruct added as [|y new].
    + by destruct Hor.
    + apply sorted_history_sorted. by rewrite sorted_history_perm in Hwt.
  - intros Hbad.
    destruct (prompt_and_load_history_store filepath file w) as [Hh _].
    fold loaded added w' in Hh. rewrite Hh.
    destruct added as [|y new].
    + by rewrite app_nil_r.
    + by apply sorted_history_malformed.
  - intros text_passed full_result is_rephrase is_reverse w1 He Hwt.
    destruct (update_result_effect text_passed full_result is_rephrase is_reverse w)
      as (_ & _ & _ & _ & _ & Hok & _).
    destruct (Hok He) as (entry & Hh & _). fold w1 in Hh.
    rewrite Hh in Hwt |- *.
    apply sorted_history_sorted. by rewrite sorted_history_perm in Hwt.
  - intros current_provider results w1. subst w1.
    rewrite process_deepl_results_run. simpl. intros Hwt.
    apply sorted_history_sorted. by rewrite sorted_history_perm in Hwt.
Qed.

(** C9.  When an imported entry has the time of an entry of the store, the
    merge keeps the entry of the store as it is and drops the imported one,
    whatever its other fields: every entry of the store is still there, and
    every entry found afterwards under a time the store already had is an
    entry the store already had. *)
Theorem merge_keeps_existing filepath file w :
  let w' := (prompt_and_load_history filepath file w).2 in
  (forall x, x ∈ history_data w -> x ∈ history_data w')
  /\ (forall x y,
        x ∈ history_data w' -> y ∈ history_data w -> e_time x = e_time y ->
        x ∈ history_data w)
  /\ (forall y, y ∈ history_data w ->
        List.filter (fun x => bool_decide (e_time x = e_time y))
          (unique_new_entries (history_data w)
             (load_history_from_path filepath file).2) = []).
Proof.
  intros w'. pose proof (prompt_and_load_history_perm filepath file w) as Hp.
  fold w' in Hp.
  assert (forall x y,
            x ∈ unique_new_entries (history_data w)
                  (load_history_from_path filepath file).2 ->
            y ∈ history_data w -> e_time x = e_time y -> False) as Hnew.
  { intros x y Hx Hy Ht.
    assert (e_time x <> "") as Hne.
    { apply elem_of_List_filter in Hx as [Hx _].
      by eapply loaded_entries_time. }
    apply unique_new_entries_spec in Hx as [_ Hx]; [|done].
    apply Hx. eauto. }
  split_and!.
  - intros x Hx. rewrite Hp. apply elem_of_app. by left.
  - intros x y Hx Hy Ht. rewrite Hp in Hx.
    apply elem_of_app in Hx as [Hx|Hx]; [done|].
    destruct (Hnew x y Hx Hy Ht).
  - intros y Hy.
    destruct (List.filter _ _) as [|x l] eqn:E; [done|].
    assert (x ∈ x :: l) as Hx by constructor.
    rewrite <- E in Hx. apply elem_of_List_filter in Hx as [Hx Ht].
    apply bool_decide_eq_true in Ht. destruct (Hnew x y Hx Hy Ht).
Qed.


(** ** [ask_ai]: requests and failures *)


(** X1.  [ask_ai] sends at most one request: either exactly one request
    leaves the machine, or none does and the result is an error string. *)
Theorem ask_ai_one_request_or_error prompt text target source w :
  let r := (ask_ai prompt text target source w).1 in
  let w' := (ask_ai prompt text target source w).2 in
  (w' = w /\ is_error r = true)
  \/ (exists c, w' = with_net_log (net_log w ++ [c]) w).
Proof.
  unfold ask_ai, mbind, M_bind, get_world, mret, M_ret, send. simpl.
  repeat match goal with
         | |- context [if ?b then _ else _] => destruct b; simpl
         | |- context [match ?x with _ => _ end] => destruct x; simpl
         end;
    first [ by left | right; by eexists ].
Qed.


(** ** The workers of the fan-out *)


(** X3.  A worker of the fan-out yields a text only when both hops
    returned a non-empty text, and then it is the text of the second hop;
    in every other case (an exception or an empty text at either hop) it
    yields an error string.  The second request is sent only after a first
    hop that returned a text. *)
Theorem worker_text_or_error code src tgt text w :
  let r := (perform_double_translation code src tgt text w).1 in
  let sent := worker_calls code src tgt text in
  (exists t1 t2,
     translate_text text (Some src) code = Returned t1 /\ t1 <> ""
     /\ translate_text t1 (Some code) tgt = Returned t2 /\ t2 <> ""
     /\ r = PStr t2
     /\ sent = [DeepL_translate_text text src code; DeepL_translate_text t1 code tgt])
  \/ (is_error r = true
      /\ (sent = [DeepL_translate_text text src code]
          \/ exists t1, translate_text text (Some src) code = Returned t1 /\ t1 <> ""
               /\ sent = [DeepL_translate_text text src code;
                          DeepL_translate_text t1 code tgt])).
Proof.
  unfold perform_double_translation, worker_calls, mbind, M_bind, send, mret, M_ret.
  simpl.
  destruct (translate_text text (Some src) code) as [t1|e1] eqn:E1; simpl.
  - destruct t1 as [|a t1]; simpl.
    + right. split; [done|]. by left.
    + destruct (translate_text (String a t1) (Some code) tgt) as [t2|e2] eqn:E2; simpl.
      * destruct t2 as [|b t2]; simpl.
        -- right. split; [done|]. right. eexists. split_and!; done.
        -- left. do 2 eexists. split_and!; done.
      * right. split.
        -- destruct (is_DeepLException e2); [done|]. by destruct (exn_cls e2).
        -- right. eexists. split_and!; done.
  - right. split; [|by left].
    destruct (is_DeepLException e1); [done|]. by destruct (exn_cls e1).
Qed.





(** X5.  Rephrase Again with DeepL selected but no translator object only
    shows an error box: nothing is sent, stored or changed. *)
Theorem rephrase_again_without_translator finished w :
  last_selected_text w <> "" ->
  api_provider_var (env w) = Some "DeepL" ->
  deepl_translator (env w) = false ->
  rephrase_again finished w =
  ui (showerror "API Error"
        "DeepL API Key not configured or translator not initialised.") w.
Proof.
  intros Ht Hp Hd. unfold rephrase_again, mbind, M_bind, get_world.
  by rewrite (truthy_ne _ Ht), Hp, Hd.
Qed.

(** ** Translate and Translate Back: edge cases *)

Lemma lstrip_all_space s : all_space s = true -> PyStr.lstrip s = "".
Proof.
  induction s as [|c s IH]; simpl; [done|].
  intros [Hc Hs]%andb_true_iff. rewrite Hc. by apply IH.
Qed.

Lemma strip_all_space s : all_space s = true -> PyStr.strip s = "".
Proof. intros H. unfold PyStr.strip. by rewrite lstrip_all_space. Qed.

(** X6.  A text box that holds nothing but whitespace counts as empty:
    Translate and Translate Back only show the "Input Missing" warning; no
    request is sent and nothing is stored or changed. *)
Theorem blank_input_only_warns box_text w :
  all_space box_text = true ->
  run_translate_rephrase box_text w =
    ui (showwarning "Input Missing" "Please enter text in the Source Text area.") w
  /\ translate_to_source box_text w =
     ui (showwarning "Input Missing"
           "Please enter text in the 'Translated Text (Target)' area to translate back.") w.
Proof.
  intros H. unfold run_translate_rephrase, translate_to_source.
  rewrite strip_all_space by done. cbn [negb PyStr.truthy]. done.
Qed.

Lemma translate_except_is_error e :
  PyStr.startswith (translate_except e) ERROR_PREFIX = true.
Proof.
  unfold translate_except. destruct (is_DeepLException e); [done|].
  by destruct (exn_cls e), (exn_str e).
Qed.

(** X7.  When the first hop of the DeepL Translate action raises, the action
    ends in an error: one request was sent, an error box shows the message,
    no history entry is written and the active source text and the last
    translation stay.  The direction recorded for later history entries has
    nevertheless been set to the selected languages. *)
Theorem translate_first_hop_fails box_text e w :
  api_provider_var (env w) = Some "DeepL" ->
  deepl_translator (env w) = true ->
  PyStr.strip box_text <> "" ->
  let text := PyStr.strip box_text in
  let src := default "English" (source_language_var (env w)) in
  let tgt := default "Turkish" (target_language_var (env w)) in
  translate_text text (Some (get_deepl_source_code src)) (get_deepl_target_code tgt)
  = Raised e ->
  let w' := (run_translate_rephrase box_text w).2 in
  net_log w' = net_log w ++
    [DeepL_translate_text text (get_deepl_source_code src) (get_deepl_target_code tgt)]
  /\ ui_log w' = ui_log w ++
       [showerror "API Error" (PyStr.replace (translate_except e) ERROR_PREFIX "");
        update_button_states false]
  /\ history_data w' = history_data w
  /\ HISTORY_FILE w' = HISTORY_FILE w
  /\ last_selected_text w' = last_selected_text w
  /\ last_translation w' = last_translation w
  /\ last_history_source_language w' = src
  /\ last_history_target_language w' = tgt.
Proof.
  intros Hp Hd Hbox text src tgt H1 w'. subst w'.
  rewrite run_translate_rephrase_DeepL by done. fold text src tgt.
  rewrite two_hop_run by done. rewrite H1. cbn [fst snd].
  unfold update_result, mbind, M_bind, get_world.
  cbn [is_error]. rewrite translate_except_is_error.
  unfold ui. simpl. by rewrite <- app_assoc.
Qed.

(** X8.  After a DeepL Translate whose first hop returned a text, the last
    translation is that text, and the stripped input becomes the active
    source text unless the translation starts with "[": such a translation
    is stored in the history like any other but leaves the active source
    text as it was. *)
Theorem translate_sets_active_source_text box_text t w :
  api_provider_var (env w) = Some "DeepL" ->
  deepl_translator (env w) = true ->
  PyStr.strip box_text <> "" ->
  let text := PyStr.strip box_text in
  let src := default "English" (source_language_var (env w)) in
  let tgt := default "Turkish" (target_language_var (env w)) in
  translate_text text (Some (get_deepl_source_code src)) (get_deepl_target_code tgt)
  = Returned t ->
  t <> "" ->
  let w' := (run_translate_rephrase box_text w).2 in
  last_translation w' = t
  /\ last_selected_text w'
     = (if PyStr.startswith t "[" then last_selected_text w else text)
  /\ (exists entry, entry ∈ history_data w' /\ e_original entry = text
                    /\ e_translated entry = t
                    /\ e_target_language entry = src +:+ " -> " +:+ tgt)
  /\ length (history_data w') = S (length (history_data w)).
Proof.
  intros Hp Hd Hbox text src tgt H1 Hne w'. subst w'.
  rewrite run_translate_rephrase_DeepL by done. fold text src tgt.
  rewrite two_hop_run by done. rewrite H1, (truthy_ne _ Hne). cbn [fst snd].
  rewrite update_result_two_hop by done.
  cbn [snd last_translation last_selected_text history_data].
  rewrite (truthy_ne _ Hne). simpl.
  split_and!; [done|by destruct (PyStr.startswith t "[")| |apply appended_length].
  eexists. split_and!; [apply appended_in_sorted|done..].
Qed.

(** [update_result] on the answer of a free-text provider to Translate. *)
Lemma update_result_llm text s w :
  default "N/A" (api_provider_var (env w)) <> "DeepL" ->
  PyStr.startswith s ERROR_PREFIX = false ->
  let tr := (parse_llm_response s (last_history_source_language w)
               (last_history_target_language w)).1 in
  let rp := (parse_llm_response s (last_history_source_language w)
               (last_history_target_language w)).2 in
  let entry :=
    mk_entry (clock (env w)) text tr rp (default "N/A" (api_provider_var (env w)))
      (last_history_source_language w +:+ " -> " +:+ last_history_target_language w) in
  let h := sorted_history (history_data w ++ [entry]) in
  update_result text (PStr s) false false w =
  (tt, mk_world (env w)
         (if PyStr.truthy tr && negb (PyStr.startswith tr "[")
          then text else last_selected_text w)
         tr (last_history_source_language w) (last_history_target_language w)
         h (Some h) (net_log w)
         (ui_log w ++ [set_textboxes text tr rp; update_button_states false])).
Proof.
  intros Hp He. unfold update_result, mbind, M_bind, get_world.
  cbn [is_error]. rewrite He.
  unfold forward_fields, mbind, M_bind, get_world.
  rewrite bool_decide_eq_false_2 by done. cbn [negb].
  destruct (parse_llm_response s _ _) as [tr rp]. simpl.
  unfold when.
  destruct (PyStr.truthy tr && negb (PyStr.startswith tr "[")); simpl;
    rewrite sort_history_data_eq; simpl; unfold ui; simpl;
    by rewrite <- app_assoc.
Qed.

Lemma parse_without_label full_result source_language target_language :
  Forall (fun l => PyStr.startswith l (target_language +:+ " Translation:") = false)
    (stripped_lines full_result) ->
  parse_llm_response full_result source_language target_language
  = (TRANSLATION_NOT_FOUND, REPHRASING_NOT_FOUND).
Proof.
  intros H. rewrite parse_llm_response_eq. unfold parse_stripped, sections.
  apply (break_at_None
           (fun l => PyStr.startswith l (target_language +:+ " Translation:"))) in H.
  by rewrite H.
Qed.

Lemma parse_two_sections full_result source_language target_language pre l0 mid l1 post :
  let tr := target_language +:+ " Translation:" in
  let rep := source_language +:+ " Rephrased:" in
  stripped_lines full_result = pre ++ l0 :: mid ++ l1 :: post ->
  Forall (fun l => PyStr.startswith l tr = false) pre ->
  PyStr.startswith l0 tr = true ->
  Forall (fun l => PyStr.startswith l rep = false) mid ->
  PyStr.startswith l1 rep = true ->
  parse_llm_response full_result source_language target_language
  = (PyStr.strip (PyStr.join_nl
       (PyStr.strip (PyStr.drop (String.length tr) l0) :: mid)),
     PyStr.strip (PyStr.join_nl
       (PyStr.strip (PyStr.drop (String.length rep) l1) :: post))).
Proof.
  intros tr rep HL Hpre H0 Hmid H1. rewrite parse_llm_response_eq.
  unfold parse_stripped, sections. fold tr rep.
  assert (break_at (fun l => PyStr.startswith l tr) (stripped_lines full_result)
          = Some (pre, l0, mid ++ l1 :: post)) as ->
    by (by apply break_at_Some).
  assert (break_at (fun l => PyStr.startswith l rep) (mid ++ l1 :: post)
          = Some (mid, l1, post)) as ->
    by (by apply break_at_Some).
  done.
Qed.

(** X9.  An answer of a free-text provider without a line that starts with
    the translation label still ends Translate as a success: one history
    entry with the two "not found" texts is written and shown, the last
    translation becomes the "not found" text, and the active source text
    stays as it was. *)
Theorem translate_answer_without_label text s w :
  default "N/A" (api_provider_var (env w)) <> "DeepL" ->
  PyStr.startswith s ERROR_PREFIX = false ->
  Forall (fun l => PyStr.startswith l
                     (last_history_target_language w +:+ " Translation:") = false)
    (stripped_lines s) ->
  let w' := (update_result text (PStr s) false false w).2 in
  last_selected_text w' = last_selected_text w
  /\ last_translation w' = TRANSLATION_NOT_FOUND
  /\ ui_log w' = ui_log w ++
       [set_textboxes text TRANSLATION_NOT_FOUND REPHRASING_NOT_FOUND;
        update_button_states false]
  /\ length (history_data w') = S (length (history_data w))
  /\ exists entry, entry ∈ history_data w' /\ e_original entry = text
                   /\ e_translated entry = TRANSLATION_NOT_FOUND
                   /\ e_rephrased entry = REPHRASING_NOT_FOUND.
Proof.
  intros Hp He Hno w'. subst w'. rewrite update_result_llm by done.
  rewrite (parse_without_label s (last_history_source_language w)
             (last_history_target_language w) Hno). simpl.
  split_and!; [done..|apply appended_length|].
  eexists. split_and!; [apply appended_in_sorted|done..].
Qed.

(** ** Translate Back with DeepL *)

Lemma ask_ai_DeepL_run text target source w :
  api_provider_var (env w) = Some "DeepL" ->
  deepl_translator (env w) = true ->
  text <> "" -> target <> "" ->
  ask_ai None (Some text) (Some target) (Some source) w =
  (match translate_text text (Some source) target with
   | Returned t => PDict {[ "translated" := t ]}
   | Raised e => PStr (ask_ai_except "DeepL" e)
   end,
   with_net_log (net_log w ++ [DeepL_translate_text text source target]) w).
Proof.
  intros Hp Hd Ht Hg. unfold ask_ai, mbind, M_bind, get_world.
  rewrite Hp, Hd. cbn [default from_option id negb option_truthy].
  rewrite (truthy_ne _ Ht), (truthy_ne _ Hg). simpl.
  by destruct (translate_text text (Some source) target).
Qed.

Lemma translate_back_DeepL_run box_text t w :
  api_provider_var (env w) = Some "DeepL" ->
  deepl_translator (env w) = true ->
  PyStr.strip box_text <> "" ->
  let text := PyStr.strip box_text in
  let final := default "English" (source_language_var (env w)) in
  let current := default "Turkish" (target_language_var (env w)) in
  get_deepl_target_code final <> "" ->
  translate_text text (Some (get_deepl_source_code current))
    (get_deepl_target_code final) = Returned t ->
  PyStr.startswith t ERROR_PREFIX = false ->
  let entry :=
    mk_entry (clock (env w)) text t "[N/A for reverse translation]" "DeepL"
      (current +:+ " -> " +:+ final) in
  let h := sorted_history (history_data w ++ [entry]) in
  translate_to_source box_text w =
  (tt, mk_world (env w) (last_selected_text w) (last_translation w)
         current final h (Some h)
         (net_log w ++
          [DeepL_translate_text text (get_deepl_source_code current)
             (get_deepl_target_code final)])
         (ui_log w ++ [set_textboxes t text ""; update_button_states true])).
Proof.
  intros Hp Hd Hbox text final current Hcode H1 He entry h.
  subst h entry. unfold translate_to_source.
  rewrite (truthy_ne _ Hbox). cbn [negb].
  unfold mbind at 1, M_bind at 1, get_world at 1. rewrite Hp.
  cbn [default from_option id]. fold text final current.
  unfold mbind at 1, M_bind at 1, set_last_history_source_language at 1.
  unfold mbind at 1, M_bind at 1, set_last_history_target_language at 1.
  cbn [last_selected_text last_translation last_history_source_language
       last_history_target_language env history_data HISTORY_FILE net_log ui_log].
  unfold mbind at 1, M_bind at 1.
  unfold back_translation. rewrite bool_decide_eq_true_2 by done.
  unfold mbind at 1, M_bind at 1.
  rewrite ask_ai_DeepL_run by done. rewrite H1.
  rewrite lookup_singleton_eq. cbn [mret M_ret].
  unfold update_result, mbind, M_bind, get_world. cbn [is_error]. rewrite He.
  simpl. rewrite sort_history_data_eq. simpl. unfold ui. simpl.
  rewrite Hp. simpl. by rewrite <- ?app_assoc.
Qed.

(** X10.  Translate Back with DeepL sends one request, from the source code
    of the selected target language to the target code of the selected
    source language, and, when a text comes back, writes one history entry
    in the reversed direction "target -> source" with the fixed rephrased
    text "[N/A for reverse translation]"; the result goes to the source box
    and the input to the target box.  The active source text and the last
    translation stay as they were. *)
Theorem translate_back_DeepL box_text t w :
  api_provider_var (env w) = Some "DeepL" ->
  deepl_translator (env w) = true ->
  PyStr.strip box_text <> "" ->
  let text := PyStr.strip box_text in
  let final := default "English" (source_language_var (env w)) in
  let current := default "Turkish" (target_language_var (env w)) in
  get_deepl_target_code final <> "" ->
  translate_text text (Some (get_deepl_source_code current))
    (get_deepl_target_code final) = Returned t ->
  PyStr.startswith t ERROR_PREFIX = false ->
  let w' := (translate_to_source box_text w).2 in
  net_log w' = net_log w ++
    [DeepL_translate_text text (get_deepl_source_code current)
       (get_deepl_target_code final)]
  /\ ui_log w' = ui_log w ++ [set_textboxes t text ""; update_button_states true]
  /\ length (history_data w') = S (length (history_data w))
  /\ (exists entry,
        entry ∈ history_data w'
        /\ e_original entry = text /\ e_translated entry = t
        /\ e_rephrased entry = "[N/A for reverse translation]"
        /\ e_target_language entry = current +:+ " -> " +:+ final)
  /\ last_selected_text w' = last_selected_text w
  /\ last_translation w' = last_translation w.
Proof.
  intros Hp Hd Hbox text final current Hcode H1 He w'. subst w'.
  rewrite (translate_back_DeepL_run box_text t) by done. simpl.
  split_and!; [done|done|apply appended_length| |done|done].
  eexists. split_and!; [apply appended_in_sorted|done..].
Qed.


(** ** The sort of the history *)

Lemma filter_map_snd {A} (P : A -> bool) (l : list (Z * A)) :
  List.filter P (map snd l) = map snd (List.filter (fun p => P p.2) l).
Proof.
  induction l as [|p l IH]; simpl; [done|].
  destruct (P p.2); simpl; by rewrite IH.
Qed.

Lemma filter_keyed (key : history_entry -> option Z) k (d : list (Z * history_entry)) :
  Forall (fun p => key p.2 = Some p.1) d ->
  List.filter (fun p => bool_decide (key p.2 = Some k)) d
  = List.filter (fun p => (p.1 =? k)%Z) d.
Proof.
  induction 1 as [|p d Hp _ IH]; simpl; [done|].
  rewrite IH, Hp.
  destruct (p.1 =? k)%Z eqn:E.
  - apply Z.eqb_eq in E. rewrite bool_decide_eq_true_2; [done|by rewrite E].
  - apply Z.eqb_neq in E. rewrite bool_decide_eq_false_2; [done|congruence].
Qed.

Lemma sorted_history_stable h k :
  Forall well_timed h ->
  List.filter (fun x => bool_decide (sort_key x = Some k)) (sorted_history h)
  = List.filter (fun x => bool_decide (sort_key x = Some k)) h.
Proof.
  intros H. apply decorate_is_Some in H as [d E].
  unfold sorted_history. rewrite E.
  pose proof (decorate_keys _ _ _ E) as Hk.
  rewrite <- (decorate_snd _ _ _ E) at 1.
  rewrite !filter_map_snd. f_equal.
  rewrite !filter_keyed; [apply sort_desc_stable|done|].
  by rewrite sort_desc_perm.
Qed.

Lemma insert_desc_head {A} (x : Z * A) l :
  Forall (fun y => (y.1 <= x.1)%Z) l -> insert_desc x l = x :: l.
Proof.
  destruct 1 as [|y l Hy _]; simpl; [done|].
  destruct (x.1 <? y.1)%Z eqn:E; [lia|done].
Qed.

Lemma sort_desc_sorted_id {A} (l : list (Z * A)) :
  StronglySorted (fun a b => (b.1 <= a.1)%Z) l -> sort_desc l = l.
Proof.
  induction 1 as [|x l _ IH Hall]; simpl; [done|].
  rewrite IH. by apply insert_desc_head.
Qed.

Lemma decorate_map_snd {A} (key : A -> option Z) (d : list (Z * A)) :
  Forall (fun p => key p.2 = Some p.1) d -> decorate key (map snd d) = Some d.
Proof.
  induction 1 as [|[k x] d Hp _ IH]; simpl; [done|].
  simpl in Hp. by rewrite Hp, IH.
Qed.

Lemma sorted_history_idemp h : sorted_history (sorted_history h) = sorted_history h.
Proof.
  unfold sorted_history at 2 3.
  destruct (decorate sort_key h) as [d|] eqn:E.
  - unfold sorted_history. rewrite decorate_map_snd.
    + by rewrite sort_desc_sorted_id by apply sort_desc_sorted.
    + rewrite sort_desc_perm. by eapply decorate_keys.
  - unfold sorted_history. by rewrite E.
Qed.

(** X11.  [sort_history_data] touches nothing but [history_data], which
    keeps its entries.  When every time is a timestamp of the expected
    format the entries end up newest first, entries of one time keep their
    order, and sorting again changes nothing; when some time is not, the
    list is left exactly as it was. *)
Theorem sort_history_data_sorts w :
  let w' := (sort_history_data w).2 in
  w' = with_history (history_data w') w
  /\ Permutation (history_data w') (history_data w)
  /\ (sort_history_data w').2 = w'
  /\ (Forall well_timed (history_data w) ->
      newest_first (history_data w')
      /\ forall k,
           List.filter (fun x => bool_decide (sort_key x = Some k)) (history_data w')
           = List.filter (fun x => bool_decide (sort_key x = Some k)) (history_data w))
  /\ (~ Forall well_timed (history_data w) -> history_data w' = history_data w).
Proof.
  intros w'. subst w'. rewrite sort_history_data_eq. cbn [snd].
  split_and!.
  - done.
  - apply sorted_history_perm.
  - rewrite sort_history_data_eq. cbn [snd]. unfold with_history. simpl.
    by rewrite sorted_history_idemp.
  - intros H. split; [by apply sorted_history_sorted|].
    intros k. by apply sorted_history_stable.
  - apply sorted_history_malformed.
Qed.

(** ** Reading a history file *)

Lemma omap_length {A B} (f : A -> option B) (l : list A) :
  length (omap f l) <= length l.
Proof.
  induction l as [|c l IH]; [done|].
  change (omap f (c :: l))
    with (match f c with Some y => y :: omap f l | None => omap f l end).
  destruct (f c); cbn [length]; lia.
Qed.

Lemma read_items_length children : length (read_items children) <= length children.
Proof. apply omap_length. Qed.

(** X12.  [load_history_from_path] succeeds exactly when a path is given and
    the file parses with the root tag "history"; a failure returns no entry
    at all, so a file is never loaded in part.  Every entry returned has a
    non-empty time, and there are at most as many entries as children of the
    root. *)
Theorem load_history_from_path_result filepath file :
  let success := (load_history_from_path filepath file).1.1 in
  let entries := (load_history_from_path filepath file).2 in
  (success = true <->
   filepath <> "" /\ exists children, file = xml_root "history" children)
  /\ (success = false -> entries = [])
  /\ Forall (fun x => e_time x <> "") entries
  /\ (forall tag children, file = xml_root tag children ->
        length entries <= length children).
Proof.
  intros success entries. split_and!.
  - subst success. unfold load_history_from_path.
    destruct filepath as [|a p]; simpl.
    { split; [done|]. by intros [? _]. }
    destruct file as [|msg|tag children]; simpl.
    + split; [done|]. by intros [_ [? ?]].
    + split; [done|]. by intros [_ [? ?]].
    + destruct (bool_decide (tag = "history")) eqn:E; simpl.
      * apply bool_decide_eq_true in E as ->. split; [|done].
        intros _. split; [done|by eexists].
      * apply bool_decide_eq_false in E. split; [done|].
        intros [_ [c [= ? ?]]]. done.
  - subst success entries. unfold load_history_from_path.
    destruct (PyStr.truthy filepath); simpl; [|done].
    destruct file as [|msg|tag children]; simpl; try done.
    destruct (bool_decide _); simpl; done.
  - apply Forall_forall. intros x Hx. by eapply loaded_entries_time.
  - intros tag children ->. subst entries. unfold load_history_from_path.
    destruct (PyStr.truthy filepath); simpl; [|lia].
    destruct (bool_decide _); simpl; [apply read_items_length|lia].
Qed.

(** ** Merging: nothing new, rejected files, merging twice *)

Lemma prompt_and_load_history_nothing_new filepath file w :
  unique_new_entries (history_data w) (load_history_from_path filepath file).2 = [] ->
  let w' := (prompt_and_load_history filepath file w).2 in
  history_data w' = history_data w /\ HISTORY_FILE w' = HISTORY_FILE w
  /\ net_log w' = net_log w /\ env w' = env w
  /\ last_selected_text w' = last_selected_text w
  /\ last_translation w' = last_translation w.
Proof.
  unfold prompt_and_load_history, load_history_from_path.
  destruct (PyStr.truthy filepath); simpl; [|done].
  destruct file as [|msg|tag children]; simpl; try done.
  destruct (bool_decide _); simpl; [|done].
  destruct (read_items children) as [|x l] eqn:E; [done|].
  unfold mbind, M_bind, get_world. by intros ->.
Qed.

(** X13.  A history file that cannot be loaded (no file, not well-formed,
    another root tag) is rejected as a whole: the merge shows an error box
    with the reason and leaves the store, the history file and the session
    untouched.  A cancelled file dialog does nothing at all. *)
Theorem merge_rejects_bad_file filepath file w :
  (filepath = "" -> prompt_and_load_history filepath file w = (tt, w))
  /\ (filepath <> "" ->
      (load_history_from_path filepath file).1.1 = false ->
      prompt_and_load_history filepath file w =
      ui (showerror "Load History Error"
            ("Could not load history:" +:+ PyStr.nl +:+ PyStr.nl
             +:+ (load_history_from_path filepath file).1.2)) w).
Proof.
  split.
  - by intros ->.
  - intros Hp. unfold prompt_and_load_history.
    rewrite (truthy_ne _ Hp). cbn [negb].
    destruct (load_history_from_path filepath file) as [[success message] loaded].
    simpl. by intros ->.
Qed.

(** X14.  Merging the same file a second time adds nothing: after a merge,
    every entry of the file has its time in the store, so the second merge
    leaves the store, the history file and the session as the first merge
    left them. *)
Theorem merge_twice_adds_nothing filepath file w :
  let w1 := (prompt_and_load_history filepath file w).2 in
  let w2 := (prompt_and_load_history filepath file w1).2 in
  unique_new_entries (history_data w1) (load_history_from_path filepath file).2 = []
  /\ history_data w2 = history_data w1
  /\ HISTORY_FILE w2 = HISTORY_FILE w1
  /\ net_log w2 = net_log w1.
Proof.
  intros w1 w2.
  assert (unique_new_entries (history_data w1)
            (load_history_from_path filepath file).2 = []) as Hnone.
  { destruct (unique_new_entries (history_data w1) _) as [|x l] eqn:E; [done|].
    assert (x ∈ x :: l) as Hx by constructor. rewrite <- E in Hx.
    assert (e_time x <> "") as Hne.
    { apply elem_of_List_filter in Hx as [Hx _]. by eapply loaded_entries_time. }
    apply unique_new_entries_spec in Hx as [Hl Hno]; [|done].
    destruct Hno.
    pose proof (prompt_and_load_history_perm filepath file w) as Hp. fold w1 in Hp.
    destruct (decide (e_time x ∈ existing_times (history_data w))) as [Hin|Hnew].
    - apply existing_times_spec in Hin as (_ & y & Hy & Ht).
      exists y. split; [|done]. rewrite Hp. apply elem_of_app. by left.
    - exists x. split; [|done]. rewrite Hp. apply elem_of_app. right.
      apply elem_of_List_filter. split; [done|]. by apply bool_decide_eq_true. }
  split; [done|].
  destruct (prompt_and_load_history_nothing_new filepath file w1 Hnone)
    as (? & ? & ? & _). done.
Qed.

(** ** Start-up load and backup *)

(** X15.  The load at start-up replaces the store: whatever was in memory
    is dropped.  With a well-formed file under the root tag "history" the
    store holds the items of the file that carry a time, sorted when all
    their times are timestamps; with no file, a file that does not parse or
    another root tag the store is empty. *)
Theorem load_history_from_xml_replaces file w :
  let w' := (load_history_from_xml file w).2 in
  (forall children,
     file = xml_root "history" children ->
     Permutation (history_data w') (read_items children)
     /\ Forall (fun x => e_time x <> "") (history_data w')
     /\ (Forall well_timed (read_items children) -> newest_first (history_data w')))
  /\ ((forall children, file <> xml_root "history" children) ->
      history_data w' = [])
  /\ HISTORY_FILE w' = HISTORY_FILE w
  /\ net_log w' = net_log w.
Proof.
  intros w'. subst w'. unfold load_history_from_xml, mbind, M_bind.
  split_and!.
  - intros children ->. simpl. rewrite sort_history_data_eq. simpl.
    split_and!.
    + apply sorted_history_perm.
    + rewrite sorted_history_perm. apply Forall_forall. apply read_items_time.
    + apply sorted_history_sorted.
  - intros Hno. destruct file as [|msg|tag children]; simpl; try done.
    destruct (bool_decide (tag = "history")) eqn:E; simpl; [|done].
    apply bool_decide_eq_true in E as ->. by destruct (Hno children).
  - destruct file as [|msg|tag children]; simpl; try done.
    destruct (bool_decide _); simpl; [|done].
    by rewrite sort_history_data_eq.
  - destruct file as [|msg|tag children]; simpl; try done.
    destruct (bool_decide _); simpl; [|done].
    by rewrite sort_history_data_eq.
Qed.

(** X16.  Backup and clear never loses the file: when the history file
    exists and the move succeeds, the backup "translation_history_<time>.xml"
    holds exactly the items the file held, and the store and the file are
    empty afterwards; when the move fails, an error box is shown and the
    store and the file are left as they were; when there is no file, the
    store is emptied and an empty file is written. *)
Theorem backup_and_clear_history_cases timestamp move w :
  let r := (backup_and_clear_history timestamp move w).1 in
  let w' := (backup_and_clear_history timestamp move w).2 in
  (forall items u,
     HISTORY_FILE w = Some items -> move = Returned u ->
     r = Some ("translation_history_" +:+ timestamp +:+ ".xml", items)
     /\ history_data w' = [] /\ HISTORY_FILE w' = Some [])
  /\ (forall items e,
        HISTORY_FILE w = Some items -> move = Raised e ->
        r = None /\ history_data w' = history_data w
        /\ HISTORY_FILE w' = HISTORY_FILE w
        /\ exists msg, ui_log w' = ui_log w ++ [showerror "History Backup Error" msg])
  /\ (HISTORY_FILE w = None ->
      r = None /\ history_data w' = [] /\ HISTORY_FILE w' = Some [])
  /\ net_log w' = net_log w
  /\ last_selected_text w' = last_selected_text w
  /\ last_translation w' = last_translation w.
Proof.
  intros r w'. subst r w'.
  unfold backup_and_clear_history, mbind, M_bind, get_world.
  destruct (HISTORY_FILE w) as [items|] eqn:Hf; destruct move as [u|e]; simpl;
    split_and!; try done.
  - by intros ? ? [= <-] [= <-].
  - intros ? ? [= <-] [= <-]. rewrite Hf. split_and!; try done. by eexists.
Qed.


(** ** The history only grows, and every growth is saved *)






(** ** Strings: concatenation *)

Lemma app_cons a s t : String a s +:+ t = String a (s +:+ t).
Proof. reflexivity. Qed.

Lemma app_assoc_s a b c : (a +:+ b) +:+ c = a +:+ b +:+ c.
Proof.
  induction a as [|x a IH]; [done|].
  rewrite !app_cons. by rewrite IH.
Qed.

Lemma head_black_ne s : head_black s = true -> s <> "".
Proof. by destruct s. Qed.

Lemma head_black_app s r : head_black s = true -> head_black (s +:+ r) = true.
Proof. by destruct s. Qed.

Lemma lstrip_head_black s : head_black s = true -> PyStr.lstrip s = s.
Proof.
  destruct s as [|a s]; [done|]. simpl.
  by destruct (PyStr.is_space a).
Qed.

Lemma rstrip_app r y :
  y <> "" -> PyStr.rstrip y = y -> PyStr.rstrip (r +:+ y) = r +:+ y.
Proof.
  intros Hne Hy. induction r as [|c r IH]; [done|].
  rewrite app_cons. simpl. rewrite IH.
  destruct (r +:+ y) eqn:E; [|done].
  destruct r; [|done]. by destruct Hne.
Qed.

Lemma strip_fixed s :
  head_black s = true -> PyStr.rstrip s = s -> PyStr.strip s = s.
Proof. intros H1 H2. unfold PyStr.strip. by rewrite lstrip_head_black. Qed.

Lemma strip_between s y :
  head_black s = true -> y <> "" -> PyStr.rstrip y = y ->
  PyStr.strip (s +:+ y) = s +:+ y.
Proof.
  intros Hs Hne Hy. apply strip_fixed; [by apply head_black_app|by apply rstrip_app].
Qed.

Lemma has_char_app c a b :
  PyStr.has_char c (a +:+ b) = PyStr.has_char c a || PyStr.has_char c b.
Proof.
  induction a as [|x a IH]; [done|].
  rewrite app_cons. simpl. by rewrite IH, orb_assoc.
Qed.

Lemma split_nl_single s :
  PyStr.has_char PyStr.nl_char s = false -> PyStr.split_nl s = [s].
Proof.
  induction s as [|c s IH]; [done|]. simpl.
  intros [Hc Hs]%orb_false_iff. rewrite Hc, (IH Hs). done.
Qed.

Lemma split_nl_app a b :
  PyStr.has_char PyStr.nl_char a = false ->
  PyStr.split_nl (a +:+ PyStr.nl +:+ b) = a :: PyStr.split_nl b.
Proof.
  induction a as [|c a IH]; [done|].
  rewrite app_cons. simpl.
  intros [Hc Hs]%orb_false_iff. rewrite Hc, (IH Hs). done.
Qed.

Lemma startswith_app p r : PyStr.startswith (p +:+ r) p = true.
Proof.
  induction p as [|a p IH]; [by destruct r|].
  rewrite app_cons. simpl. by rewrite Ascii.eqb_refl.
Qed.

Lemma drop_app p r : PyStr.drop (String.length p) (p +:+ r) = r.
Proof. induction p as [|a p IH]; [done|]. rewrite app_cons. exact IH. Qed.

Lemma strip_after_space x :
  PyStr.strip x = x -> PyStr.strip (" " +:+ x) = x.
Proof. done. Qed.

(** ** The parser on an answer in the requested format *)

Lemma formatted_answer_lines S T X Y :
  head_black T = true -> PyStr.has_char PyStr.nl_char T = false ->
  head_black S = true -> PyStr.has_char PyStr.nl_char S = false ->
  one_line X -> one_line Y ->
  PyStr.strip (formatted_answer S T X Y) = formatted_answer S T X Y
  /\ stripped_lines (formatted_answer S T X Y)
     = [ (T +:+ " Translation:") +:+ " " +:+ X;
         (S +:+ " Rephrased:") +:+ " " +:+ Y ].
Proof.
  intros HT HTn HS HSn (HX & HXr & HXn) (HY & HYr & HYn).
  pose proof (head_black_ne _ HX) as HXne.
  pose proof (head_black_ne _ HY) as HYne.
  assert (PyStr.strip (formatted_answer S T X Y) = formatted_answer S T X Y) as Hstrip.
  { unfold formatted_answer. apply strip_fixed; [by apply head_black_app|].
    rewrite <- !app_assoc_s. by apply rstrip_app. }
  split; [done|].
  unfold stripped_lines. rewrite Hstrip. unfold formatted_answer.
  replace (T +:+ " Translation: " +:+ X +:+ PyStr.nl +:+ S +:+ " Rephrased: " +:+ Y)
    with ((T +:+ " Translation: " +:+ X) +:+ PyStr.nl +:+ (S +:+ " Rephrased: " +:+ Y))
    by (by rewrite !app_assoc_s).
  rewrite split_nl_app.
  2:{ rewrite !has_char_app, HTn, HXn. done. }
  rewrite split_nl_single.
  2:{ rewrite !has_char_app, HSn, HYn. done. }
  cbn [map].
  assert (PyStr.strip (T +:+ " Translation: " +:+ X) = T +:+ " Translation: " +:+ X)
    as ->.
  { apply strip_fixed; [by apply head_black_app|].
    rewrite <- !app_assoc_s. by apply rstrip_app. }
  assert (PyStr.strip (S +:+ " Rephrased: " +:+ Y) = S +:+ " Rephrased: " +:+ Y)
    as ->.
  { apply strip_fixed; [by apply head_black_app|].
    rewrite <- !app_assoc_s. by apply rstrip_app. }
  cbn [List.filter].
  assert (forall s r, head_black s = true -> PyStr.truthy (s +:+ r) = true) as Htr
    by (by intros [|? ?] ?).
  rewrite !Htr by done.
  by rewrite !app_assoc_s.
Qed.

Lemma formatted_answer_parsed source_language target_language translation rephrasing :
  head_black target_language = true ->
  PyStr.has_char PyStr.nl_char target_language = false ->
  head_black source_language = true ->
  PyStr.has_char PyStr.nl_char source_language = false ->
  one_line translation -> one_line rephrasing ->
  parse_llm_response
    (formatted_answer source_language target_language translation rephrasing)
    source_language target_language
  = (translation, rephrasing).
Proof.
  intros HT HTn HS HSn HX HY.
  destruct (formatted_answer_lines source_language target_language
              translation rephrasing HT HTn HS HSn HX HY) as [_ HL].
  destruct HX as (HX & HXr & _), HY as (HY & HYr & _).
  rewrite (parse_two_sections _ source_language target_language [] _ [] _ [] HL).
  - rewrite !drop_app.
    rewrite !strip_after_space by (by apply strip_fixed).
    simpl. by rewrite !strip_fixed.
  - constructor.
  - apply startswith_app.
  - constructor.
  - apply startswith_app.
Qed.

(** X18.  Round trip of the requested format.  When the target and source
    language names start with a visible character and the translation and
    the rephrasing are each one line without whitespace at either end, the
    answer "<target> Translation: <translation>" / "<source> Rephrased:
    <rephrasing>" is parsed back into exactly that translation and that
    rephrasing. *)
Theorem parse_formatted_answer source_language target_language translation rephrasing :
  head_black target_language = true ->
  PyStr.has_char PyStr.nl_char target_language = false ->
  head_black source_language = true ->
  PyStr.has_char PyStr.nl_char source_language = false ->
  one_line translation -> one_line rephrasing ->
  parse_llm_response
    (formatted_answer source_language target_language translation rephrasing)
    source_language target_language
  = (translation, rephrasing).
Proof.
  intros HT HTn HS HSn HX HY. by apply formatted_answer_parsed.
Qed.


(** ** Translate with a free-text provider, end to end *)

Lemma ask_ai_OpenAI_run prompt w :
  api_provider_var (env w) = Some "OpenAI" ->
  openai_client (env w) = true ->
  ask_ai (Some prompt) None None None w =
  (match chat_completions_create (Some prompt) with
   | Returned (Some content) => PStr (PyStr.strip content)
   | Returned None =>
       PStr (ask_ai_except "OpenAI"
               (mk_exn OtherException "AttributeError"
                  "'NoneType' object has no attribute 'strip'"))
   | Raised e => PStr (ask_ai_except "OpenAI" e)
   end,
   with_net_log (net_log w ++ [OpenAI_chat_create prompt]) w).
Proof.
  intros Hp Hc. unfold ask_ai, mbind, M_bind, get_world.
  rewrite Hp, Hc. simpl.
  by destruct (chat_completions_create (Some prompt)) as [[c|]|e].
Qed.

(** With a free-text provider selected, Translate is: record the direction,
    ask the provider, hand the answer to [update_result]. *)
Lemma run_translate_rephrase_LLM box_text w :
  default "DeepL" (api_provider_var (env w)) <> "DeepL" ->
  PyStr.strip box_text <> "" ->
  let text := PyStr.strip box_text in
  let src := default "English" (source_language_var (env w)) in
  let tgt := default "Turkish" (target_language_var (env w)) in
  let w0 := (set_last_history_target_language tgt
               (set_last_history_source_language src w).2).2 in
  let asked := ask_ai (Some (full_prompt (env w) text src tgt)) None None None w0 in
  run_translate_rephrase box_text w = update_result text asked.1 false false asked.2.
Proof.
  intros Hp Hbox. unfold run_translate_rephrase.
  rewrite (truthy_ne _ Hbox). simpl.
  unfold mbind at 1, M_bind at 1, get_world at 1.
  rewrite bool_decide_eq_false_2 by done.
  unfold mbind, M_bind. simpl.
  by destruct (ask_ai _ _ _ _ _).
Qed.

(** X19.  Translate with OpenAI, when the model answers in the requested
    format with a one-line translation and a one-line rephrasing: one
    request carrying the prompt is sent; the translation and the rephrasing
    are shown and stored in one history entry under the direction
    "source -> target"; the translation becomes the last translation, and the
    stripped input becomes the active source text unless the translation
    starts with "[". *)
Theorem translate_with_OpenAI box_text translation rephrasing w :
  api_provider_var (env w) = Some "OpenAI" ->
  openai_client (env w) = true ->
  PyStr.strip box_text <> "" ->
  let text := PyStr.strip box_text in
  let src := default "English" (source_language_var (env w)) in
  let tgt := default "Turkish" (target_language_var (env w)) in
  let prompt_ := full_prompt (env w) text src tgt in
  head_black tgt = true -> PyStr.has_char PyStr.nl_char tgt = false ->
  head_black src = true -> PyStr.has_char PyStr.nl_char src = false ->
  one_line translation -> one_line rephrasing ->
  PyStr.startswith (formatted_answer src tgt translation rephrasing) ERROR_PREFIX
  = false ->
  chat_completions_create (Some prompt_)
  = Returned (Some (formatted_answer src tgt translation rephrasing)) ->
  let w' := (run_translate_rephrase box_text w).2 in
  net_log w' = net_log w ++ [OpenAI_chat_create prompt_]
  /\ ui_log w' = ui_log w ++
       [set_textboxes text translation rephrasing; update_button_states false]
  /\ last_translation w' = translation
  /\ last_selected_text w'
     = (if PyStr.startswith translation "[" then last_selected_text w else text)
  /\ length (history_data w') = S (length (history_data w))
  /\ exists entry,
       entry ∈ history_data w'
       /\ e_original entry = text /\ e_translated entry = translation
       /\ e_rephrased entry = rephrasing /\ e_provider entry = "OpenAI"
       /\ e_target_language entry = src +:+ " -> " +:+ tgt.
Proof.
  intros Hp Hc Hbox text src tgt prompt_ HT HTn HS HSn HX HY Herr Hchat w'.
  subst w'.
  rewrite run_translate_rephrase_LLM by (by rewrite ?Hp). fold text src tgt prompt_.
  rewrite ask_ai_OpenAI_run by done. rewrite Hchat. cbn [fst snd].
  destruct (formatted_answer_lines src tgt translation rephrasing
              HT HTn HS HSn HX HY) as [Hstrip _].
  rewrite Hstrip.
  rewrite update_result_llm; [|simpl; by rewrite Hp|done].
  cbn [last_history_source_language last_history_target_language with_net_log
       set_last_history_source_language set_last_history_target_language snd].
  rewrite (formatted_answer_parsed src tgt translation rephrasing) by done.
  simpl. rewrite Hp. simpl.
  destruct HX as (HX & _).
  rewrite (truthy_ne _ (head_black_ne _ HX)). cbn [andb].
  split_and!; [done|done|done|by destruct (PyStr.startswith translation "[")
              |apply appended_length|].
  eexists. split_and!; [apply appended_in_sorted|done..].
Qed.


(** ** The API keys *)

Lemma accept_key_Some text placeholder k :
  accept_key text placeholder = Some k ->
  k = PyStr.strip text /\ k <> "" /\ PyStr.contains k placeholder = false.
Proof.
  unfold accept_key.
  destruct (PyStr.truthy (PyStr.strip text)) eqn:Et; [|done].
  destruct (PyStr.contains (PyStr.strip text) placeholder) eqn:Ec; [done|].
  intros [= <-]. split_and!; [done| |done]. by destruct (PyStr.strip text).
Qed.

Lemma count_key_le k : count_key k <= 1.
Proof. destruct k; simpl; lia. Qed.

(** X20.  [load_api_keys] on a config file with an [api_keys] element
    returns, leaves the file as it is, and counts exactly the keys it
    accepts; an accepted key is the stripped text of its element, is not
    empty and does not contain the placeholder text.  Without a file it
    returns no key and the default file is written, and the default file in
    turn yields no key.  With a file that does not parse or has no
    [api_keys] element the call does not return. *)
Theorem load_api_keys_accepts file :
  (forall children,
     file = config_root (Some children) ->
     exists keys,
       load_api_keys file
       = returns (keys, count_key (key_openai keys) + count_key (key_deepseek keys)
                        + count_key (key_deepl keys), file)
       /\ (forall k, key_openai keys = Some k ->
             k = PyStr.strip (field_text children "openai") /\ k <> ""
             /\ PyStr.contains k "YOUR_OPENAI_KEY_HERE" = false)
       /\ (forall k, key_deepseek keys = Some k ->
             k = PyStr.strip (field_text children "deepseek") /\ k <> ""
             /\ PyStr.contains k "YOUR_DEEPSEEK_KEY_HERE" = false)
       /\ (forall k, key_deepl keys = Some k ->
             k = PyStr.strip (field_text children "deepl") /\ k <> ""
             /\ PyStr.contains k "YOUR_DEEPL_KEY_HERE" = false))
  /\ (file = config_missing ->
      load_api_keys file = returns (mk_keys None None None, 0, default_config))
  /\ load_api_keys default_config = returns (mk_keys None None None, 0, default_config)
  /\ (load_api_keys file = blocks <->
      file = config_root None \/ exists msg, file = config_parse_error msg).
Proof.
  split_and!.
  - intros children ->.
    exists (mk_keys (accept_key (field_text children "openai") "YOUR_OPENAI_KEY_HERE")
              (accept_key (field_text children "deepseek") "YOUR_DEEPSEEK_KEY_HERE")
              (accept_key (field_text children "deepl") "YOUR_DEEPL_KEY_HERE")).
    split; [reflexivity|]. simpl.
    split_and!; intros k Hk; by apply accept_key_Some in Hk.
  - by intros ->.
  - done.
  - destruct file as [|msg|[children|]]; simpl; split; try done.
    + intros [?|[? ?]]; done.
    + intros _. right. by eexists.
    + intros [?|[? ?]]; done.
    + intros _. by left.
Qed.

Lemma accept_key_or_placeholder key placeholder long_placeholder :
  PyStr.contains (PyStr.strip long_placeholder) placeholder = true ->
  accept_key (key_or_placeholder key long_placeholder) placeholder
  = accept_key key placeholder.
Proof.
  intros Hc. unfold key_or_placeholder.
  destruct (PyStr.truthy key && PyStr.truthy (PyStr.strip key)) eqn:E; [done|].
  unfold accept_key. rewrite Hc, andb_false_r.
  destruct (PyStr.truthy (PyStr.strip key)) eqn:Es; [|done].
  destruct key; [done|]. simpl in E. congruence.
Qed.

(** X21.  Saving the keys and loading them again returns each key stripped,
    and no key where the saved field was blank or held the placeholder: the
    placeholders [save_api_keys_to_xml] writes for blank fields, the longer
    one for DeepL included, are all recognised by [load_api_keys].  The
    texts written are taken to be plain printable text. *)
Theorem save_then_load_api_keys openai_key deepseek_key deepl_key :
  xml_plain (key_or_placeholder openai_key "YOUR_OPENAI_KEY_HERE") = true ->
  xml_plain (key_or_placeholder deepseek_key "YOUR_DEEPSEEK_KEY_HERE") = true ->
  xml_plain (key_or_placeholder deepl_key "YOUR_DEEPL_KEY_HERE_OR_FREE_KEY:fx") = true ->
  let keys :=
    mk_keys (accept_key openai_key "YOUR_OPENAI_KEY_HERE")
      (accept_key deepseek_key "YOUR_DEEPSEEK_KEY_HERE")
      (accept_key deepl_key "YOUR_DEEPL_KEY_HERE") in
  load_api_keys (save_api_keys_to_xml openai_key deepseek_key deepl_key)
  = returns (keys,
             count_key (key_openai keys) + count_key (key_deepseek keys)
             + count_key (key_deepl keys),
             save_api_keys_to_xml openai_key deepseek_key deepl_key)
  /\ (all_space openai_key = true -> key_openai keys = None)
  /\ (all_space deepseek_key = true -> key_deepseek keys = None)
  /\ (all_space deepl_key = true -> key_deepl keys = None).
Proof.
  intros _ _ _ keys. split_and!.
  - unfold load_api_keys, save_api_keys_to_xml. subst keys.
    cbn [field_text List.find fst snd bool_decide decide_rel].
    change (field_text _ "openai") with (key_or_placeholder openai_key "YOUR_OPENAI_KEY_HERE").
    change (field_text _ "deepseek")
      with (key_or_placeholder deepseek_key "YOUR_DEEPSEEK_KEY_HERE").
    change (field_text _ "deepl")
      with (key_or_placeholder deepl_key "YOUR_DEEPL_KEY_HERE_OR_FREE_KEY:fx").
    by rewrite !accept_key_or_placeholder.
  - intros H. simpl. unfold accept_key. by rewrite strip_all_space.
  - intros H. simpl. unfold accept_key. by rewrite strip_all_space.
  - intros H. simpl. unfold accept_key. by rewrite strip_all_space.
Qed.

(** ** The selection after a reload *)

Lemma languages_of_English_Turkish provider :
  languages_of provider <> ∅ ->
  is_Some (languages_of provider !! "English")
  /\ is_Some (languages_of provider !! "Turkish").
Proof.
  unfold languages_of, supported_languages.
  destruct (decide (provider = "DeepL")) as [->|H1]; [by split; eexists|].
  destruct (decide (provider = "OpenAI")) as [->|H2]; [by split; eexists|].
  destruct (decide (provider = "DeepSeek")) as [->|H3]; [by split; eexists|].
  intros Hne. destruct Hne. simpl.
  rewrite lookup_insert_ne by done.
  rewrite lookup_insert_ne by done.
  rewrite lookup_insert_ne by done. done.
Qed.

(** X22.  After [update_gui_after_reload] (with the Tk variables in
    place) the selection is consistent: the selected provider is one of the
    available providers or "No APIs Configured"; a provider that was
    selected and is still available stays selected; the selected source and
    target languages are both in the language table of the selected
    provider, or both empty when that provider has no table. *)
Theorem update_gui_after_reload_consistent e current source target :
  api_provider_var e = Some current ->
  source_language_var e = Some source ->
  target_language_var e = Some target ->
  let e' := update_gui_after_reload e in
  exists provider source' target',
    api_provider_var e' = Some provider
    /\ source_language_var e' = Some source'
    /\ target_language_var e' = Some target'
    /\ (provider ∈ available_providers e \/ provider = NO_APIS)
    /\ (current ∈ available_providers e -> provider = current)
    /\ (available_providers e = [] <-> provider = NO_APIS)
    /\ ((is_Some (languages_of provider !! source')
         /\ is_Some (languages_of provider !! target'))
        \/ (languages_of provider = ∅ /\ source' = "" /\ target' = ""))
    /\ (is_Some (languages_of provider !! source) -> source' = source)
    /\ (is_Some (languages_of provider !! target) -> target' = target).
Proof.
  intros Hc Hs Ht e'. subst e'. unfold update_gui_after_reload.
  rewrite Hc, Hs, Ht.
  set (provider :=
         if bool_decide (default_provider e = NO_APIS) then NO_APIS
         else if bool_decide (current ∈ available_providers e) then current
              else default_provider e).
  assert (available_providers e = [] <-> default_provider e = NO_APIS) as Hnone.
  { unfold default_provider, available_providers.
    destruct (deepl_translator e), (option_truthy (DEEPSEEK_API_KEY e)),
      (openai_client e); simpl; split; try done. }
  assert (default_provider e ∈ available_providers e \/ default_provider e = NO_APIS)
    as Hdef.
  { unfold default_provider, available_providers.
    destruct (deepl_translator e), (option_truthy (DEEPSEEK_API_KEY e)),
      (openai_client e); simpl; try (by right); left;
      repeat first [ by constructor | constructor ]. }
  assert (NO_APIS ∉ available_providers e) as Hno.
  { unfold available_providers.
    destruct (deepl_translator e), (option_truthy (DEEPSEEK_API_KEY e)),
      (openai_client e); simpl; intros H;
      repeat (apply elem_of_cons in H as [H|H]; [done|]);
      by apply elem_of_nil in H. }
  assert ((provider ∈ available_providers e \/ provider = NO_APIS)
          /\ (current ∈ available_providers e -> provider = current)
          /\ (available_providers e = [] <-> provider = NO_APIS)) as (Hp1 & Hp2 & Hp3).
  { subst provider.
    destruct (bool_decide (default_provider e = NO_APIS)) eqn:E1.
    - apply bool_decide_eq_true in E1. split_and!; [by right| |split; [done|intros _; by apply Hnone]].
      intros Hin. apply Hnone in E1. rewrite E1 in Hin. by apply elem_of_nil in Hin.
    - apply bool_decide_eq_false in E1.
      destruct (bool_decide (current ∈ available_providers e)) eqn:E2.
      + apply bool_decide_eq_true in E2. split_and!; [by left|done|].
        split; [intros H; by apply Hnone in H|intros ->; done].
      + apply bool_decide_eq_false in E2. split_and!; [by destruct Hdef; [left|] |done|].
        split; [intros H; by apply Hnone in H|done]. }
  destruct (bool_decide (languages_of provider = ∅)) eqn:El.
  - apply bool_decide_eq_true in El.
    exists provider, "", "". simpl. split_and!; try done.
    + by right.
    + rewrite El, lookup_empty. by intros [? ?].
    + rewrite El, lookup_empty. by intros [? ?].
  - apply bool_decide_eq_false in El.
    destruct (languages_of_English_Turkish provider El) as [HE HT].
    eexists provider, _, _. simpl. split_and!; try done.
    + left. split.
      * destruct (bool_decide (is_Some (languages_of provider !! source))) eqn:E;
          [by apply bool_decide_eq_true in E|done].
      * destruct (bool_decide (is_Some (languages_of provider !! target))) eqn:E;
          [by apply bool_decide_eq_true in E|done].
    + intros H. by rewrite bool_decide_eq_true_2.
    + intros H. by rewrite bool_decide_eq_true_2.
Qed.

(** ** Language codes *)

Lemma DeepL_codes lang code :
  supported_languages_DeepL !! lang = Some code ->
  code ∈ ["TR"; "DE"; "FR"; "ES"; "IT"; "PT-PT"; "NL"; "PL"; "RU"; "JA"; "ZH";
          "EN-GB"; "EN-US"].
Proof.
  intros H. unfold supported_languages_DeepL in H.
  apply elem_of_list_to_map_2 in H.
  repeat (apply elem_of_cons in H as [H|H];
          [injection H as -> ->; repeat first [ by constructor | constructor ]|]).
  by apply elem_of_nil in H.
Qed.

(** X24.  For every text handed in, a display name of the table or not,
    [get_deepl_source_code] never returns one of the regional codes "EN-GB",
    "EN-US" and "PT-PT"; and it gives the same code for a display name and
    for the target code of that name, so a code can be handed in where a
    name is expected. *)
Theorem source_code_never_regional lang :
  (get_deepl_source_code lang ∉ ["EN-GB"; "EN-US"; "PT-PT"])
  /\ get_deepl_source_code (get_deepl_target_code lang) = get_deepl_source_code lang.
Proof.
  split.
  - unfold get_deepl_source_code.
    set (code := dict_get supported_languages_DeepL lang lang).
    intros H.
    destruct (bool_decide (code = "EN-GB")) eqn:E1;
      [|destruct (bool_decide (code = "EN-US")) eqn:E2;
        [|destruct (bool_decide (code = "PT-PT")) eqn:E3]];
      cbn [orb] in H;
      try apply bool_decide_eq_false in E1;
      try apply bool_decide_eq_false in E2;
      try apply bool_decide_eq_false in E3;
      repeat (apply elem_of_cons in H as [H|H]; [done|]);
      by apply elem_of_nil in H.
  - unfold get_deepl_target_code, get_deepl_source_code, dict_get.
    destruct (supported_languages_DeepL !! lang) as [code|] eqn:E; simpl.
    + apply DeepL_codes in E.
      repeat (apply elem_of_cons in E as [->|E]; [by vm_compute|]).
      by apply elem_of_nil in E.
    + by rewrite E.
Qed.


(** ** Rephrase Again with a free-text provider *)

Lemma update_result_rephrase text s w :
  default "N/A" (api_provider_var (env w)) <> "DeepSeek" ->
  PyStr.startswith s ERROR_PREFIX = false ->
  let entry :=
    mk_entry (clock (env w)) text (last_translation w) s
      (default "N/A" (api_provider_var (env w)))
      (last_history_source_language w +:+ " -> " +:+ last_history_target_language w) in
  let h := sorted_history (history_data w ++ [entry]) in
  update_result text (PStr s) true false w =
  (tt, mk_world (env w) (last_selected_text w) (last_translation w)
         (last_history_source_language w) (last_history_target_language w)
         h (Some h) (net_log w)
         (ui_log w ++ [set_textboxes text (last_translation w) s;
                       update_button_states false])).
Proof.
  intros Hp He. unfold update_result, mbind, M_bind, get_world.
  cbn [is_error]. rewrite He.
  rewrite bool_decide_eq_false_2 by done. simpl.
  rewrite sort_history_data_eq; simpl; unfold ui; simpl.
  by rewrite <- app_assoc.
Qed.

Lemma rephrase_again_OpenAI_run (finished : list string) answer w :
  api_provider_var (env w) = Some "OpenAI" ->
  openai_client (env w) = true ->
  last_selected_text w <> "" ->
  let source := default "English" (source_language_var (env w)) in
  let prompt_ :=
    rephrase_prompt (env w) (last_selected_text w)
      (dict_get supported_languages_LLM source source) in
  chat_completions_create (Some prompt_) = Returned (Some answer) ->
  PyStr.startswith (PyStr.strip answer) ERROR_PREFIX = false ->
  let entry :=
    mk_entry (clock (env w)) (last_selected_text w) (last_translation w)
      (PyStr.strip answer) "OpenAI"
      (last_history_source_language w +:+ " -> " +:+ last_history_target_language w) in
  let h := sorted_history (history_data w ++ [entry]) in
  rephrase_again finished w =
  (tt, mk_world (env w) (last_selected_text w) (last_translation w)
         (last_history_source_language w) (last_history_target_language w)
         h (Some h) (net_log w ++ [OpenAI_chat_create prompt_])
         (ui_log w ++ [set_textboxes (last_selected_text w) (last_translation w)
                         (PyStr.strip answer);
                       update_button_states false])).
Proof.
  intros Hp Hc Ht source prompt_ Hchat Herr entry h.
  unfold rephrase_again, mbind at 1, M_bind at 1, get_world at 1.
  rewrite Hp. cbn [default]. rewrite (truthy_ne _ Ht). cbn [negb].
  rewrite bool_decide_eq_false_2 by done.
  change (default ∅ (supported_languages !! id "OpenAI")) with supported_languages_LLM.
  fold source. fold prompt_.
  unfold mbind, M_bind. rewrite ask_ai_OpenAI_run by done. rewrite Hchat.
  cbn [fst snd get_world with_net_log last_selected_text].
  rewrite update_result_rephrase; [|simpl; by rewrite Hp|done].
  simpl. by rewrite Hp.
Qed.

(** X23.  Rephrase Again with OpenAI selected and an active source text,
    when the model answers: one request carrying the rephrase prompt for the
    active source text is sent; the stripped answer is shown as the
    rephrasing beside the unchanged source text and last translation, and is
    stored in one new history entry that repeats the last translation and
    the direction of the last action; the active source text and the last
    translation stay as they were. *)
Theorem rephrase_again_with_OpenAI (finished : list string) answer w :
  api_provider_var (env w) = Some "OpenAI" ->
  openai_client (env w) = true ->
  last_selected_text w <> "" ->
  let source := default "English" (source_language_var (env w)) in
  let prompt_ :=
    rephrase_prompt (env w) (last_selected_text w)
      (dict_get supported_languages_LLM source source) in
  chat_completions_create (Some prompt_) = Returned (Some answer) ->
  PyStr.startswith (PyStr.strip answer) ERROR_PREFIX = false ->
  let w' := (rephrase_again finished w).2 in
  net_log w' = net_log w ++ [OpenAI_chat_create prompt_]
  /\ ui_log w' = ui_log w ++
       [set_textboxes (last_selected_text w) (last_translation w) (PyStr.strip answer);
        update_button_states false]
  /\ last_selected_text w' = last_selected_text w
  /\ last_translation w' = last_translation w
  /\ HISTORY_FILE w' = Some (history_data w')
  /\ length (history_data w') = S (length (history_data w))
  /\ exists entry,
       entry ∈ history_data w'
       /\ e_original entry = last_selected_text w
       /\ e_translated entry = last_translation w
       /\ e_rephrased entry = PyStr.strip answer
       /\ e_provider entry = "OpenAI"
       /\ e_target_language entry
          = last_history_source_language w +:+ " -> " +:+ last_history_target_language w.
Proof.
  intros Hp Hc Ht source prompt_ Hchat Herr w'. subst w'.
  rewrite (rephrase_again_OpenAI_run finished answer w Hp Hc Ht Hchat Herr).
  simpl.
  split_and!; [done|done|done|done|done|apply appended_length|].
  eexists. split_and!; [apply appended_in_sorted|done..].
Qed.

End Engine.

(* ===================================================================== *)
(** * The statements at work *)
(* ===================================================================== *)

(** Five workers: two succeed with different texts, one repeats the first
    text, one fails and one returns blanks.  Three candidates are listed. *)
Lemma fanout_candidates_numbered_witness :
  let results :=
    [ PStr "Good day";
      PStr "__ERROR__::DeepL API Error via RU: Quota exceeded";
      PStr " Nice morning ";
      PStr "Good day";
      PStr "   " ] in
  map candidate_text (List.filter is_candidate results) <> []
  /\ valid_rephrases results = ["Good day"; "Nice morning"; "Good day"]
  /\ format_rephrases (valid_rephrases results)
     = "1. Good day" +:+ PyStr.nl +:+ "2. Nice morning" +:+ PyStr.nl +:+ "3. Good day".
Proof.
  intros results.
  destruct (fanout_candidates_numbered Timestamp.strptime_padded "DeepL" results
              (Sample.after_translate "DeepL")) as (Hc & _ & H).
  assert (map candidate_text (List.filter is_candidate results) <> []) as Hne
    by discriminate.
  split; [exact Hne|]. split; [rewrite Hc; reflexivity|].
  destruct (H Hne) as (Hout & _). rewrite Hout. reflexivity.
Defined.

Lemma fanout_no_candidate_witness :
  let results :=
    [ PStr "__ERROR__::DeepL API Error via TR: Quota exceeded";
      PStr "__ERROR__::ValueError via FR: Intermediate (FR) empty";
      PStr "  " ] in
  let w := Sample.after_translate "DeepL" in
  Forall (fun res => is_candidate res = false) results
  /\ ui_log (process_deepl_results Timestamp.strptime_padded "DeepL" results w).2
     = [set_rephrased_textbox
          "[No valid rephrased alternatives found using multi-language translation.]";
        update_button_states false]
  /\ length (history_data
               (process_deepl_results Timestamp.strptime_padded "DeepL" results w).2)
     = 2%nat.
Proof.
  intros results w.
  assert (Forall (fun res => is_candidate res = false) results) as Hnone
    by (repeat constructor).
  split; [exact Hnone|].
  destruct (fanout_no_candidate Timestamp.strptime_padded "DeepL" results w Hnone)
    as (Hui & _ & _ & Hlen & _).
  split; [exact Hui|exact Hlen].
Defined.

Lemma two_hop_step2_codes_witness :
  let w := Sample.after_translate "DeepL" in
  net_log (run_translate_rephrase Timestamp.strptime_padded Sample.re_sub
             Sample.dict_str Sample.translator Sample.chat Sample.post
             "  Good morning " w).2
  = [ DeepL_translate_text "Good morning" "EN" "TR";
      DeepL_translate_text "Gunaydin" "TR" "EN-GB" ].
Proof.
  intros w.
  assert (PyStr.strip "  Good morning " <> "") as Hbox by discriminate.
  assert ("Gunaydin" <> "") as Hne by discriminate.
  exact (proj1 (two_hop_step2_codes Timestamp.strptime_padded Sample.re_sub
                  Sample.dict_str Sample.translator Sample.chat Sample.post
                  "  Good morning " "English" "Turkish" "Gunaydin" w
                  eq_refl eq_refl eq_refl eq_refl Hbox eq_refl Hne)).
Defined.

Lemma two_hop_degrades_witness :
  (let w := Sample.after_translate "DeepL" in
   let w' := (run_translate_rephrase Timestamp.strptime_padded Sample.re_sub
                Sample.dict_str Sample.one_way_translator Sample.chat Sample.post
                "Good morning" w).2 in
   last_translation w' = "Gunaydin"
   /\ ui_log w' = [set_textboxes "Good morning" "Gunaydin"
                     "[Rephrasing Error: DeepLException]";
                   update_button_states false])
  /\ (let w := Sample.to_german in
      let w' := (run_translate_rephrase Timestamp.strptime_padded Sample.re_sub
                   Sample.dict_str Sample.translator Sample.chat Sample.post
                   "Good morning" w).2 in
      ui_log w' = [set_textboxes "Good morning" "[Translation Failed or Empty]"
                     "[Rephrasing skipped]";
                   update_button_states false]
      /\ length (history_data w') = 2%nat).
Proof.
  assert (PyStr.strip "Good morning" <> "") as Hbox by discriminate.
  assert ("Gunaydin" <> "") as Hne by discriminate.
  split.
  - intros w w'.
    destruct (two_hop_degrades Timestamp.strptime_padded Sample.re_sub
                Sample.dict_str Sample.one_way_translator Sample.chat Sample.post
                "Good morning" w eq_refl eq_refl Hbox) as [_ H].
    destruct (H "Gunaydin" "[Rephrasing Error: DeepLException]"
                eq_refl Hne eq_refl) as (Hui & Hlast & _).
    split; [exact Hlast|exact Hui].
  - intros w w'.
    destruct (two_hop_degrades Timestamp.strptime_padded Sample.re_sub
                Sample.dict_str Sample.translator Sample.chat Sample.post
                "Good morning" w eq_refl eq_refl Hbox) as [H _].
    destruct (H eq_refl) as (Hui & Hlen & _).
    split; [exact Hui|exact Hlen].
Defined.

Lemma rephrase_again_needs_source_text_witness :
  let w := Sample.fresh "DeepL" in
  let w' := (rephrase_again Timestamp.strptime_padded Sample.re_sub Sample.dict_str
               Sample.translator Sample.chat Sample.post
               ["TR"; "FR"; "RU"; "IT"; "ES"] w).2 in
  last_selected_text w = ""
  /\ net_log w' = [] /\ history_data w' = [] /\ HISTORY_FILE w' = None.
Proof.
  intros w w'.
  destruct (rephrase_again_needs_source_text Timestamp.strptime_padded Sample.re_sub
              Sample.dict_str Sample.translator Sample.chat Sample.post
              ["TR"; "FR"; "RU"; "IT"; "ES"] w eq_refl)
    as (_ & Hn & Hh & Hf & _).
  split; [reflexivity|]. split; [exact Hn|]. split; [exact Hh|exact Hf].
Defined.

Lemma back_translation_without_quotes_witness :
  let w := Sample.after_translate "OpenAI" in
  (back_translation Sample.translator Sample.chat Sample.post
     "OpenAI" "Merhaba dedi" "English" "Turkish" w).1 = PStr "He said hi".
Proof.
  intros w.
  assert ("OpenAI" <> "DeepL") as Hp by discriminate.
  destruct (back_translation_without_quotes Sample.translator Sample.chat Sample.post
              "OpenAI" "Merhaba dedi" "English" "Turkish" w Hp) as [H _].
  destruct (H _ eq_refl eq_refl) as [_ Hd]. rewrite Hd. reflexivity.
Defined.

Lemma update_result_history_and_source_text_witness :
  let w := Sample.after_translate "OpenAI" in
  (let w' := (update_result Timestamp.strptime_padded Sample.re_sub Sample.dict_str
                "Good evening" (PStr "__ERROR__::Network timeout connecting to OpenAI API.")
                false false w).2 in
   is_error (PStr "__ERROR__::Network timeout connecting to OpenAI API.") = true
   /\ history_data w' = history_data w
   /\ last_selected_text w' = "Good morning")
  /\ (let w' := (update_result Timestamp.strptime_padded Sample.re_sub Sample.dict_str
                   "Gunaydin" (PStr "Good day") false true w).2 in
      is_error (PStr "Good day") = false
      /\ length (history_data w') = 2%nat
      /\ last_selected_text w' = "Good morning"
      /\ last_translation w' = "Gunaydin").
Proof.
  intros w. split.
  - intros w'.
    destruct (update_result_history_and_source_text Timestamp.strptime_padded
                Sample.re_sub Sample.dict_str Sample.translator Sample.chat Sample.post
                "Good evening"
                (PStr "__ERROR__::Network timeout connecting to OpenAI API.")
                false false w) as (Herr & _).
    destruct (Herr eq_refl) as (Hh & _ & Hs).
    split; [reflexivity|]. split; [exact Hh|exact Hs].
  - intros w'.
    destruct (update_result_history_and_source_text Timestamp.strptime_padded
                Sample.re_sub Sample.dict_str Sample.translator Sample.chat Sample.post
                "Gunaydin" (PStr "Good day") false true w)
      as (_ & Hok & _ & Hkeep & _).
    destruct (Hok eq_refl) as (Hlen & _).
    destruct (Hkeep (or_introl eq_refl)) as (Hs & Ht).
    split; [reflexivity|]. split; [exact Hlen|]. split; [exact Hs|exact Ht].
Defined.

(** An answer with a greeting before the labels, an indented line and a
    blank line. *)
Lemma parse_llm_response_cases_witness :
  let text :=
    "Sure!" +:+ PyStr.nl +:+ "French Translation: Bonjour" +:+ PyStr.nl
    +:+ "   le monde  " +:+ PyStr.nl +:+ PyStr.nl
    +:+ "English Rephrased: Hello" +:+ PyStr.nl +:+ "world" in
  parse_llm_response text "English" "French"
  = ("Bonjour" +:+ PyStr.nl +:+ "le monde", "Hello" +:+ PyStr.nl +:+ "world").
Proof.
  intros text.
  destruct (parse_llm_response_cases text "English" "French") as (_ & _ & H).
  rewrite (H ["Sure!"] "French Translation: Bonjour" ["le monde"]
             "English Rephrased: Hello" ["world"]).
  - reflexivity.
  - reflexivity.
  - repeat constructor.
  - reflexivity.
  - repeat constructor.
  - reflexivity.
Defined.

(** C5, as stated, fails: a line is not appended verbatim.  The indented
    line of this answer reaches the translated field without its indent. *)
Lemma parse_not_verbatim :
  let text :=
    "French Translation: a" +:+ PyStr.nl +:+ "   b" +:+ PyStr.nl
    +:+ "English Rephrased: c" in
  parse_llm_response text "English" "French" = ("a" +:+ PyStr.nl +:+ "b", "c")
  /\ parse_verbatim text "English" "French" = ("a" +:+ PyStr.nl +:+ "   b", "c")
  /\ parse_llm_response text "English" "French"
     <> parse_verbatim text "English" "French".
Proof. split; [reflexivity|]. split; [reflexivity|]. discriminate. Qed.

Lemma merge_by_timestamp_witness :
  let w' := (prompt_and_load_history Timestamp.strptime_padded Sample.basename
               "old_history.xml" Sample.merge_example_file Sample.two_entries).2 in
  Forall (well_timed Timestamp.strptime_padded) (history_data w')
  /\ newest_first Timestamp.strptime_padded (history_data w')
  /\ history_data w'
     = [ Sample.imported "2025-02-10 12:00:00" "Good afternoon";
         Sample.entry_at "2025-02-01 09:00:00" "Good morning";
         Sample.entry_at "2025-01-15 08:00:00" "Good night" ].
Proof.
  intros w'.
  assert (history_data w'
          = [ Sample.imported "2025-02-10 12:00:00" "Good afternoon";
              Sample.entry_at "2025-02-01 09:00:00" "Good morning";
              Sample.entry_at "2025-01-15 08:00:00" "Good night" ]) as Hh
    by (vm_compute; reflexivity).
  assert (Forall (well_timed Timestamp.strptime_padded) (history_data w')) as Hwt.
  { rewrite Hh. repeat constructor; eexists; vm_compute; reflexivity. }
  split; [exact Hwt|]. split; [|exact Hh].
  destruct (merge_by_timestamp Timestamp.strptime_padded Sample.re_sub Sample.dict_str
              Sample.basename "old_history.xml" Sample.merge_example_file Sample.two_entries)
    as (_ & _ & Hs & _).
  apply Hs; [exact Hwt|]. left. discriminate.
Defined.

(** C7, as stated, fails: a file may bring a time that is no timestamp.
    The sort then gives up and the store is left in the order of arrival,
    here with an entry of 2024 before an entry of 2025. *)
Lemma merge_leaves_store_unsorted :
  let w' := (prompt_and_load_history Timestamp.strptime_padded Sample.basename
               "old_history.xml" Sample.malformed_file (Sample.fresh "DeepL")).2 in
  history_data w'
  = [ Sample.imported "2024-01-01 00:00:00" "First";
      Sample.imported "2025-01-01 00:00:00" "Second";
      Sample.imported "yesterday" "Third" ]
  /\ ~ newest_first Timestamp.strptime_padded (history_data w')
  /\ ~ not_older Timestamp.strptime_padded
         (Sample.imported "2024-01-01 00:00:00" "First")
         (Sample.imported "2025-01-01 00:00:00" "Second").
Proof.
  intros w'.
  assert (history_data w'
          = [ Sample.imported "2024-01-01 00:00:00" "First";
              Sample.imported "2025-01-01 00:00:00" "Second";
              Sample.imported "yesterday" "Third" ]) as Hh
    by (vm_compute; reflexivity).
  assert (~ not_older Timestamp.strptime_padded
            (Sample.imported "2024-01-01 00:00:00" "First")
            (Sample.imported "2025-01-01 00:00:00" "Second")) as Hno.
  { intros (ka & kb & Ha & Hb & Hle). vm_compute in Ha, Hb.
    injection Ha as <-. injection Hb as <-. lia. }
  split; [exact Hh|]. split; [|exact Hno].
  rewrite Hh. intros Hs. apply StronglySorted_inv in Hs as [_ Hall].
  apply Forall_cons_1 in Hall as [H _]. exact (Hno H).
Qed.

Lemma merge_keeps_existing_witness :
  let w := Sample.two_entries in
  let w' := (prompt_and_load_history Timestamp.strptime_padded Sample.basename
               "old_history.xml" Sample.merge_example_file w).2 in
  Sample.entry_at "2025-02-01 09:00:00" "Good morning" ∈ history_data w
  /\ Sample.entry_at "2025-02-01 09:00:00" "Good morning" ∈ history_data w'
  /\ Sample.imported "2025-02-01 09:00:00" "Another morning" ∉ history_data w'.
Proof.
  intros w w'.
  destruct (merge_keeps_existing Timestamp.strptime_padded Sample.basename
              "old_history.xml" Sample.merge_example_file w) as (Hkeep & Hold & _).
  assert (Sample.entry_at "2025-02-01 09:00:00" "Good morning" ∈ history_data w)
    as Hin by constructor.
  split; [exact Hin|]. split; [exact (Hkeep _ Hin)|].
  intros Hx. specialize (Hold _ _ Hx Hin eq_refl).
  apply list_elem_of_In in Hold. simpl in Hold.
  destruct Hold as [H|[H|[]]]; discriminate H.
Defined.



Lemma rephrase_again_without_translator_witness :
  let w := Sample.no_translator in
  let w' := (rephrase_again Timestamp.strptime_padded Sample.re_sub Sample.dict_str
               Sample.translator Sample.chat Sample.post
               ["TR"; "FR"; "RU"; "IT"; "ES"] w).2 in
  last_selected_text w <> "" /\ net_log w' = [] /\ history_data w' = history_data w.
Proof.
  intros w w'.
  assert (last_selected_text w <> "") as H by (intros E; discriminate E).
  split; [exact H|]. subst w'.
  rewrite (rephrase_again_without_translator Timestamp.strptime_padded
             Sample.re_sub Sample.dict_str Sample.translator Sample.chat Sample.post
             ["TR"; "FR"; "RU"; "IT"; "ES"] w H eq_refl eq_refl).
  split; reflexivity.
Defined.

Lemma blank_input_only_warns_witness :
  let w := Sample.after_translate "DeepL" in
  let box_text := "  " +:+ PyStr.nl in
  all_space box_text = true
  /\ net_log (run_translate_rephrase Timestamp.strptime_padded Sample.re_sub
                Sample.dict_str Sample.translator Sample.chat Sample.post
                box_text w).2 = []
  /\ history_data (translate_to_source Timestamp.strptime_padded Sample.re_sub
                     Sample.dict_str Sample.translator Sample.chat Sample.post
                     box_text w).2 = history_data w.
Proof.
  intros w box_text.
  destruct (blank_input_only_warns Timestamp.strptime_padded Sample.re_sub
              Sample.dict_str Sample.translator Sample.chat Sample.post
              box_text w eq_refl) as [H1 H2].
  split; [reflexivity|]. rewrite H1, H2. split; reflexivity.
Defined.

Lemma translate_first_hop_fails_witness :
  let w := Sample.to_russian in
  let w' := (run_translate_rephrase Timestamp.strptime_padded Sample.re_sub
               Sample.dict_str Sample.translator Sample.chat Sample.post
               " Good morning " w).2 in
  Sample.translator "Good morning" (Some "EN") "RU"
  = Raised (mk_exn DeepLException "QuotaExceededException" "Quota exceeded")
  /\ history_data w' = history_data w
  /\ last_history_target_language w' = "Russian".
Proof.
  intros w w'.
  assert (PyStr.strip " Good morning " <> "") as Hs by (intros E; discriminate E).
  destruct (translate_first_hop_fails Timestamp.strptime_padded Sample.re_sub
              Sample.dict_str Sample.translator Sample.chat Sample.post
              " Good morning "
              (mk_exn DeepLException "QuotaExceededException" "Quota exceeded")
              w eq_refl eq_refl Hs eq_refl) as (_ & _ & Hh & _ & _ & _ & _ & Ht).
  split; [reflexivity|]. split; [exact Hh|exact Ht].
Defined.

Lemma translate_sets_active_source_text_witness :
  let w := Sample.fresh "DeepL" in
  let w' := (run_translate_rephrase Timestamp.strptime_padded Sample.re_sub
               Sample.dict_str Sample.translator Sample.chat Sample.post
               " Good morning " w).2 in
  Sample.translator "Good morning" (Some "EN") "TR" = Returned "Gunaydin"
  /\ last_translation w' = "Gunaydin"
  /\ last_selected_text w' = "Good morning".
Proof.
  intros w w'.
  assert (PyStr.strip " Good morning " <> "") as Hs by (intros E; discriminate E).
  assert ("Gunaydin" <> "") as Ht by (intros E; discriminate E).
  destruct (translate_sets_active_source_text Timestamp.strptime_padded Sample.re_sub
              Sample.dict_str Sample.translator Sample.chat Sample.post
              " Good morning " "Gunaydin" w eq_refl eq_refl Hs eq_refl Ht)
    as (Hl & Hsel & _).
  split; [reflexivity|]. split; [exact Hl|exact Hsel].
Defined.

Lemma translate_answer_without_label_witness :
  let w := Sample.after_translate "OpenAI" in
  let w' := (update_result Timestamp.strptime_padded Sample.re_sub Sample.dict_str
               "Good evening" (PStr "Iyi aksamlar") false false w).2 in
  PyStr.startswith "Iyi aksamlar" ERROR_PREFIX = false
  /\ last_selected_text w' = "Good morning"
  /\ last_translation w' = TRANSLATION_NOT_FOUND
  /\ length (history_data w') = 2.
Proof.
  intros w w'.
  assert (default "N/A" (api_provider_var (env w)) <> "DeepL") as Hp
    by (intros E; discriminate E).
  assert (Forall (fun l => PyStr.startswith l
                             (last_history_target_language w +:+ " Translation:")
                           = false)
            (stripped_lines "Iyi aksamlar")) as HF
    by (repeat constructor).
  destruct (translate_answer_without_label Timestamp.strptime_padded Sample.re_sub
              Sample.dict_str "Good evening" "Iyi aksamlar" w Hp eq_refl HF)
    as (Hsel & Hl & _ & Hlen & _).
  split; [reflexivity|]. split; [exact Hsel|]. split; [exact Hl|exact Hlen].
Defined.

Lemma translate_back_DeepL_witness :
  let w := Sample.after_translate "DeepL" in
  let w' := (translate_to_source Timestamp.strptime_padded Sample.re_sub
               Sample.dict_str Sample.translator Sample.chat Sample.post
               "Gunaydin" w).2 in
  Sample.translator "Gunaydin" (Some "TR") "EN-GB" = Returned "Good day"
  /\ net_log w' = [DeepL_translate_text "Gunaydin" "TR" "EN-GB"]
  /\ ui_log w' = [set_textboxes "Good day" "Gunaydin" ""; update_button_states true]
  /\ last_selected_text w' = "Good morning".
Proof.
  intros w w'.
  assert (PyStr.strip "Gunaydin" <> "") as Hs by (intros E; discriminate E).
  assert (get_deepl_target_code "English" <> "") as Hc by (intros E; discriminate E).
  destruct (translate_back_DeepL Timestamp.strptime_padded Sample.re_sub
              Sample.dict_str Sample.translator Sample.chat Sample.post
              "Gunaydin" "Good day" w eq_refl eq_refl Hs Hc eq_refl eq_refl)
    as (Hn & Hu & _ & _ & Hsel & _).
  split; [reflexivity|]. split; [exact Hn|]. split; [exact Hu|exact Hsel].
Defined.

Lemma sort_history_data_sorts_witness :
  let w := Sample.two_entries in
  let w' := (sort_history_data Timestamp.strptime_padded w).2 in
  Forall (well_timed Timestamp.strptime_padded) (history_data w)
  /\ newest_first Timestamp.strptime_padded (history_data w').
Proof.
  intros w w'.
  assert (Forall (well_timed Timestamp.strptime_padded) (history_data w)) as Hwt
    by (repeat constructor; eexists; vm_compute; reflexivity).
  split; [exact Hwt|].
  destruct (sort_history_data_sorts Timestamp.strptime_padded w)
    as (_ & _ & _ & Hs & _).
  exact (proj1 (Hs Hwt)).
Defined.

Lemma load_history_from_path_result_witness :
  "old_history.xml" <> ""
  /\ (load_history_from_path Sample.basename "old_history.xml"
        Sample.merge_example_file).1.1 = true
  /\ (load_history_from_path Sample.basename "old_history.xml" xml_missing).2 = [].
Proof.
  assert ("old_history.xml" <> "") as Hp by (intros E; discriminate E).
  split; [exact Hp|]. split.
  - destruct (load_history_from_path_result Sample.basename "old_history.xml"
                Sample.merge_example_file) as (Hiff & _).
    apply Hiff. split; [exact Hp|]. eexists. reflexivity.
  - destruct (load_history_from_path_result Sample.basename "old_history.xml"
                xml_missing) as (_ & Hf & _).
    apply Hf. reflexivity.
Defined.

Lemma merge_rejects_bad_file_witness :
  let w := Sample.two_entries in
  let w' := (prompt_and_load_history Timestamp.strptime_padded Sample.basename
               "old_history.xml" (xml_root "config" []) w).2 in
  "old_history.xml" <> ""
  /\ history_data w' = history_data w
  /\ HISTORY_FILE w' = HISTORY_FILE w
  /\ ui_log w'
     = [showerror "Load History Error"
          ("Could not load history:" +:+ PyStr.nl +:+ PyStr.nl
           +:+ "Invalid root tag 'config' in file 'old_history.xml'. Expected 'history'.")].
Proof.
  intros w w'.
  assert ("old_history.xml" <> "") as Hp by (intros E; discriminate E).
  split; [exact Hp|]. subst w'.
  destruct (merge_rejects_bad_file Timestamp.strptime_padded Sample.basename
              "old_history.xml" (xml_root "config" []) w) as [_ H].
  rewrite (H Hp eq_refl). split; [reflexivity|]. split; reflexivity.
Defined.

Lemma load_history_from_xml_replaces_witness :
  let w' := (load_history_from_xml Timestamp.strptime_padded
               Sample.merge_example_file Sample.two_entries).2 in
  length (history_data w') = 2
  /\ Forall (fun x => e_time x <> "") (history_data w')
  /\ history_data (load_history_from_xml Timestamp.strptime_padded
                     xml_missing Sample.two_entries).2 = [].
Proof.
  intros w'. split_and!.
  - destruct (load_history_from_xml_replaces Timestamp.strptime_padded
                Sample.merge_example_file Sample.two_entries) as (H & _).
    destruct (H _ eq_refl) as (Hperm & _).
    exact (Permutation_length Hperm).
  - destruct (load_history_from_xml_replaces Timestamp.strptime_padded
                Sample.merge_example_file Sample.two_entries) as (H & _).
    destruct (H _ eq_refl) as (_ & Ht & _). exact Ht.
  - destruct (load_history_from_xml_replaces Timestamp.strptime_padded
                xml_missing Sample.two_entries) as (_ & H & _).
    apply H. intros children E. discriminate E.
Defined.

Lemma backup_and_clear_history_cases_witness :
  let w := Sample.two_entries in
  let done := backup_and_clear_history "20250301_100000" (Returned tt) w in
  let failed :=
    backup_and_clear_history "20250301_100000"
      (Raised (mk_exn OtherException "PermissionError" "Access is denied")) w in
  HISTORY_FILE w = Some (history_data w)
  /\ done.1 = Some ("translation_history_20250301_100000.xml", history_data w)
  /\ HISTORY_FILE done.2 = Some []
  /\ history_data failed.2 = history_data w
  /\ HISTORY_FILE failed.2 = HISTORY_FILE w.
Proof.
  intros w done failed.
  split; [reflexivity|].
  destruct (backup_and_clear_history_cases "20250301_100000" (Returned tt) w)
    as (H & _).
  destruct (H _ tt eq_refl eq_refl) as (Hr & _ & Hf).
  destruct (backup_and_clear_history_cases "20250301_100000"
              (Raised (mk_exn OtherException "PermissionError" "Access is denied")) w)
    as (_ & H' & _).
  destruct (H' _ _ eq_refl eq_refl) as (_ & Hh & Hf' & _).
  split; [exact Hr|]. split; [exact Hf|]. split; [exact Hh|exact Hf'].
Defined.

Lemma parse_formatted_answer_witness :
  one_line "Gunaydin" /\ one_line "Good morning to you"
  /\ parse_llm_response
       ("Turkish Translation: Gunaydin" +:+ PyStr.nl
        +:+ "English Rephrased: Good morning to you")
       "English" "Turkish"
     = ("Gunaydin", "Good morning to you").
Proof.
  assert (one_line "Gunaydin") as H1 by (split_and!; reflexivity).
  assert (one_line "Good morning to you") as H2 by (split_and!; reflexivity).
  split; [exact H1|]. split; [exact H2|].
  exact (parse_formatted_answer "English" "Turkish" "Gunaydin" "Good morning to you"
           eq_refl eq_refl eq_refl eq_refl H1 H2).
Defined.

Lemma translate_with_OpenAI_witness :
  let w := Sample.fresh "OpenAI" in
  let w' := (run_translate_rephrase Timestamp.strptime_padded Sample.re_sub
               Sample.dict_str Sample.translator Sample.formatted_chat Sample.post
               "Good morning" w).2 in
  one_line "Gunaydin" /\ one_line "Good morning to you"
  /\ ui_log w'
     = [set_textboxes "Good morning" "Gunaydin" "Good morning to you";
        update_button_states false]
  /\ last_translation w' = "Gunaydin"
  /\ last_selected_text w' = "Good morning"
  /\ length (history_data w') = 1.
Proof.
  intros w w'.
  assert (one_line "Gunaydin") as H1 by (split_and!; reflexivity).
  assert (one_line "Good morning to you") as H2 by (split_and!; reflexivity).
  assert (PyStr.strip "Good morning" <> "") as Hs by (intros E; discriminate E).
  destruct (translate_with_OpenAI Timestamp.strptime_padded Sample.re_sub
              Sample.dict_str Sample.translator Sample.formatted_chat Sample.post
              "Good morning" "Gunaydin" "Good morning to you" w
              eq_refl eq_refl Hs eq_refl eq_refl eq_refl eq_refl H1 H2
              eq_refl eq_refl) as (_ & Hu & Hl & Hsel & Hlen & _).
  split; [exact H1|]. split; [exact H2|]. split; [exact Hu|].
  split; [exact Hl|]. split; [exact Hsel|exact Hlen].
Defined.

Lemma load_api_keys_accepts_witness :
  let children := [ ("openai", Some " sk-proj-0123 ");
                    ("deepseek", Some "YOUR_DEEPSEEK_KEY_HERE");
                    ("deepl", None) ] in
  exists keys,
    load_api_keys (config_root (Some children))
    = returns (keys, 1, config_root (Some children))
    /\ key_openai keys = Some "sk-proj-0123"
    /\ key_deepseek keys = None /\ key_deepl keys = None.
Proof.
  intros children.
  destruct (load_api_keys_accepts (config_root (Some children))) as (H & _).
  destruct (H children eq_refl) as (keys & Hl & _).
  exists keys. rewrite Hl in *.
  assert (keys = mk_keys (Some "sk-proj-0123") None None) as ->.
  { assert (load_api_keys (config_root (Some children))
            = returns (mk_keys (Some "sk-proj-0123") None None, 1,
                       config_root (Some children))) as Hc by reflexivity.
    rewrite Hl in Hc. injection Hc as Hk _. exact Hk. }
  split_and!; reflexivity.
Defined.

Lemma save_then_load_api_keys_witness :
  xml_plain " sk-proj-0123 " = true
  /\ load_api_keys (save_api_keys_to_xml " sk-proj-0123 " "  " "0a1b2c:fx")
     = returns (mk_keys (Some "sk-proj-0123") None (Some "0a1b2c:fx"), 2,
                save_api_keys_to_xml " sk-proj-0123 " "  " "0a1b2c:fx").
Proof.
  split; [reflexivity|].
  destruct (save_then_load_api_keys " sk-proj-0123 " "  " "0a1b2c:fx"
              eq_refl eq_refl eq_refl) as (H & _).
  exact H.
Defined.

Lemma update_gui_after_reload_consistent_witness :
  let e := Sample.only_openai in
  let e' := update_gui_after_reload e in
  api_provider_var e = Some "DeepSeek"
  /\ exists provider source',
       api_provider_var e' = Some provider
       /\ source_language_var e' = Some source'
       /\ (provider ∈ available_providers e \/ provider = NO_APIS)
       /\ (is_Some (languages_of provider !! source')
           \/ languages_of provider = ∅).
Proof.
  intros e e'. split; [reflexivity|].
  destruct (update_gui_after_reload_consistent e "DeepSeek" "Chinese (simplified)"
              "Turkish" eq_refl eq_refl eq_refl)
    as (provider & source' & target' & Hp & Hs & _ & Hin & _ & _ & Hl & _).
  exists provider, source'. split; [exact Hp|]. split; [exact Hs|].
  split; [exact Hin|].
  destruct Hl as [[H _]|[H _]]; [left; exact H|right; exact H].
Defined.

Lemma rephrase_again_with_OpenAI_witness :
  let w := Sample.after_translate "OpenAI" in
  let w' := (rephrase_again Timestamp.strptime_padded Sample.re_sub Sample.dict_str
               Sample.translator Sample.formatted_chat Sample.post [] w).2 in
  last_selected_text w <> ""
  /\ ui_log w'
     = [set_textboxes "Good morning" "Gunaydin"
          ("Turkish Translation: Gunaydin" +:+ PyStr.nl
           +:+ "English Rephrased: Good morning to you");
        update_button_states false]
  /\ last_selected_text w' = "Good morning"
  /\ length (history_data w') = 2.
Proof.
  intros w w'.
  assert (last_selected_text w <> "") as H by (intros E; discriminate E).
  destruct (rephrase_again_with_OpenAI Timestamp.strptime_padded Sample.re_sub
              Sample.dict_str Sample.translator Sample.formatted_chat Sample.post
              [] _ w eq_refl eq_refl H eq_refl eq_refl)
    as (_ & Hu & Hsel & _ & _ & Hlen & _).
  split; [exact H|]. split; [exact Hu|]. split; [exact Hsel|exact Hlen].
Defined.
